(** * Ax benchmarking: problems, methods, the asynchronous backend simulator
      and result aggregation

    A shallow embedding of [ax/benchmark/benchmark_problem.py],
    [ax/benchmark/benchmark_method.py], [ax/modelbridge/random.py],
    [ax/utils/common/typeutils.py] and [ax/metrics/branin_map.py],
    together with models of the simulator, the scheduling loop and the result
    classes that [ax/benchmark/tests/test_benchmark.py] exercises.

    Python integers are [Z], floats that only carry data are [Q], strings are
    [string], sets of names are [gset string], dictionaries are [gmap].
    A function that may raise returns a [result]. Objects that are mutated
    through a shared reference live in an explicit store. *)

From Stdlib Require Import ZArith QArith Qround List Lia.
From stdpp Require Import base option gmap sets strings list pretty.
Import ListNotations.

Local Open Scope string_scope.
Local Open Scope Z_scope.
Local Open Scope list_scope.

(** ** Exceptions

    The two exception classes the sources raise, with their message. *)

Inductive exception : Type :=
| NotImplementedError (msg : string)
| ValueError (msg : string).

Inductive result (A : Type) : Type :=
| Return (a : A)
| Raise (e : exception).
Arguments Return {A} a.
Arguments Raise {A} e.

Definition raises {A : Type} (r : result A) : Prop := exists e, r = Raise e.

(** The class of the exception a call raised, if it raised. *)
Definition raised_class {A : Type} (r : result A) : option string :=
  match r with
  | Return _ => None
  | Raise (NotImplementedError _) => Some "NotImplementedError"
  | Raise (ValueError _) => Some "ValueError"
  end.

(** ** The part of [ax.core] the benchmark classes read

    The declarations of [ax.core] and of the generation strategy are not
    among the sources; each type below keeps what the embedded functions
    read from it. *)

Module core.

(** Modelled from the spec: a parameter value of the search-space data model
    (§1, an external collaborator), with the alternatives of
    [ax.core.types.TParamValue]: [None | str | bool | float | int]. *)
Inductive TParamValue : Type :=
| PNone
| PStr (s : string)
| PBool (b : bool)
| PFloat (q : Q)
| PInt (z : Z).

(** Modelled from the spec: the objective of an optimization config (§3,
    "single- or multi-objective"): [objective.metric.name] of an
    [Objective], or the metric names of [objective.objectives] of a
    [MultiObjective]. *)
Inductive Objective : Type :=
| SingleObjective (metric_name : string)
| MultiObjective (objectives : list string).

(** Modelled from the spec: the class of an optimization config, which
    [isinstance] tests. *)
Inductive config_class : Type :=
| OptimizationConfigClass
| MultiObjectiveOptimizationConfigClass.

(** Modelled from the spec: the optimization config of §3 ("single- or
    multi-objective, optional outcome constraints"). [outcome_constraints]
    keeps [c.metric.name] of each constraint. *)
Record OptimizationConfig : Type := {
  cls : config_class;
  objective : Objective;
  outcome_constraints : list string;
}.

(** [isinstance(optimization_config, MultiObjectiveOptimizationConfig)] *)
Definition is_multi_objective_config (c : OptimizationConfig) : bool :=
  match cls c with
  | MultiObjectiveOptimizationConfigClass => true
  | OptimizationConfigClass => false
  end.

(** Modelled from the spec: a parameter of the search space (§3), with the
    attributes [BenchmarkProblem.__post_init__] reads. *)
Record SearchSpaceParameter : Type := {
  pname : string;
  is_choice_parameter : bool;  (* isinstance(p, ChoiceParameter) *)
  is_task : bool;
  is_fidelity : bool;
  target_value : TParamValue;
}.

(** Modelled from the spec: the generation strategy (§6), of which the
    embedded functions read the name only. *)
Record GenerationStrategy : Type := { gs_name : string }.

End core.

(** ** [ax/benchmark/benchmark_problem.py] *)

Module benchmark_problem.
Import core.

(** The dataclass [BenchmarkProblem]. Of the test function its
    [outcome_names] are kept, of the search space its parameters; [noise_std]
    is left out, nothing below reads it. A trial is handed to
    [trial_runtime_func] as its index. *)
Record BenchmarkProblem : Type := {
  name : string;
  optimization_config : OptimizationConfig;
  num_trials : Z;
  test_function_outcome_names : list string; (* test_function.outcome_names *)
  optimal_value : Q;
  search_space : list SearchSpaceParameter;  (* search_space.parameters.values() *)
  report_inference_value_as_trace : bool;
  n_best_points : Z;
  trial_runtime_func : option (nat -> Z);
  target_fidelity_and_task : gmap string TParamValue;
}.

(** The property [is_moo]. *)
Definition is_moo (self : BenchmarkProblem) : bool :=
  is_multi_objective_config (optimization_config self).

(** [objective_names] of [__post_init__]: a set comprehension over the
    objectives of a [MultiObjective], a singleton otherwise. *)
Definition objective_names (o : Objective) : gset string :=
  match o with
  | MultiObjective objs => list_to_set objs
  | SingleObjective n => {[ n ]}
  end.

(** The dict comprehension that ends [__post_init__]; a later parameter of
    the same name overwrites an earlier one. *)
Definition compute_target_fidelity_and_task (ps : list SearchSpaceParameter)
  : gmap string TParamValue :=
  list_to_map
    (rev (map (fun p => (pname p, target_value p))
            (List.filter
               (fun p => (is_choice_parameter p && is_task p) || is_fidelity p)
               ps))).

Definition set_target_fidelity_and_task
    (self : BenchmarkProblem) (m : gmap string TParamValue) : BenchmarkProblem :=
  {| name := name self;
     optimization_config := optimization_config self;
     num_trials := num_trials self;
     test_function_outcome_names := test_function_outcome_names self;
     optimal_value := optimal_value self;
     search_space := search_space self;
     report_inference_value_as_trace := report_inference_value_as_trace self;
     n_best_points := n_best_points self;
     trial_runtime_func := trial_runtime_func self;
     target_fidelity_and_task := m |}.

(** [BenchmarkProblem.__post_init__]. The two [ValueError] messages end in
    the repr of the set [missing], whose order Python does not fix; the
    model keeps the part of the message before it. *)
Definition __post_init__ (self : BenchmarkProblem) : result BenchmarkProblem :=
  if negb (n_best_points self =? 1) then
    Raise (NotImplementedError "Only `n_best_points=1` is currently supported.")
  else if report_inference_value_as_trace self && is_moo self then
    Raise (NotImplementedError
      "Inference trace is not supported for MOO. Please set `report_inference_value_as_trace` to False.")
  else
    let objective_names := objective_names (objective (optimization_config self)) in
    let test_function_names : gset string :=
      list_to_set (test_function_outcome_names self) in
    let missing := objective_names ∖ test_function_names in
    if (0 <? Z.of_nat (size missing)) then
      Raise (ValueError
        "The following objectives are defined on `optimization_config` but not included in `runner.test_function.outcome_names`: ")
    else
      let constraints := outcome_constraints (optimization_config self) in
      let constraint_names : gset string := list_to_set constraints in
      let missing := constraint_names ∖ test_function_names in
      if (0 <? Z.of_nat (size missing)) then
        Raise (ValueError
          "The following constraints are defined on `optimization_config` but not included in `runner.test_function.outcome_names`: ")
      else
        Return (set_target_fidelity_and_task self
                  (compute_target_fidelity_and_task (search_space self))).

End benchmark_problem.

(** ** [ax/benchmark/benchmark_method.py] *)

Module benchmark_method.
Import core.

(** Modelled from the spec: an early-stopping strategy object (§6: "a
    [seconds_between_polls] field [...] and [min_progression]/[min_curves]
    thresholds"); the class is not among the sources.
    [seconds_between_polls] is the field [BenchmarkMethod.__post_init__]
    reads and writes; the threshold fields are those of the strategy the
    tests build, [ThresholdEarlyStoppingStrategy(metric_threshold,
    min_progression, min_curves)]. *)
Record EarlyStoppingStrategy : Type := {
  seconds_between_polls : Z;
  metric_threshold : Q;
  min_progression : Z;
  min_curves : Z;
}.

Definition set_seconds_between_polls (s : EarlyStoppingStrategy) (v : Z)
  : EarlyStoppingStrategy :=
  {| seconds_between_polls := v;
     metric_threshold := metric_threshold s;
     min_progression := min_progression s;
     min_curves := min_curves s |}.

(** Strategy objects are shared by reference between the caller, the method
    and the scheduler options: they live in a store, and the method holds a
    location. *)
Abbreviation loc := positive.
Abbreviation store := (gmap positive EarlyStoppingStrategy).

(** Modelled from the spec: the "trial-vs-batch mode" of the execution
    options (§3); [TrialType] is not among the sources. *)
Inductive TrialType : Type := TRIAL | BATCH_TRIAL.

(** Modelled from the spec: the execution options a method derives (§3),
    with the keyword arguments [scheduler_options] passes;
    [SchedulerOptions] is not among the sources. *)
Record SchedulerOptions : Type := {
  so_max_pending_trials : Z;
  so_init_seconds_between_polls : Z;
  so_min_seconds_before_poll : Z;
  so_trial_type : TrialType;
  so_batch_size : Z;
  so_run_trials_in_batches : bool;
  so_early_stopping_strategy : option loc;
}.

(** The dataclass [BenchmarkMethod]. *)
Record BenchmarkMethod : Type := {
  name : string;
  generation_strategy : GenerationStrategy;
  batch_size : Z;
  timeout_hours : Q;
  distribute_replications : bool;
  use_model_predictions_for_best_point : bool;
  run_trials_in_batches : bool;
  max_pending_trials : Z;
  early_stopping_strategy : option loc;
}.

Definition set_name (self : BenchmarkMethod) (n : string) : BenchmarkMethod :=
  {| name := n;
     generation_strategy := generation_strategy self;
     batch_size := batch_size self;
     timeout_hours := timeout_hours self;
     distribute_replications := distribute_replications self;
     use_model_predictions_for_best_point :=
       use_model_predictions_for_best_point self;
     run_trials_in_batches := run_trials_in_batches self;
     max_pending_trials := max_pending_trials self;
     early_stopping_strategy := early_stopping_strategy self |}.

(** The message of the warning, an f-string over [seconds_between_polls]. *)
Definition seconds_between_polls_warning (seconds_between_polls : Z) : string :=
  "`early_stopping_strategy.seconds_between_polls` is "
  +:+ pretty seconds_between_polls
  +:+ ", but benchmarking uses 0 seconds between polls. Setting `early_stopping_strategy.seconds_between_polls` to 0.".

(** The effects of [__post_init__]: the method itself, the store of strategy
    objects, and the warnings emitted. *)
Record post_init_outcome : Type := {
  method_after : BenchmarkMethod;
  store_after : store;
  warnings : list string;
}.

(** [BenchmarkMethod.__post_init__]. A location held by a method always
    refers to an object; the branch for an unallocated location changes
    nothing. *)
Definition __post_init__ (self : BenchmarkMethod) (h : store) : post_init_outcome :=
  let self :=
    if bool_decide (name self = "DEFAULT")
    then set_name self (gs_name (generation_strategy self))
    else self in
  match early_stopping_strategy self with
  | Some l =>
      match h !! l with
      | Some ess =>
          let seconds := seconds_between_polls ess in
          if 0 <? seconds then
            {| method_after := self;
               store_after := <[ l := set_seconds_between_polls ess 0 ]> h;
               warnings := [seconds_between_polls_warning seconds] |}
          else {| method_after := self; store_after := h; warnings := [] |}
      | None => {| method_after := self; store_after := h; warnings := [] |}
      end
  | None => {| method_after := self; store_after := h; warnings := [] |}
  end.

(** The property [BenchmarkMethod.scheduler_options]. *)
Definition scheduler_options (self : BenchmarkMethod) : SchedulerOptions :=
  {| so_max_pending_trials := max_pending_trials self;
     so_init_seconds_between_polls := 0;
     so_min_seconds_before_poll := 0;
     so_trial_type := if batch_size self =? 1 then TRIAL else BATCH_TRIAL;
     so_batch_size := batch_size self;
     so_run_trials_in_batches := run_trials_in_batches self;
     so_early_stopping_strategy := early_stopping_strategy self |}.

Abbreviation TParameterization := (gmap string TParamValue).

Section get_best_parameters.
(** [Experiment] and the model's prediction for an arm are opaque here;
    [BestPointMixin._get_best_trial] is taken with the type of its
    signature: [tuple[int, TParameterization, TModelPredictArm | None]
    | None]. *)
Context {Experiment TModelPredictArm : Type}.
Variable _get_best_trial :
  Experiment -> GenerationStrategy -> OptimizationConfig -> bool ->
  option (Z * TParameterization * option TModelPredictArm).

Definition get_best_parameters
    (self : BenchmarkMethod) (experiment : Experiment)
    (optimization_config : OptimizationConfig) (n_points : Z)
  : result (list TParameterization) :=
  if is_multi_objective_config optimization_config then
    Raise (NotImplementedError
      "BenchmarkMethod.get_pareto_optimal_parameters is not currently supported for multi-objective problems.")
  else if negb (n_points =? 1) then
    Raise (NotImplementedError
      ("Currently only n_points=1 is supported. Got n_points="
       +:+ pretty n_points +:+ "."))
  else
    (* SOO, n=1 case. *)
    let result := _get_best_trial experiment (generation_strategy self)
                    optimization_config
                    (use_model_predictions_for_best_point self) in
    match result with
    | None => Return []
    | Some (i, params, prediction) => Return [params]
    end.
End get_best_parameters.

End benchmark_method.

(** ** [ax/modelbridge/random.py] *)

Module random.

Section RandomModelBridge.
(** The bridge object and the observation types are opaque: neither
    method looks at its arguments. *)
Context {RandomModelBridge SearchSpace Observation ObservationFeatures
         ObservationData : Type}.

Definition _predict (self : RandomModelBridge)
    (observation_features : list ObservationFeatures)
  : result (list ObservationData) :=
  Raise (NotImplementedError "RandomModelBridge does not support prediction.").

Definition _cross_validate (self : RandomModelBridge)
    (search_space : SearchSpace)
    (cv_training_data : list Observation)
    (cv_test_points : list ObservationFeatures)
    (use_posterior_predictive : bool)
  : result (list ObservationData) :=
  Raise (NotImplementedError "").
End RandomModelBridge.

End random.

(** ** The backend simulator (§4.1 of the specification)

    The simulator, the runner and the scheduler are not among the sources;
    only their test, [ax/benchmark/tests/test_benchmark.py], is. *)

Module backend_simulator.

(** Modelled from the spec: the [SimTrial] timing record of the simulator
    module, which is not among the sources. Fields as in §3 and as the test
    reads them from [__dict__]; start and completion times are unset until
    the trial is promoted, respectively finished. *)
Record SimTrial : Type := {
  trial_index : nat;
  sim_runtime : Z;
  sim_queued_time : Z;
  sim_start_time : option Z;
  sim_completed_time : option Z;
}.

(** Modelled from the spec: the state of [BackendSimulator] (§3), which is
    not among the sources: the virtual clock and the four collections a trial
    moves through. The queue is kept in arrival order. *)
Record BackendSimulator : Type := {
  max_pending_trials : nat;
  time : Z;
  _queued : list SimTrial;
  _running : list SimTrial;
  _completed : list SimTrial;
  _early_stopped : list SimTrial;
}.

(** Modelled from the spec: a fresh simulator, at virtual time 0 with no
    trial (§4.3, INIT: "zero trials exist"). *)
Definition new_simulator (max_pending_trials : nat) : BackendSimulator :=
  {| max_pending_trials := max_pending_trials; time := 0;
     _queued := []; _running := []; _completed := []; _early_stopped := [] |}.

Definition all_trials (sim : BackendSimulator) : list SimTrial :=
  _queued sim ++ _running sim ++ _completed sim ++ _early_stopped sim.

Definition has_index (i : nat) (t : SimTrial) : bool := (trial_index t =? i)%nat.

(** Modelled from the spec: [get_sim_trial_by_index(i)], "returns the
    SimTrial record or a not-found signal". *)
Definition get_sim_trial_by_index (sim : BackendSimulator) (i : nat)
  : option SimTrial :=
  find (has_index i) (all_trials sim).

(** Modelled from the spec: [run_trial(trial_index, runtime, queued_time)],
    "registers a new SimTrial in the queued state. Fails if trial_index
    already registered". *)
Definition run_trial (sim : BackendSimulator)
    (trial_index : nat) (runtime queued_time : Z) : option BackendSimulator :=
  match get_sim_trial_by_index sim trial_index with
  | Some _ => None
  | None =>
      Some {| max_pending_trials := max_pending_trials sim;
              time := time sim;
              _queued := _queued sim ++
                [ {| trial_index := trial_index; sim_runtime := runtime;
                     sim_queued_time := queued_time;
                     sim_start_time := None; sim_completed_time := None |} ];
              _running := _running sim;
              _completed := _completed sim;
              _early_stopped := _early_stopped sim |}
  end.

(** Modelled from the spec: the promotion order of §4.1, "FIFO by
    queued_time, then by trial_index for determinism". *)
Definition promoted_before (a b : SimTrial) : bool :=
  (sim_queued_time a <? sim_queued_time b)
  || ((sim_queued_time a =? sim_queued_time b)
      && (trial_index a <=? trial_index b)%nat).

Fixpoint insert_in_order (t : SimTrial) (q : list SimTrial) : list SimTrial :=
  match q with
  | [] => [t]
  | u :: q' =>
      if promoted_before t u then t :: q else u :: insert_in_order t q'
  end.

(** Modelled from the spec: the queue in promotion order (an insertion
    sort, stable for equal keys). *)
Definition promotion_order (q : list SimTrial) : list SimTrial :=
  foldr insert_in_order [] q.

Definition start_at (now : Z) (t : SimTrial) : SimTrial :=
  {| trial_index := trial_index t; sim_runtime := sim_runtime t;
     sim_queued_time := sim_queued_time t;
     sim_start_time := Some (Z.max now (sim_queued_time t));
     sim_completed_time := sim_completed_time t |}.

(** Modelled from the spec: step (a) of [update()], "promotes trials from
    queued to running while the running-set size is below
    max_pending_trials, assigning sim_start_time = max(current time,
    queued_time)". Returns the trials left in the queue and the running
    set. *)
Fixpoint promote (now : Z) (capacity : nat) (queued running : list SimTrial)
  : list SimTrial * list SimTrial :=
  match queued with
  | [] => ([], running)
  | t :: queued' =>
      if (length running <? capacity)%nat
      then promote now capacity queued' (running ++ [start_at now t])
      else (queued, running)
  end.

(** Modelled from the spec: step (b) of [update()] concerns "each running
    trial whose start_time + runtime <= now". *)
Definition is_due (now : Z) (t : SimTrial) : bool :=
  match sim_start_time t with
  | Some start => start + sim_runtime t <=? now
  | None => false
  end.

Definition complete_at (completed_time : option Z) (t : SimTrial) : SimTrial :=
  {| trial_index := trial_index t; sim_runtime := sim_runtime t;
     sim_queued_time := sim_queued_time t;
     sim_start_time := sim_start_time t;
     sim_completed_time := completed_time |}.

(** Modelled from the spec: step (b) of [update()], "moves it to completed
    with sim_completed_time = start_time + runtime". *)
Definition complete (t : SimTrial) : SimTrial :=
  complete_at (start ← sim_start_time t; Some (start + sim_runtime t)) t.

(** Modelled from the spec: [update()] with the externally supplied time
    [now]: "advances internal clock to now, then (a) promotes trials from
    queued to running [...] (b) for each running trial whose start_time +
    runtime <= now, moves it to completed". The clock never goes back
    ("monotonically non-decreasing"). *)
Definition update (sim : BackendSimulator) (now : Z) : BackendSimulator :=
  let now := Z.max (time sim) now in
  let qr := promote now (max_pending_trials sim)
              (promotion_order (_queued sim)) (_running sim) in
  {| max_pending_trials := max_pending_trials sim;
     time := now;
     _queued := qr.1;
     _running := List.filter (fun t => negb (is_due now t)) qr.2;
     _completed := _completed sim ++ map complete (List.filter (is_due now) qr.2);
     _early_stopped := _early_stopped sim |}.

(** Modelled from the spec: [stop_running_trial(trial_index,
    new_completed_time)], "moves a running trial directly to the
    early-stopped set with sim_completed_time = new_completed_time [...];
    fails if the trial is not currently running". *)
Definition stop_running_trial (sim : BackendSimulator)
    (trial_index : nat) (new_completed_time : Z) : option BackendSimulator :=
  match find (has_index trial_index) (_running sim) with
  | None => None
  | Some t =>
      Some {| max_pending_trials := max_pending_trials sim;
              time := time sim;
              _queued := _queued sim;
              _running :=
                List.filter (fun u => negb (has_index trial_index u)) (_running sim);
              _completed := _completed sim;
              _early_stopped :=
                _early_stopped sim ++ [complete_at (Some new_completed_time) t] |}
  end.

Record SimStatus : Type := {
  queued : gset nat;
  running : gset nat;
  completed : gset nat;
  early_stopped : gset nat;
}.

Definition indices (l : list SimTrial) : list nat := map trial_index l.

(** Modelled from the spec: [state()], "a read-only snapshot of {queued,
    running, completed, early-stopped} trial-index sets". *)
Definition state (sim : BackendSimulator) : SimStatus :=
  {| queued := list_to_set (indices (_queued sim));
     running := list_to_set (indices (_running sim));
     completed := list_to_set (indices (_completed sim));
     early_stopped := list_to_set (indices (_early_stopped sim)) |}.

End backend_simulator.

(** ** The runner (§4.2) *)

Module benchmark_runner.
Import backend_simulator.

(** Modelled from the spec: the runner, which is not among the sources. It
    "owns exactly one BackendSimulator instance" and holds the problem's
    [trial_runtime_func]. *)
Record BenchmarkRunner : Type := {
  simulator : BackendSimulator;
  trial_runtime_func : option (nat -> Z);
}.

(** Modelled from the spec: [run(trial)], "computes this trial's virtual
    runtime via the problem's trial_runtime_func (default constant 1),
    registers it with the Backend Simulator at the current queued time". *)
Definition run (r : BenchmarkRunner) (trial_index : nat) : option BenchmarkRunner :=
  let runtime :=
    match trial_runtime_func r with
    | Some f => f trial_index
    | None => 1
    end in
  sim ← run_trial (simulator r) trial_index runtime (time (simulator r));
  Some {| simulator := sim; trial_runtime_func := trial_runtime_func r |}.

(** Modelled from the spec: the statuses [poll_trial_status] reports,
    "{running, completed, early-stopped}"; a queued trial has been deployed
    and counts as running. *)
Inductive TrialStatus : Type := RUNNING | COMPLETED | EARLY_STOPPED.

Definition trial_status (sim : BackendSimulator) (i : nat) : option TrialStatus :=
  if existsb (has_index i) (_completed sim) then Some COMPLETED
  else if existsb (has_index i) (_early_stopped sim) then Some EARLY_STOPPED
  else if existsb (has_index i) (_queued sim ++ _running sim) then Some RUNNING
  else None.

(** Modelled from the spec: [poll_trial_status(trials)], "for each trial,
    maps simulator state to {running, completed, early-stopped}; never
    mutates simulator state itself except by calling update() once per
    poll". [now] is the time the caller supplies to [update]. *)
Definition poll_trial_status (r : BenchmarkRunner) (now : Z) (trials : list nat)
  : BenchmarkRunner * list (nat * option TrialStatus) :=
  let sim := update (simulator r) now in
  ({| simulator := sim; trial_runtime_func := trial_runtime_func r |},
   map (fun i => (i, trial_status sim i)) trials).

(** Modelled from the spec: [poll_available_capacity()], "remaining run
    slots = max_pending_trials - |running set|". *)
Definition poll_available_capacity (r : BenchmarkRunner) : nat :=
  (max_pending_trials (simulator r) - length (_running (simulator r)))%nat.

End benchmark_runner.

(** ** Results of a replication and their aggregation (§3, §4.5) *)

Module benchmark_result.

Section BenchmarkResult.
Context {Experiment : Type}.

(** Modelled from the spec: the [BenchmarkResult] dataclass, which is not
    among the sources; the fields are those the test passes to its
    constructor. *)
Record BenchmarkResult : Type := {
  name : string;
  seed : Z;
  inference_trace : list Q;
  oracle_trace : list Q;
  optimization_trace : list Q;
  score_trace : list Q;
  fit_time : Q;
  gen_time : Q;
  experiment : option Experiment;
  experiment_storage_id : option string;
}.

(** Modelled from the spec: the validation run by the constructor (P6):
    "with both [experiment] and [experiment_storage_id] set raises a
    configuration error; with neither set, also raises". The messages are
    the parts [test_benchmark_result_invalid_inputs] matches. *)
Definition __post_init__ (self : BenchmarkResult) : result BenchmarkResult :=
  match experiment self, experiment_storage_id self with
  | Some _, Some _ =>
      Raise (ValueError "Cannot specify both an `experiment` ")
  | None, None =>
      Raise (ValueError "Must provide an `experiment` or `experiment_storage_id`")
  | _, _ => Return self
  end.

Definition holds_both (r : BenchmarkResult) : bool :=
  bool_decide (is_Some (experiment r))
  && bool_decide (is_Some (experiment_storage_id r)).

Definition holds_neither (r : BenchmarkResult) : bool :=
  negb (bool_decide (is_Some (experiment r)))
  && negb (bool_decide (is_Some (experiment_storage_id r))).

Definition holds_exactly_one (r : BenchmarkResult) : bool :=
  negb (holds_both r) && negb (holds_neither r).

(** Modelled from the spec: the two nullable fields of §9 ("two nullable
    fields guarded by ad hoc validation") are assigned as [test_storage]
    does on a constructed result, [res.experiment_storage_id = v] and
    [res.experiment = v]: plain field updates, the constructor's validation
    does not run again. *)
Definition set_experiment_storage_id (r : BenchmarkResult) (v : option string)
  : BenchmarkResult :=
  {| name := name r; seed := seed r; inference_trace := inference_trace r;
     oracle_trace := oracle_trace r; optimization_trace := optimization_trace r;
     score_trace := score_trace r; fit_time := fit_time r; gen_time := gen_time r;
     experiment := experiment r; experiment_storage_id := v |}.

Definition set_experiment (r : BenchmarkResult) (v : option Experiment)
  : BenchmarkResult :=
  {| name := name r; seed := seed r; inference_trace := inference_trace r;
     oracle_trace := oracle_trace r; optimization_trace := optimization_trace r;
     score_trace := score_trace r; fit_time := fit_time r; gen_time := gen_time r;
     experiment := v; experiment_storage_id := experiment_storage_id r |}.

End BenchmarkResult.
Arguments BenchmarkResult Experiment : clear implicits.

(** *** Summary statistics *)

Fixpoint insert_sorted (x : Q) (l : list Q) : list Q :=
  match l with
  | [] => [x]
  | y :: l' => if Qle_bool x y then x :: l else y :: insert_sorted x l'
  end.

Definition sort_values (l : list Q) : list Q := foldr insert_sorted [] l.

(** Modelled from the spec: the "mean" column of a summary (§4.5). *)
Definition mean_of (l : list Q) : Q :=
  (foldr Qplus 0 l / inject_Z (Z.of_nat (length l)))%Q.

(** Modelled from the spec: a "quantile" column of a summary (§4.5): the
    [p]-th quantile, interpolating linearly between the two nearest order
    statistics. *)
Definition quantile_of (p : Q) (l : list Q) : Q :=
  let sorted := sort_values l in
  let pos := (inject_Z (Z.of_nat (length l - 1)) * p)%Q in
  let lo := Z.to_nat (Qfloor pos) in
  let frac := (pos - inject_Z (Qfloor pos))%Q in
  let x_lo := nth lo sorted 0%Q in
  let x_hi := nth (Nat.min (S lo) (length l - 1)) sorted 0%Q in
  (x_lo + frac * (x_hi - x_lo))%Q.

(** Modelled from the spec: a row of a summary table, "mean and quantile
    (25th/50th/75th percentile) columns"; the column names are those
    [test_benchmark_one_method_problem] reads. *)
Record stats : Type := { mean : Q; P25 : Q; P50 : Q; P75 : Q }.

Definition get_stats (step : list Q) : stats :=
  {| mean := mean_of step;
     P25 := quantile_of (1 # 4) step;
     P50 := quantile_of (1 # 2) step;
     P75 := quantile_of (3 # 4) step |}.

(** The length of the shortest trace; [0] for no trace at all. *)
Definition shortest (traces : list (list Q)) : nat :=
  match map length traces with
  | [] => 0%nat
  | n :: ns => foldr Nat.min n ns
  end.

(** Modelled from the spec: the alignment of §4.5, "truncates/aligns traces
    to the shortest successful length before computing mean and quantile
    (25th/50th/75th percentile) columns". Row [i] collects entry [i] of
    every trace that has one. *)
Definition summarize (traces : list (list Q)) : list stats :=
  map (fun i => get_stats (omap (fun trace => trace !! i) traces))
      (seq 0 (shortest traces)).

Section AggregatedResult.
Context {Experiment : Type}.

(** Modelled from the spec: [AggregatedResult] (§3), which is not among the
    sources: "ordered list of BenchmarkResults, and summary trace tables
    (mean and quantile columns) truncated to the shortest individual trace
    length among constituents". *)
Record AggregatedResult : Type := {
  results : list (BenchmarkResult Experiment);
  agg_optimization_trace : list stats;
  agg_score_trace : list stats;
}.

(** Modelled from the spec: the aggregation of §4.5, each of the two
    summary tables computed from the constituents' traces of that name. *)
Definition from_benchmark_results (results : list (BenchmarkResult Experiment))
  : AggregatedResult :=
  {| results := results;
     agg_optimization_trace := summarize (map optimization_trace results);
     agg_score_trace := summarize (map score_trace results) |}.

End AggregatedResult.
Arguments AggregatedResult Experiment : clear implicits.

End benchmark_result.

(** ** The scheduling loop and the replication driver (§4.3, §4.4) *)

Module benchmark.
Import core backend_simulator benchmark_runner.

(** Modelled from the spec: the two final states of the loop of §4.3. *)
Inductive loop_status : Type := DONE | TIMED_OUT.

(** What a fuelled run of the loop gives: no answer within the fuel, a
    failed simulator operation (an exception in the program), or an
    answer. *)
Inductive outcome (A : Type) : Type :=
| OutOfFuel
| Failed
| Finished (a : A).
Arguments OutOfFuel {A}.
Arguments Failed {A}.
Arguments Finished {A} a.

(** Modelled from the spec: the state the generation/scheduling loop of
    §4.3 threads through its iterations; the scheduler is not among the
    sources. [clock] counts iterations, and is the virtual time supplied to
    the simulator ("1 virtual time unit per iteration"). [history] has one
    entry per finished trial: the trials finished when it was reported.
    [pending_in_each_gen] has one entry per generation call: the trials
    deployed but not finished at that call. *)
Record scheduler : Type := {
  runner : BenchmarkRunner;
  clock : nat;
  n_created : nat;
  pending_in_each_gen : list (list nat);
  history : list (list nat);
  log : list string;
}.

Definition with_runner (st : scheduler) (r : BenchmarkRunner) : scheduler :=
  {| runner := r; clock := clock st; n_created := n_created st;
     pending_in_each_gen := pending_in_each_gen st;
     history := history st; log := log st |}.

Definition finished_trials (sim : BackendSimulator) : list SimTrial :=
  _completed sim ++ _early_stopped sim.

Definition n_finished (st : scheduler) : nat :=
  length (finished_trials (simulator (runner st))).

(** Modelled from the spec: RUNNING, "poll trial statuses", at the virtual
    time of the iteration. *)
Definition poll (st : scheduler) : scheduler :=
  with_runner st
    (poll_trial_status (runner st) (Z.of_nat (clock st)) (seq 0 (n_created st))).1.

(** Modelled from the spec: the traces are "indexed by completed-trial
    count" (§3): one entry of [history] for each trial that finished since
    the last report. *)
Definition report (st : scheduler) : scheduler :=
  let finished := finished_trials (simulator (runner st)) in
  {| runner := runner st; clock := clock st; n_created := n_created st;
     pending_in_each_gen := pending_in_each_gen st;
     history := history st ++
       repeat (indices finished) (length finished - length (history st));
     log := log st |}.

(** Modelled from the spec: one generation call of GENERATING, "compute the
    set of pending (incomplete) observation features from all non-completed
    trials; [...] create one Trial [...] per generation call; deploy via
    Runner". The trial gets the next index. *)
Definition deploy_one (st : scheduler) : option scheduler :=
  let sim := simulator (runner st) in
  r ← run (runner st) (n_created st);
  Some {| runner := r; clock := clock st; n_created := S (n_created st);
          pending_in_each_gen :=
            pending_in_each_gen st ++ [indices (_running sim ++ _queued sim)];
          history := history st; log := log st |}.

Fixpoint deploy (n : nat) (st : scheduler) : option scheduler :=
  match n with
  | O => Some st
  | S n' => st' ← deploy_one st; deploy n' st'
  end.

Definition tick (st : scheduler) : scheduler :=
  {| runner := runner st; clock := S (clock st); n_created := n_created st;
     pending_in_each_gen := pending_in_each_gen st;
     history := history st; log := log st |}.

Definition warn (msg : string) (st : scheduler) : scheduler :=
  {| runner := runner st; clock := clock st; n_created := n_created st;
     pending_in_each_gen := pending_in_each_gen st;
     history := history st; log := log st ++ [msg] |}.

Definition Qlt_bool (a b : Q) : bool := negb (Qle_bool b a).

Fixpoint stop_trials (sim : BackendSimulator) (flagged : list nat) (now : Z)
  : option BackendSimulator :=
  match flagged with
  | [] => Some sim
  | i :: flagged' =>
      sim' ← stop_running_trial sim i now; stop_trials sim' flagged' now
  end.

Section scheduling_loop.

(** The problem: target trial count, the value the test function gives the
    arm of trial [i] (the same at every progression step), the direction of
    the objective, and the length of the progression of a map metric. *)
Variable num_trials : nat.
Variable test_function : nat -> Q.
Variable lower_is_better : bool.
Variable n_time_intervals : Z.
(** The method: the early-stopping strategy and the timeout budget. *)
Variable early_stopping_strategy : option benchmark_method.EarlyStoppingStrategy.
Variable timeout_hours : Q.
(** The wall clock: the hours elapsed when iteration [k] checks the
    timeout. *)
Variable elapsed_hours : nat -> Q.

(** Modelled from the spec: the "partial progression data" of a running
    trial (§4.3): the last progression observed at time [now] for a trial
    started at [start], one step per unit of virtual time, up to the length
    of the progression. *)
Definition last_progression (now start : Z) : Z :=
  Z.min (now - start) (n_time_intervals - 1).

(** Modelled from the spec: the threshold strategy of §4.3, which is not
    among the sources: a trial is flagged when the "metric exceeds/falls
    below a threshold", and "trials are only eligible for stopping once
    their observed progression reaches min_progression". *)
Definition should_stop (ess : benchmark_method.EarlyStoppingStrategy)
    (now : Z) (t : SimTrial) : bool :=
  match sim_start_time t with
  | Some start =>
      (benchmark_method.min_progression ess <=? last_progression now start)
      && (if lower_is_better
          then Qlt_bool (benchmark_method.metric_threshold ess)
                        (test_function (trial_index t))
          else Qlt_bool (test_function (trial_index t))
                        (benchmark_method.metric_threshold ess))
  | None => false
  end.

Definition should_stop_trials_early (ess : benchmark_method.EarlyStoppingStrategy)
    (now : Z) (running : list SimTrial) : list nat :=
  indices (List.filter (should_stop ess now) running).

(** The trials the strategy flags at the poll of this iteration, if there
    is a strategy. *)
Definition flagged_at_poll (st : scheduler) : list nat :=
  match early_stopping_strategy with
  | None => []
  | Some ess =>
      should_stop_trials_early ess (Z.of_nat (clock st))
        (_running (simulator (runner st)))
  end.

(** Modelled from the spec: GENERATING, as many generation calls as the
    runner has free slots ([poll_available_capacity]), up to the target
    trial count. A trial flagged for early stopping at this poll no longer
    counts as pending, though the simulator still runs it until it is
    stopped: the trial generated in its place is queued now and starts at
    the next update, as the docstring of [test_early_stopping] has it
    ("Trial 1 stops early. Trial 2 gets added to _queued, and then to
    _running, with a queued time of 2 and a sim_start_time of 3"). *)
Definition generate (st : scheduler) : option scheduler :=
  deploy (Nat.min (poll_available_capacity (runner st)
                   + length (flagged_at_poll st))
                  (num_trials - n_created st)) st.

(** Modelled from the spec: RUNNING, "if an early-stopping strategy is
    configured, evaluate it against the running trials' partial progression
    data [...] and flag trials [...] for early termination via the
    Runner/Simulator": the flagged trials are stopped at the current
    time. *)
Definition early_stop (st : scheduler) : option scheduler :=
  match early_stopping_strategy with
  | None => Some st
  | Some ess =>
      let sim := simulator (runner st) in
      let now := Z.of_nat (clock st) in
      sim' ← stop_trials sim (should_stop_trials_early ess now (_running sim)) now;
      Some (with_runner st {| simulator := sim';
                              trial_runtime_func := trial_runtime_func (runner st) |})
  end.

(** Modelled from the spec: the time-series data of a map metric (§4.3):
    the progression steps recorded for a trial by time [now], from its start
    to its end (or to [now] while it runs), one per unit of virtual time. *)
Definition observed_progressions (now : Z) (t : SimTrial) : list Z :=
  match sim_start_time t with
  | Some start =>
      let stop := default now (sim_completed_time t) in
      map Z.of_nat (seq 0 (Z.to_nat (last_progression stop start + 1)))
  | None => []
  end.

(** The message [test_timeout] expects in the log of [ax.benchmark.benchmark]. *)
Definition timeout_warning : string := "The optimization loop timed out.".

(** Modelled from the spec: the loop of §4.3. Each iteration, at virtual
    time [clock]: poll (trials due by now complete) and report; DONE "when
    the number of completed-or-stopped trials reaches the problem's target
    trial count"; TIMED_OUT "when elapsed wall-clock time exceeds the
    method's timeout budget", with a warning and the trials finished so far
    kept; otherwise GENERATING, then RUNNING (poll: the new trials are
    promoted; early stopping), and the clock advances by one.

    The spec names the states and their transitions, not the order of
    polling, generation and clock increment within an iteration. The order
    here is the one the expectations of [_test_replication_async] and
    [test_early_stopping] require: a trial that completes at time [t] frees
    its slot for a generation at [t], and the new trial starts at [t]; a
    trial stopped early at [t] is replaced by a trial queued at [t], which
    starts at [t + 1]. *)
Fixpoint scheduling_loop (fuel : nat) (st : scheduler)
  : outcome (loop_status * scheduler) :=
  match fuel with
  | O => OutOfFuel
  | S fuel' =>
      let st := report (poll st) in
      if (num_trials <=? n_finished st)%nat then Finished (DONE, st)
      else if Qlt_bool timeout_hours (elapsed_hours (clock st))
      then Finished (TIMED_OUT, warn timeout_warning st)
      else
        match generate st with
        | None => Failed
        | Some st =>
            match early_stop (poll st) with
            | None => Failed
            | Some st => scheduling_loop fuel' (tick st)
            end
        end
  end.

End scheduling_loop.

(** Modelled from the spec: INIT, "zero trials exist". *)
Definition init (max_pending_trials : nat) (trial_runtime_func : option (nat -> Z))
  : scheduler :=
  {| runner := {| simulator := new_simulator max_pending_trials;
                  trial_runtime_func := trial_runtime_func |};
     clock := 0; n_created := 0; pending_in_each_gen := [];
     history := []; log := [] |}.

Section benchmark_replication.
Import benchmark_result.

(** What the replication driver takes from its collaborators: the test
    function and the shape of its data, the wall clock, the store of
    strategy objects, the oracle and inferred value of the best point among
    a set of finished trials, the normalisation of a trace into scores, and
    the time spent fitting and generating. *)
Variable test_function : nat -> Q.
Variable lower_is_better : bool.
Variable n_time_intervals : Z.
Variable elapsed_hours : nat -> Q.
Variable h : benchmark_method.store.
Variable oracle_value : list nat -> Q.
Variable inference_value : list nat -> Q.
Variable compute_score_trace : list Q -> list Q.
Variable fit_seconds gen_seconds : Q.

(** Modelled from the spec: [benchmark_replication(problem, method, seed)]
    of §4.4, which is not among the sources: it "runs the
    Generation/Scheduling Loop to completion or timeout, then computes four
    traces"; "optimization_trace selects between oracle_trace and
    inference_trace per the problem's report_inference_value_as_trace
    flag". The result carries the experiment, here the final state of the
    loop; the log is returned beside it. *)
Definition benchmark_replication
    (problem : benchmark_problem.BenchmarkProblem)
    (method : benchmark_method.BenchmarkMethod) (seed : Z) (fuel : nat)
  : outcome (loop_status * BenchmarkResult scheduler * list string) :=
  let options := benchmark_method.scheduler_options method in
  let strategy :=
    l ← benchmark_method.so_early_stopping_strategy options; h !! l in
  match
    scheduling_loop (Z.to_nat (benchmark_problem.num_trials problem))
      test_function lower_is_better n_time_intervals strategy
      (benchmark_method.timeout_hours method) elapsed_hours fuel
      (init (Z.to_nat (benchmark_method.so_max_pending_trials options))
            (benchmark_problem.trial_runtime_func problem))
  with
  | OutOfFuel => OutOfFuel
  | Failed => Failed
  | Finished (status, st) =>
      let oracle_trace := map oracle_value (history st) in
      let inference_trace := map inference_value (history st) in
      let optimization_trace :=
        if benchmark_problem.report_inference_value_as_trace problem
        then inference_trace else oracle_trace in
      match
        __post_init__
          {| name := benchmark_method.name method;
             seed := seed;
             inference_trace := inference_trace;
             oracle_trace := oracle_trace;
             optimization_trace := optimization_trace;
             score_trace := compute_score_trace optimization_trace;
             fit_time := fit_seconds;
             gen_time := gen_seconds;
             experiment := Some st;
             experiment_storage_id := None |}
      with
      | Return result => Finished (status, result, log st)
      | Raise _ => Failed
      end
  end.

End benchmark_replication.

End benchmark.

(** ** Python values the remaining functions rely on *)

Module python.

(** The exceptions of the functions below: the two classes above, the
    built-in [IndexError], [KeyError] and [TypeError], and the exceptions of
    any other class, which code that is not among the sources may raise. *)
Inductive py_exception : Type :=
| Builtin (e : exception)
| IndexError (msg : string)
| KeyError (key : string)
| TypeError (msg : string)
| OtherError (class_name msg : string).

Inductive py_result (A : Type) : Type :=
| Value (a : A)
| Throw (e : py_exception).
Arguments Value {A} a.
Arguments Throw {A} e.

Definition and_then {A B : Type} (r : py_result A) (k : A -> py_result B)
  : py_result B :=
  match r with
  | Value a => k a
  | Throw e => Throw e
  end.

(** A list comprehension whose element may raise: the first exception
    ends it. *)
Fixpoint comprehension {A B : Type} (f : A -> py_result B) (l : list A)
  : py_result (list B) :=
  match l with
  | [] => Value []
  | a :: l' =>
      and_then (f a) (fun b =>
      and_then (comprehension f l') (fun bs => Value (b :: bs)))
  end.

(** [l[i]] for a list and an int: a negative index counts from the end. *)
Definition getitem {A : Type} (l : list A) (i : Z) : py_result A :=
  let n := Z.of_nat (length l) in
  let j := if i <? 0 then i + n else i in
  if (0 <=? j) && (j <? n) then
    match l !! Z.to_nat j with
    | Some a => Value a
    | None => Throw (IndexError "list index out of range")
    end
  else Throw (IndexError "list index out of range").

(** [l[i:]]: a negative start counts from the end, and the start is clipped
    to the list. *)
Definition slice_from {A : Type} (l : list A) (i : Z) : list A :=
  let n := Z.of_nat (length l) in
  let start := if i <? 0 then Z.max (i + n) 0 else Z.min i n in
  drop (Z.to_nat start) l.

(** [range(n)]: empty for [n <= 0]. *)
Definition range (n : Z) : list Z := map Z.of_nat (seq 0 (Z.to_nat n)).

(** [enumerate(l)] *)
Definition enumerate {A : Type} (l : list A) : list (nat * A) :=
  combine (seq 0 (length l)) l.

(** [zip(a, b, strict=True)], consumed to its end: [ValueError] when one
    argument is exhausted before the other. *)
Fixpoint zip_strict {A B : Type} (a : list A) (b : list B)
  : py_result (list (A * B)) :=
  match a, b with
  | [], [] => Value []
  | x :: a', y :: b' =>
      and_then (zip_strict a' b') (fun l => Value ((x, y) :: l))
  | [], _ :: _ =>
      Throw (Builtin (ValueError "zip() argument 2 is longer than argument 1"))
  | _ :: _, [] =>
      Throw (Builtin (ValueError "zip() argument 2 is shorter than argument 1"))
  end.

End python.

(** ** [ax/utils/common/typeutils.py] *)

Module typeutils.
Import python.

Section casts.
(** Python objects [V] and classes [T], with the three built-ins the
    functions use: [isinstance], and the [str] and [repr] that an f-string
    applies to a value and to a class. *)
Context {V T : Type}.
Variable isinstance : V -> T -> bool.
Variable str_of_type : T -> string.
Variable str_of : V -> string.
Variable repr_of : V -> string.

Definition newline : string := String (Ascii.ascii_of_nat 10) "".

Definition checked_cast (typ : T) (val : V) (exception : option py_exception)
  : py_result V :=
  if negb (isinstance val typ) then
    Throw (match exception with
           | Some e => e
           | None =>
               Builtin (ValueError ("Value was not of type " +:+ str_of_type typ
                                    +:+ ":" +:+ newline +:+ str_of val))
           end)
  else Value val.

Definition checked_cast_optional (typ : T) (val : option V)
  : py_result (option V) :=
  match val with
  | None => Value None
  | Some v => and_then (checked_cast typ v None) (fun v => Value (Some v))
  end.

(** The loop of [checked_cast_list], with the list built so far. *)
Fixpoint checked_cast_list_loop (typ : T) (old_l new_l : list V)
  : py_result (list V) :=
  match old_l with
  | [] => Value new_l
  | val :: rest =>
      and_then (checked_cast typ val None) (fun val =>
      checked_cast_list_loop typ rest (new_l ++ [val]))
  end.

Definition checked_cast_list (typ : T) (old_l : list V) : py_result (list V) :=
  checked_cast_list_loop typ old_l [].

(** A [dict] in insertion order; [d[key] = val] replaces the value of an
    equal key where it stands, or appends the item. Equality on [V] is the
    equality of keys. *)
Context `{EqDecision V}.

Fixpoint setitem (d : list (V * V)) (key val : V) : list (V * V) :=
  match d with
  | [] => [(key, val)]
  | (k, v) :: d' =>
      if decide (k = key) then (k, val) :: d' else (k, v) :: setitem d' key val
  end.

(** The loop of [checked_cast_dict] over [d.items()]: the value is checked
    before the key. *)
Fixpoint checked_cast_dict_loop (key_typ value_typ : T)
    (items new_dict : list (V * V)) : py_result (list (V * V)) :=
  match items with
  | [] => Value new_dict
  | (key, val) :: rest =>
      and_then (checked_cast value_typ val None) (fun val =>
      and_then (checked_cast key_typ key None) (fun key =>
      checked_cast_dict_loop key_typ value_typ rest (setitem new_dict key val)))
  end.

Definition checked_cast_dict (key_typ value_typ : T) (d : list (V * V))
  : py_result (list (V * V)) :=
  checked_cast_dict_loop key_typ value_typ d [].

(** [isinstance(val, typ)] for a tuple of classes; the message formats the
    built-in [type], not [typ]. *)
Definition checked_cast_to_tuple (typ : list T) (val : V) : py_result V :=
  if negb (existsb (isinstance val) typ) then
    Throw (Builtin (ValueError ("Value was not of type <class 'type'>:"
                                +:+ newline +:+ repr_of val)))
  else Value val.

(** [type(arg)] and the class [type] itself. *)
Variable type_of : V -> V.
Variable type_class : T.

Definition _argparse_type_encoder (arg : V) : V :=
  if isinstance arg type_class then arg else type_of arg.

End casts.

End typeutils.

(** ** [ax/benchmark/benchmark_problem.py]: the functions that build
       configurations and problems *)

Module problem_builders.
Import core benchmark_problem python.

(** Modelled from the spec: a metric of the optimization config (§3); the
    classes [BenchmarkMetric] and [BenchmarkMapMetric] are not among the
    sources. [is_map_metric] tells which of the two [metric_cls] was. *)
Record Metric : Type := {
  metric_name : string;
  lower_is_better : bool;
  observe_noise_sd : bool;
  is_map_metric : bool;
}.

(** Modelled from the spec: [ComparisonOp], [OutcomeConstraint],
    [ObjectiveThreshold] and [Objective] of the optimization config (§3),
    which are not among the sources: the keyword arguments the builders
    pass. *)
Inductive ComparisonOp : Type := GEQ | LEQ.

Record OutcomeConstraint : Type := {
  metric : Metric;
  op : ComparisonOp;
  bound : Q;
  relative : bool;
}.

Record SingleObjectiveSpec : Type := {
  objective_metric : Metric;
  minimize : bool;
}.

Inductive ObjectiveSpec : Type :=
| AnObjective (o : SingleObjectiveSpec)
| AMultiObjective (objectives : list SingleObjectiveSpec).

(** Modelled from the spec: [OptimizationConfig] and
    [MultiObjectiveOptimizationConfig] with all the arguments the builders
    pass; [objective_thresholds] are [ObjectiveThreshold]s, of the same
    shape as outcome constraints. *)
Record FullOptimizationConfig : Type := {
  config_cls : config_class;
  config_objective : ObjectiveSpec;
  config_outcome_constraints : list OutcomeConstraint;
  config_objective_thresholds : list OutcomeConstraint;
}.

(** What [BenchmarkProblem.__post_init__] reads of a configuration. *)
Definition names_of (c : FullOptimizationConfig) : OptimizationConfig :=
  {| cls := config_cls c;
     objective :=
       match config_objective c with
       | AnObjective o => SingleObjective (metric_name (objective_metric o))
       | AMultiObjective os =>
           MultiObjective (map (fun o => metric_name (objective_metric o)) os)
       end;
     outcome_constraints :=
       map (fun c => metric_name (metric c)) (config_outcome_constraints c) |}.

(** Modelled from the spec: the test problem of §6, a BoTorch
    [BaseTestProblem], which is not among the sources: its class name, the
    two [isinstance] tests made on it, and the attributes read. [max_hv]
    and [optimal_value] are properties, whose reads may raise. *)
Record BaseTestProblem : Type := {
  class_name : string;                  (* test_problem.__class__.__name__ *)
  is_constrained : bool;                (* ConstrainedBaseTestProblem *)
  is_multi_objective : bool;            (* MultiObjectiveTestProblem *)
  num_objectives : Z;
  num_constraints : Z;
  _bounds : list (Q * Q);
  _ref_point : list Q;
  max_hv : py_result Q;
  tp_optimal_value : py_result Q;
}.

Definition _get_name (test_problem : BaseTestProblem) (observe_noise_sd : bool)
    (dim : option Z) : string :=
  let base_name := class_name test_problem in
  let observed_noise := if observe_noise_sd then "_observed_noise" else "" in
  let dim_str :=
    match dim with
    | None => ""
    | Some dim => "_" +:+ pretty dim +:+ "d"
    end in
  base_name +:+ observed_noise +:+ dim_str.

Inductive ParameterType : Type := FLOAT.

(** Modelled from the spec: a [RangeParameter] of the search space (§3),
    with the keyword arguments [get_continuous_search_space] passes. *)
Record RangeParameter : Type := {
  range_name : string;
  parameter_type : ParameterType;
  lower : Q;
  upper : Q;
}.

(** Modelled from the spec: "configuration errors (fatal, raised at
    construction)" (§7). A constructor that is not among the sources either
    raises or keeps its arguments; [init_raises] says which, and with what
    exception. *)
Definition construct {A : Type} (init_raises : A -> option py_exception) (a : A)
  : py_result A :=
  match init_raises a with
  | Some e => Throw e
  | None => Value a
  end.

Section builders.
(** What the constructors that validate their arguments raise, none of which
    is among the sources: [OptimizationConfig] and
    [MultiObjectiveOptimizationConfig] (the configuration knows its class),
    [RangeParameter], and [BoTorchTestFunction] for a test problem and its
    outcome names. The metrics, objectives, thresholds and outcome
    constraints are built with a direction and an operator that agree, and
    are taken to keep their arguments. *)
Variable optimization_config_init_raises :
  FullOptimizationConfig -> option py_exception.
Variable range_parameter_init_raises : RangeParameter -> option py_exception.
Variable test_function_init_raises :
  BaseTestProblem * list string -> option py_exception.

Definition _get_constraints (constraint_names : list string)
    (observe_noise_sd use_map_metric : bool) : list OutcomeConstraint :=
  map (fun name =>
         {| metric := {| metric_name := name;
                         lower_is_better := false;
                         observe_noise_sd := observe_noise_sd;
                         is_map_metric := use_map_metric |};
            op := GEQ;
            bound := 0;
            relative := false |})
      constraint_names.

Definition get_soo_opt_config (outcome_names : list string)
    (lower_is_better observe_noise_sd use_map_metric : bool)
  : py_result FullOptimizationConfig :=
  and_then (getitem outcome_names 0) (fun name =>
  let objective :=
    {| objective_metric := {| metric_name := name;
                              lower_is_better := lower_is_better;
                              observe_noise_sd := observe_noise_sd;
                              is_map_metric := use_map_metric |};
       minimize := lower_is_better |} in
  let outcome_constraints :=
    _get_constraints (slice_from outcome_names 1) observe_noise_sd
      use_map_metric in
  construct optimization_config_init_raises
    {| config_cls := OptimizationConfigClass;
       config_objective := AnObjective objective;
       config_outcome_constraints := outcome_constraints;
       config_objective_thresholds := [] |}).

(** [get_moo_opt_config]. The call of [_get_constraints] passes no
    [use_map_metric], which is then its default, [False]. The arguments of
    the constructor are evaluated in the order written: the objectives, the
    thresholds over [zip(..., strict=True)], then the constraints. *)
Definition get_moo_opt_config (outcome_names : list string) (ref_point : list Q)
    (num_constraints : Z) (lower_is_better observe_noise_sd use_map_metric : bool)
  : py_result FullOptimizationConfig :=
  let n_objectives := Z.of_nat (length outcome_names) - num_constraints in
  and_then
    (comprehension
       (fun i =>
          and_then (getitem outcome_names i) (fun name =>
          Value {| metric_name := name;
                   lower_is_better := lower_is_better;
                   observe_noise_sd := observe_noise_sd;
                   is_map_metric := use_map_metric |}))
       (range n_objectives))
    (fun objective_metrics =>
  let constraints :=
    _get_constraints (slice_from outcome_names n_objectives) observe_noise_sd
      false in
  and_then (zip_strict ref_point objective_metrics) (fun zipped =>
  construct optimization_config_init_raises
    {| config_cls := MultiObjectiveOptimizationConfigClass;
       config_objective :=
         AMultiObjective
           (map (fun metric => {| objective_metric := metric;
                                  minimize := lower_is_better |})
                objective_metrics);
       config_outcome_constraints := constraints;
       config_objective_thresholds :=
         map (fun '(ref_p, metric) =>
                {| metric := metric;
                   bound := ref_p;
                   relative := false;
                   op := if problem_builders.lower_is_better metric
                         then LEQ else GEQ |})
             zipped |})).

(** [get_continuous_search_space]. The names of the parameters are
    distinct, and [SearchSpace(parameters=...)] is taken to keep them. *)
Definition get_continuous_search_space (bounds : list (Q * Q))
  : py_result (list RangeParameter) :=
  comprehension
    (fun '(i, (lower, upper)) =>
       construct range_parameter_init_raises
         {| range_name := "x" +:+ pretty i;
            parameter_type := FLOAT;
            lower := lower;
            upper := upper |})
    (enumerate bounds).

(** A range parameter as [BenchmarkProblem.__post_init__] sees it: not a
    choice parameter, [is_fidelity] and [target_value] at their defaults. *)
Definition as_parameter (p : RangeParameter) : SearchSpaceParameter :=
  {| pname := range_name p; is_choice_parameter := false; is_task := false;
     is_fidelity := false; target_value := PNone |}.

(** [create_problem_from_botorch], from the constructed [test_problem] on;
    [dim] is [test_problem_kwargs.get("dim", None)]. The statements run in
    the order of the source: the search space, the names, the test function,
    the optimization config, the optimal value, and the problem, which is
    built by the constructor, [BenchmarkProblem.__post_init__] included. *)
Definition create_problem_from_botorch
    (test_problem : BaseTestProblem) (dim : option Z)
    (num_trials : Z) (name : option string)
    (lower_is_better observe_noise_sd : bool)
    (search_space : option (list SearchSpaceParameter))
    (report_inference_value_as_trace : bool)
    (trial_runtime_func : option (nat -> Z))
  : py_result BenchmarkProblem :=
  let constrained := is_constrained test_problem in
  and_then
    (match search_space with
     | None =>
         and_then (get_continuous_search_space (_bounds test_problem))
           (fun parameters => Value (map as_parameter parameters))
     | Some search_space => Value search_space
     end)
    (fun search_space =>
  let n_obj := num_objectives test_problem in
  let name :=
    match name with
    | None => _get_name test_problem observe_noise_sd dim
    | Some name => name
    end in
  let num_constraints :=
    if constrained then num_constraints test_problem else 0 in
  let objective_names :=
    if is_multi_objective test_problem
    then map (fun i => name +:+ "_" +:+ pretty i) (range n_obj)
    else [name] in
  let constraint_names :=
    map (fun i => "constraint_slack_" +:+ pretty i) (range num_constraints) in
  let outcome_names := objective_names ++ constraint_names in
  and_then (construct test_function_init_raises (test_problem, outcome_names))
    (fun test_function =>
  and_then
    (if is_multi_objective test_problem
     then get_moo_opt_config test_function.2 (_ref_point test_problem)
            num_constraints lower_is_better observe_noise_sd false
     else get_soo_opt_config test_function.2 lower_is_better observe_noise_sd
            false)
    (fun optimization_config =>
  and_then
    (if is_multi_objective test_problem
     then max_hv test_problem else tp_optimal_value test_problem)
    (fun optimal_value =>
  match
    __post_init__
      {| benchmark_problem.name := name;
         optimization_config := names_of optimization_config;
         benchmark_problem.num_trials := num_trials;
         test_function_outcome_names := test_function.2;
         optimal_value := optimal_value;
         search_space := search_space;
         benchmark_problem.report_inference_value_as_trace :=
           report_inference_value_as_trace;
         n_best_points := 1;
         benchmark_problem.trial_runtime_func := trial_runtime_func;
         target_fidelity_and_task := ∅ |}
  with
  | Return problem => Value problem
  | Raise e => Throw (Builtin e)
  end)))).

End builders.

End problem_builders.

(** ** [ax/metrics/branin_map.py] *)

Module branin_map.
Import core python.

Definition FIDELITY : list Q := [0.1; 0.4; 0.7; 1.0]%Q.

(** Modelled from the spec: an arm and a trial as the metrics read them
    (glossary: an arm is "one concrete parameter assignment evaluated within
    a trial", a trial "a unit of execution containing one or more arms");
    the classes [Arm] and [BaseTrial] are not among the sources.
    [parameters] is a dict, in insertion order. *)
Record Arm : Type := {
  arm_name : string;
  parameters : list (string * TParamValue);
}.

Record BaseTrial : Type := {
  index : Z;
  is_running : bool;                    (* trial.status.is_running *)
  arms : list Arm;
}.

(** Modelled from the spec: a fetch error is "wrapped as a tagged failure
    result carrying the original cause and a message" (§7):
    [MetricFetchE(message=..., exception=e)], and the two results [Ok] and
    [Err] of a fetch; the classes are not among the sources. *)
Record MetricFetchE : Type := {
  message : string;
  exception : py_exception;
}.

Inductive Result (V : Type) : Type :=
| Ok (value : V)
| Err (e : MetricFetchE).
Arguments Ok {V} value.
Arguments Err {V} e.

(** [x1, x2 = x], with the messages of CPython. *)
Definition unpack2 {A : Type} (x : list A) : py_result (A * A) :=
  match x with
  | [x1; x2] => Value (x1, x2)
  | [] | [_] =>
      Throw (Builtin (ValueError
        ("not enough values to unpack (expected 2, got "
         +:+ pretty (length x) +:+ ")")))
  | _ => Throw (Builtin (ValueError "too many values to unpack (expected 2)"))
  end.

Section metrics.
(** Floating point numbers stay abstract, with the operations the metrics
    apply to them: [branin] of [synthetic_functions], the product, the
    weight [1.0 + np.exp(-rate * timestamp)], the constants [1.0] and [0.0],
    the comparison [==], and [np.fromiter(..., dtype=float)], which may
    raise. [MapData] is abstract, too: [from_multiple_map_data] stands for
    [MapData.from_multiple_map_data] of the [MapData] of the frames. *)
Context {float MapData : Type}.
Variable branin : float -> float -> float.
Variable fmul : float -> float -> float.
Variable weight_of : float -> Z -> float.
Variable one zero : float.
Variable feq : float -> float -> bool.
Variable fromiter : list TParamValue -> py_result (list float).

(** *** [BraninTimestampMapMetric] *)

(** The metric: the attributes its [__init__] passes to the base class,
    [rate], the key of [map_key_info], and the [defaultdict(int)] of the
    timestamps reached, by trial index. *)
Record BraninTimestampMapMetric : Type := {
  name : string;
  param_names : list string;
  noise_sd : float;
  lower_is_better : option bool;
  rate : option float;
  map_key_info_key : string;            (* self.map_key_info.key *)
  _trial_index_to_timestamp : gmap Z Z;
}.

Definition set_trial_index_to_timestamp (self : BraninTimestampMapMetric)
    (d : gmap Z Z) : BraninTimestampMapMetric :=
  {| name := name self;
     param_names := param_names self;
     noise_sd := noise_sd self;
     lower_is_better := lower_is_better self;
     rate := rate self;
     map_key_info_key := map_key_info_key self;
     _trial_index_to_timestamp := d |}.

(** [__eq__]: "Ignore _timestamp on equality checks". *)
Definition __eq__ (self o : BraninTimestampMapMetric) : bool :=
  bool_decide (name self = name o)
  && bool_decide (param_names self = param_names o)
  && feq (noise_sd self) (noise_sd o)
  && bool_decide (lower_is_better self = lower_is_better o).

(** The mapping [f] returns, and [item[key]]. *)
Record TimestampItem : Type := {
  mean : float;
  timestamp : Z;
}.

Inductive cell : Type :=
| AFloat (x : float)
| AnInt (z : Z).

Definition item_get (item : TimestampItem) (key : string) : py_result cell :=
  if bool_decide (key = "mean") then Value (AFloat (mean item))
  else if bool_decide (key = "timestamp") then Value (AnInt (timestamp item))
  else Throw (KeyError key).

(** [BraninTimestampMapMetric.f]. [branin] returns a float, which
    [checked_cast(float, ...)] lets through. *)
Definition f (self : BraninTimestampMapMetric) (x : list float) (timestamp : Z)
  : py_result TimestampItem :=
  and_then (unpack2 x) (fun '(x1, x2) =>
  let weight :=
    match rate self with
    | Some rate => weight_of rate timestamp
    | None => one
    end in
  let mean := fmul (branin x1 x2) weight in
  Value {| mean := mean; timestamp := timestamp |}).

(** A row of the [pd.DataFrame] built for one timestamp: one per arm. *)
Record Row : Type := {
  row_arm_name : string;
  row_metric_name : string;
  row_sem : float;
  row_trial_index : Z;
  row_mean : float;
  row_map_key : cell;
}.

Variable from_multiple_map_data : list (list Row) -> py_result MapData.

(** The frame of one pass of the loop over the timestamps. *)
Definition frame (self : BraninTimestampMapMetric) (trial : BaseTrial)
    (noisy : bool) (timestamp : Z) : py_result (list Row) :=
  and_then
    (comprehension
       (fun arm =>
          and_then (fromiter (map snd (parameters arm))) (fun x =>
          f self x timestamp))
       (arms trial))
    (fun res =>
  and_then (comprehension (fun item => item_get item (map_key_info_key self)) res)
    (fun keys =>
  Value
    (zip_with
       (fun arm '(item, key) =>
          {| row_arm_name := arm_name arm;
             row_metric_name := name self;
             row_sem := if noisy then noise_sd self else zero;
             row_trial_index := index trial;
             row_mean := mean item;
             row_map_key := key |})
       (arms trial) (zip res keys)))).

(** [fetch_trial_data]: the result, and the metric with its counters.
    Reading the counter of a trial not seen before stores 0 for it; every
    exception of the body is caught and wrapped. *)
Definition fetch_trial_data (self : BraninTimestampMapMetric)
    (trial : BaseTrial) (noisy : bool)
  : Result MapData * BraninTimestampMapMetric :=
  let d := _trial_index_to_timestamp self in
  let counter := default 0 (d !! index trial) in
  let counter :=
    if (counter =? 0) || is_running trial then counter + 1 else counter in
  let self := set_trial_index_to_timestamp self (<[index trial := counter]> d) in
  let body :=
    and_then (comprehension (frame self trial noisy) (range counter))
      from_multiple_map_data in
  (match body with
   | Value value => Ok value
   | Throw e =>
       Err {| message := "Failed to fetch " +:+ name self; exception := e |}
   end,
   self).

(** *** [BraninFidelityMapMetric] *)

Record BraninFidelityMapMetric : Type := {
  fidelity_name : string;
  fidelity_param_names : list string;
  fidelity_noise_sd : float;
  fidelity_lower_is_better : option bool;
  fidelity_index : Z;                   (* self.index *)
}.

Definition set_index (self : BraninFidelityMapMetric) (i : Z)
  : BraninFidelityMapMetric :=
  {| fidelity_name := fidelity_name self;
     fidelity_param_names := fidelity_param_names self;
     fidelity_noise_sd := fidelity_noise_sd self;
     fidelity_lower_is_better := fidelity_lower_is_better self;
     fidelity_index := i |}.

(** [self.index = -1], which ends [__init__] and begins
    [fetch_trial_data]. *)
Definition reset_index (self : BraninFidelityMapMetric)
  : BraninFidelityMapMetric :=
  set_index self (-1).

Record FidelityItem : Type := {
  fidelity_mean : float;
  fidelity : Q;
}.

(** [branin(x1, x2) - random() * math.pow(1.0 - fidelity, 2.0)], given what
    [random()] returned. *)
Variable penalized : float -> float -> Q -> float.

(** [BraninFidelityMapMetric.f]; [u] is what [random()] returns. The
    index is advanced before anything can raise. *)
Definition fidelity_f (self : BraninFidelityMapMetric) (x : list float)
    (u : float) : py_result FidelityItem * BraninFidelityMapMetric :=
  let self :=
    if fidelity_index self <? Z.of_nat (length FIDELITY)
    then set_index self (fidelity_index self + 1)
    else self in
  (and_then (unpack2 x) (fun '(x1, x2) =>
   and_then (getitem FIDELITY (fidelity_index self)) (fun fidelity =>
   Value {| fidelity_mean := penalized (branin x1 x2) u fidelity;
            fidelity := fidelity |})),
   self).

End metrics.

End branin_map.

(** * Vocabulary of the properties *)

Section problem_conditions.
Import core benchmark_problem.

Definition unsupported_n_best_points (p : BenchmarkProblem) : Prop :=
  n_best_points p ≠ 1.

Definition inference_trace_for_moo (p : BenchmarkProblem) : Prop :=
  report_inference_value_as_trace p = true ∧ is_moo p = true.

(** Some objective or outcome-constraint metric name is not among the test
    function's [outcome_names]. *)
Definition missing_metric_name (p : BenchmarkProblem) : Prop :=
  ∃ n : string,
    (n ∈ objective_names (objective (optimization_config p))
     ∨ n ∈ outcome_constraints (optimization_config p))
    ∧ n ∉ test_function_outcome_names p.

End problem_conditions.

(** The length of the longest trace. *)
Definition longest (traces : list (list Q)) : nat :=
  foldr Nat.max 0%nat (map length traces).

Section scheduler_conditions.
Import backend_simulator benchmark_runner benchmark.

(** The trials of the simulator are the trials created so far, each once,
    and no more trials have been reported than have finished. *)
Definition consistent (st : scheduler) : Prop :=
  NoDup (indices (all_trials (simulator (runner st))))
  ∧ (∀ i, i ∈ indices (all_trials (simulator (runner st))) →
          (i < n_created st)%nat)
  ∧ length (all_trials (simulator (runner st))) = n_created st
  ∧ (length (history st) ≤ n_finished st)%nat.

(** A step that leaves the clock, the log, the reports and the number of
    trials created alone. *)
Definition same_books (st st' : scheduler) : Prop :=
  clock st' = clock st ∧ log st' = log st ∧ history st' = history st
  ∧ n_created st' = n_created st
  ∧ max_pending_trials (simulator (runner st'))
    = max_pending_trials (simulator (runner st)).

End scheduler_conditions.

(** ** Trials under a threshold strategy *)

Section early_stopping_conditions.
Import backend_simulator benchmark_runner benchmark.
Variable test_function : nat -> Q.
Variable lower_is_better : bool.
Variable ess : benchmark_method.EarlyStoppingStrategy.

(** The value of a trial is beyond the threshold of the strategy, on the
    side that gets a trial stopped. *)
Definition beyond_threshold (i : nat) : bool :=
  if lower_is_better
  then Qlt_bool (benchmark_method.metric_threshold ess) (test_function i)
  else Qlt_bool (test_function i) (benchmark_method.metric_threshold ess).

(** A trial that was stopped when its progression reached
    [min_progression]. *)
Definition stopped_at_min_progression (t : SimTrial) : Prop :=
  beyond_threshold (trial_index t) = true
  ∧ ∃ start, sim_start_time t = Some start
      ∧ sim_completed_time t
        = Some (start + benchmark_method.min_progression ess).

(** A trial that ran for its whole runtime. *)
Definition ran_to_completion (t : SimTrial) : Prop :=
  beyond_threshold (trial_index t) = false
  ∧ ∃ start, sim_start_time t = Some start
      ∧ sim_completed_time t = Some (start + sim_runtime t).

(** A running trial at time [now]: it has started, and if its value is
    beyond the threshold its progression is below [min_progression +
    slack]. *)
Definition running_on_schedule (now slack : Z) (t : SimTrial) : Prop :=
  benchmark_method.min_progression ess < sim_runtime t
  ∧ ∃ start, sim_start_time t = Some start ∧ start ≤ now
      ∧ (beyond_threshold (trial_index t) = true →
         now - start < benchmark_method.min_progression ess + slack).

Definition queued_on_schedule (now : Z) (t : SimTrial) : Prop :=
  sim_queued_time t ≤ now
  ∧ benchmark_method.min_progression ess < sim_runtime t.

(** The state of the loop under the strategy: no trial beyond the threshold
    has run past [min_progression], those stopped were stopped exactly
    there, and those completed are not beyond the threshold. *)
Definition on_schedule (slack : Z) (st : scheduler) : Prop :=
  let sim := simulator (runner st) in
  let now := Z.of_nat (clock st) in
  time sim ≤ now
  ∧ (∀ i, benchmark_method.min_progression ess
          < match trial_runtime_func (runner st) with
            | Some f => f i
            | None => 1
            end)
  ∧ Forall (queued_on_schedule (time sim)) (_queued sim)
  ∧ Forall (running_on_schedule now slack) (_running sim)
  ∧ Forall stopped_at_min_progression (_early_stopped sim)
  ∧ Forall ran_to_completion (_completed sim).

End early_stopping_conditions.

(** ** Vocabulary of the casts, the builders and the metrics *)

(** An item of a dict whose value and key pass [checked_cast_dict]. *)
Definition well_typed {V T : Type} (isinstance : V -> T -> bool)
    (key_typ value_typ : T) (item : V * V) : Prop :=
  isinstance item.2 value_typ = true ∧ isinstance item.1 key_typ = true.

(** The metric the builders make for a name. *)
Definition metric_named (lower_is_better observe_noise_sd use_map_metric : bool)
    (name : string) : problem_builders.Metric :=
  {| problem_builders.metric_name := name;
     problem_builders.lower_is_better := lower_is_better;
     problem_builders.observe_noise_sd := observe_noise_sd;
     problem_builders.is_map_metric := use_map_metric |}.

(** The configuration [get_moo_opt_config] returns, given its objective
    metrics, its constraints and the pairs of
    [zip(ref_point, objective_metrics, strict=True)]. *)
Definition moo_config_of (lower_is_better : bool)
    (metrics : list problem_builders.Metric)
    (constraints : list problem_builders.OutcomeConstraint)
    (zipped : list (Q * problem_builders.Metric))
  : problem_builders.FullOptimizationConfig :=
  {| problem_builders.config_cls := core.MultiObjectiveOptimizationConfigClass;
     problem_builders.config_objective :=
       problem_builders.AMultiObjective
         (map (fun metric =>
                 {| problem_builders.objective_metric := metric;
                    problem_builders.minimize := lower_is_better |}) metrics);
     problem_builders.config_outcome_constraints := constraints;
     problem_builders.config_objective_thresholds :=
       map (fun '(ref_p, metric) =>
              {| problem_builders.metric := metric;
                 problem_builders.bound := ref_p;
                 problem_builders.relative := false;
                 problem_builders.op :=
                   if problem_builders.lower_is_better metric
                   then problem_builders.LEQ else problem_builders.GEQ |})
           zipped |}.

(** The configuration [get_soo_opt_config] hands to the constructor, for the
    first outcome name and the others. *)
Definition soo_config_of (lower_is_better observe_noise_sd use_map_metric : bool)
    (name : string) (constraint_names : list string)
  : problem_builders.FullOptimizationConfig :=
  {| problem_builders.config_cls := core.OptimizationConfigClass;
     problem_builders.config_objective :=
       problem_builders.AnObjective
         {| problem_builders.objective_metric :=
              metric_named lower_is_better observe_noise_sd use_map_metric name;
            problem_builders.minimize := lower_is_better |};
     problem_builders.config_outcome_constraints :=
       problem_builders._get_constraints constraint_names observe_noise_sd
         use_map_metric;
     problem_builders.config_objective_thresholds := [] |}.

(** The range parameter [get_continuous_search_space] asks for at a
    position. *)
Definition range_parameter_at (i : nat) (bound : Q * Q)
  : problem_builders.RangeParameter :=
  {| problem_builders.range_name := "x" +:+ pretty i;
     problem_builders.parameter_type := problem_builders.FLOAT;
     problem_builders.lower := bound.1;
     problem_builders.upper := bound.2 |}.

(** The names [create_problem_from_botorch] gives the problem and its
    outcomes, and the number of constraints it counts. *)
Definition botorch_problem_name (test_problem : problem_builders.BaseTestProblem)
    (observe_noise_sd : bool) (dim : option Z) (name : option string) : string :=
  default (problem_builders._get_name test_problem observe_noise_sd dim) name.

Definition botorch_num_constraints
    (test_problem : problem_builders.BaseTestProblem) : Z :=
  if problem_builders.is_constrained test_problem
  then problem_builders.num_constraints test_problem else 0.

Definition botorch_objective_names
    (test_problem : problem_builders.BaseTestProblem)
    (observe_noise_sd : bool) (dim : option Z) (name : option string)
  : list string :=
  map (fun i => botorch_problem_name test_problem observe_noise_sd dim name
                +:+ "_" +:+ pretty i)
      (python.range (problem_builders.num_objectives test_problem)).

Definition constraint_slack_names (num_constraints : Z) : list string :=
  map (fun i => "constraint_slack_" +:+ pretty i) (python.range num_constraints).

(** The search space of the problem: the one given, or else the one built
    from the bounds of the test problem. *)
Definition botorch_search_space
    (range_parameter_init_raises :
       problem_builders.RangeParameter -> option python.py_exception)
    (test_problem : problem_builders.BaseTestProblem)
    (search_space : option (list core.SearchSpaceParameter))
  : python.py_result (list core.SearchSpaceParameter) :=
  match search_space with
  | None =>
      python.and_then
        (problem_builders.get_continuous_search_space
           range_parameter_init_raises
           (problem_builders._bounds test_problem))
        (fun parameters =>
           python.Value (map problem_builders.as_parameter parameters))
  | Some search_space => python.Value search_space
  end.

(** The configurations [create_problem_from_botorch] asks for: of a
    single-objective problem, and of a multi-objective problem whose
    reference point has an entry per objective. *)
Definition botorch_soo_config (test_problem : problem_builders.BaseTestProblem)
    (lower_is_better observe_noise_sd : bool) (dim : option Z)
    (name : option string) : problem_builders.FullOptimizationConfig :=
  soo_config_of lower_is_better observe_noise_sd false
    (botorch_problem_name test_problem observe_noise_sd dim name)
    (constraint_slack_names (botorch_num_constraints test_problem)).

Definition botorch_moo_config (test_problem : problem_builders.BaseTestProblem)
    (lower_is_better observe_noise_sd : bool) (dim : option Z)
    (name : option string) : problem_builders.FullOptimizationConfig :=
  let metrics :=
    map (metric_named lower_is_better observe_noise_sd false)
      (botorch_objective_names test_problem observe_noise_sd dim name) in
  moo_config_of lower_is_better metrics
    (problem_builders._get_constraints
       (constraint_slack_names (botorch_num_constraints test_problem))
       observe_noise_sd false)
    (zip (problem_builders._ref_point test_problem) metrics).

(** The parameters [BenchmarkProblem.__post_init__] records a target value
    for. *)
Definition has_target (p : core.SearchSpaceParameter) : bool :=
  (core.is_choice_parameter p && core.is_task p) || core.is_fidelity p.

(** The counter of a trial after [fetch_trial_data]. *)
Definition next_counter {float : Type}
    (self : @branin_map.BraninTimestampMapMetric float)
    (trial : branin_map.BaseTrial) : Z :=
  let counter :=
    default 0 (branin_map._trial_index_to_timestamp self
               !! branin_map.index trial) in
  if (counter =? 0) || branin_map.is_running trial
  then counter + 1 else counter.

(** What a row of a fetched frame says about its arm, at one timestamp. *)
Definition describes {float : Type}
    (branin fmul : float -> float -> float) (weight_of : float -> Z -> float)
    (one zero : float)
    (fromiter : list core.TParamValue -> python.py_result (list float))
    (self : branin_map.BraninTimestampMapMetric) (trial : branin_map.BaseTrial)
    (noisy : bool) (timestamp : Z) (arm : branin_map.Arm)
    (row : branin_map.Row) : Prop :=
  branin_map.row_arm_name row = branin_map.arm_name arm
  ∧ branin_map.row_metric_name row = branin_map.name self
  ∧ branin_map.row_trial_index row = branin_map.index trial
  ∧ branin_map.row_sem row
    = (if noisy then branin_map.noise_sd self else zero)
  ∧ ∃ x1 x2,
      fromiter (map snd (branin_map.parameters arm)) = python.Value [x1; x2]
      ∧ branin_map.row_mean row
        = fmul (branin x1 x2)
            (match branin_map.rate self with
             | Some rate => weight_of rate timestamp
             | None => one
             end)
      ∧ branin_map.item_get
          {| branin_map.mean := branin_map.row_mean row;
             branin_map.timestamp := timestamp |}
          (branin_map.map_key_info_key self)
        = python.Value (branin_map.row_map_key row).

(** The metric after a sequence of calls of [fetch_trial_data], each with
    its trial and its [noisy]. *)
Definition fetches {float MapData : Type}
    (branin fmul : float -> float -> float) (weight_of : float -> Z -> float)
    (one zero : float)
    (fromiter : list core.TParamValue -> python.py_result (list float))
    (from_multiple_map_data :
       list (list branin_map.Row) -> python.py_result MapData)
    (self : branin_map.BraninTimestampMapMetric)
    (calls : list (branin_map.BaseTrial * bool))
  : branin_map.BraninTimestampMapMetric :=
  fold_left
    (fun self call =>
       (branin_map.fetch_trial_data branin fmul weight_of one zero fromiter
          from_multiple_map_data self call.1 call.2).2)
    calls self.

(** The metric after a sequence of calls of [BraninFidelityMapMetric.f],
    each with its point and with what [random()] returned. *)
Definition fidelity_calls {float : Type} (branin : float -> float -> float)
    (penalized : float -> float -> Q -> float)
    (self : branin_map.BraninFidelityMapMetric)
    (calls : list (list float * float)) : branin_map.BraninFidelityMapMetric :=
  fold_left
    (fun self call =>
       (branin_map.fidelity_f branin penalized self call.1 call.2).2)
    calls self.

(** * Fixtures: the problems, methods and results the tests build *)

Module problem_examples.
Import core benchmark_problem.

Definition branin (names : list string) (n_best : Z) (moo report : bool)
  : BenchmarkProblem :=
  {| name := "Branin";
     optimization_config :=
       {| cls := if moo then MultiObjectiveOptimizationConfigClass
                 else OptimizationConfigClass;
          objective := if moo then MultiObjective ["Branin_0"; "Branin_1"]
                       else SingleObjective "Branin";
          outcome_constraints := ["constraint_slack_0"] |};
     num_trials := 5;
     test_function_outcome_names := names;
     optimal_value := 0;
     search_space := [];
     report_inference_value_as_trace := report;
     n_best_points := n_best;
     trial_runtime_func := None;
     target_fidelity_and_task := ∅ |}.

End problem_examples.

Module method_examples.
Import core benchmark_method.

Definition sobol (batch_size : Z) (strategy : option loc) : BenchmarkMethod :=
  {| name := "DEFAULT";
     generation_strategy := {| gs_name := "Sobol" |};
     batch_size := batch_size;
     timeout_hours := 4;
     distribute_replications := false;
     use_model_predictions_for_best_point := false;
     run_trials_in_batches := false;
     max_pending_trials := 2;
     early_stopping_strategy := strategy |}.

(** [ThresholdEarlyStoppingStrategy(metric_threshold=0.5, min_progression=2,
    min_curves=0)] of [test_early_stopping], with a given polling delay. *)
Definition threshold_strategy (seconds_between_polls : Z) : EarlyStoppingStrategy :=
  {| seconds_between_polls := seconds_between_polls;
     metric_threshold := 1 # 2; min_progression := 2; min_curves := 0 |}.

Definition one_strategy (seconds_between_polls : Z) : store :=
  {[ 1%positive := threshold_strategy seconds_between_polls ]}.

End method_examples.

Module best_parameters_examples.
Import core benchmark_method.

Definition single_objective : OptimizationConfig :=
  {| cls := OptimizationConfigClass;
     objective := SingleObjective "Branin";
     outcome_constraints := [] |}.

Definition best_is_trial_3 (experiment : unit) (gs : GenerationStrategy)
    (c : OptimizationConfig) (use_model_predictions : bool)
  : option (Z * TParameterization * option unit) :=
  Some (3, {[ "x0" := PInt 3 ]}, None).

Definition no_feasible_trial (experiment : unit) (gs : GenerationStrategy)
    (c : OptimizationConfig) (use_model_predictions : bool)
  : option (Z * TParameterization * option unit) :=
  None.

End best_parameters_examples.

Module result_examples.
Import benchmark_result.

(** The arguments of the two calls in
    [test_benchmark_result_invalid_inputs], and of a valid one. *)
Definition result_with (experiment : option unit) (storage_id : option string)
  : BenchmarkResult unit :=
  {| name := "name"; seed := 0;
     inference_trace := []; oracle_trace := [];
     optimization_trace := []; score_trace := [];
     fit_time := 0; gen_time := 0;
     experiment := experiment; experiment_storage_id := storage_id |}.

Definition result_of (trace : list Q) : BenchmarkResult unit :=
  {| name := "Sobol"; seed := 0;
     inference_trace := trace; oracle_trace := trace;
     optimization_trace := trace; score_trace := trace;
     fit_time := 0; gen_time := 0;
     experiment := Some tt; experiment_storage_id := None |}.

(** Three replications with traces of lengths 4, 4 and 2. *)
Definition lengths_4_4_2 : list (BenchmarkResult unit) :=
  [ result_of [3; 2; 2; 1]%Q; result_of [5; 4; 1; 1]%Q; result_of [4; 3]%Q ].

End result_examples.

Module async_fixtures.
Import core backend_simulator benchmark_runner benchmark.

(** The problem and the method of [_test_replication_async] and
    [test_early_stopping]: four trials, an identity test function ("the
    generation strategy deterministically produces candidates with values 0,
    1, 2, ..."), at most two trials pending. *)
Definition async_problem (trial_runtime_func : nat -> Z)
  : benchmark_problem.BenchmarkProblem :=
  {| benchmark_problem.name := "test";
     benchmark_problem.optimization_config :=
       {| cls := OptimizationConfigClass;
          objective := SingleObjective "objective";
          outcome_constraints := [] |};
     benchmark_problem.num_trials := 4;
     benchmark_problem.test_function_outcome_names := ["objective"];
     benchmark_problem.optimal_value := 19;
     benchmark_problem.search_space := [];
     benchmark_problem.report_inference_value_as_trace := true;
     benchmark_problem.n_best_points := 1;
     benchmark_problem.trial_runtime_func := Some trial_runtime_func;
     benchmark_problem.target_fidelity_and_task := ∅ |}.

Definition async_method (strategy : option benchmark_method.loc)
  : benchmark_method.BenchmarkMethod :=
  {| benchmark_method.name := "test";
     benchmark_method.generation_strategy := {| gs_name := "test" |};
     benchmark_method.batch_size := 1;
     benchmark_method.timeout_hours := 4;
     benchmark_method.distribute_replications := false;
     benchmark_method.use_model_predictions_for_best_point := false;
     benchmark_method.run_trials_in_batches := false;
     benchmark_method.max_pending_trials := 2;
     benchmark_method.early_stopping_strategy := strategy |}.

Definition identity (trial_index : nat) : Q := inject_Z (Z.of_nat trial_index).

(** Higher is better: the best point among finished trials is the one with
    the largest index. *)
Definition largest (finished : list nat) : Q :=
  identity (foldr Nat.max 0%nat finished).

Definition no_time_passes (iteration : nat) : Q := 0.

Definition complete_out_of_order_runtimes (trial_index : nat) : Z :=
  nth trial_index [2; 1; 3; 1] 0.

Definition sim_trial (trial_index : nat) (runtime queued start completed : Z)
  : SimTrial :=
  {| trial_index := trial_index; sim_runtime := runtime;
     sim_queued_time := queued; sim_start_time := Some start;
     sim_completed_time := Some completed |}.

Abbreviation replication :=
  (outcome (loop_status * benchmark_result.BenchmarkResult scheduler
            * list string)).

Definition the_experiment (o : replication) : option scheduler :=
  match o with
  | Finished (_, result, _) => benchmark_result.experiment result
  | _ => None
  end.

Definition the_simulator (o : replication) : option BackendSimulator :=
  st ← the_experiment o; Some (simulator (runner st)).

(** [get_sim_trial_by_index] for each of the four trials, as the tests read
    them from the simulator of the returned experiment. *)
Definition sim_trials (o : replication) : option (list (option SimTrial)) :=
  sim ← the_simulator o; Some (map (get_sim_trial_by_index sim) (seq 0 4)).

Definition sim_start_times (o : replication) : option (list (option Z)) :=
  trials ← sim_trials o; Some (map (fun t => t ≫= sim_start_time) trials).

Definition the_status (o : replication) : option SimStatus :=
  state <$> the_simulator o.

Definition the_inference_trace (o : replication) : option (list Q) :=
  match o with
  | Finished (_, result, _) => Some (benchmark_result.inference_trace result)
  | _ => None
  end.

(** One replication of the asynchronous problem without early stopping,
    with enough fuel for the four runtime functions of the test. *)
Definition replicate_async (h : benchmark_method.store)
    (compute_score_trace : list Q -> list Q) (fit_seconds gen_seconds : Q)
    (trial_runtime_func : nat -> Z) : replication :=
  benchmark_replication identity false 1 no_time_passes h largest largest
    compute_score_trace fit_seconds gen_seconds
    (async_problem trial_runtime_func) (async_method None) 0 20.

Definition progression_length_if_not_stopped : Z := 5.

(** The replication of [test_early_stopping]: every trial would run for 5
    steps, lower is better, threshold strategy at location 1. *)
Definition replicate_early_stopping
    (compute_score_trace : list Q -> list Q) (fit_seconds gen_seconds : Q)
  : replication :=
  benchmark_replication identity true progression_length_if_not_stopped
    no_time_passes (method_examples.one_strategy 0) largest largest
    compute_score_trace fit_seconds gen_seconds
    (async_problem (fun _ => progression_length_if_not_stopped))
    (async_method (Some 1%positive)) 0 20.

(** The progression steps recorded for each of the four trials: the column
    [t] of [map_df], grouped by trial. *)
Definition progressions (o : replication) : option (list (option (list Z))) :=
  sim ← the_simulator o;
  Some (map (fun i =>
               t ← get_sim_trial_by_index sim i;
               Some (observed_progressions progression_length_if_not_stopped
                       (time sim) t))
            (seq 0 4)).

(** The problem and the method of [test_timeout]: 1000 trials, a budget of 2
    seconds, one trial at a time; here every iteration of the loop takes one
    second of wall-clock time. *)
Definition unachievable : benchmark_problem.BenchmarkProblem :=
  {| benchmark_problem.name := "Branin";
     benchmark_problem.optimization_config :=
       {| cls := OptimizationConfigClass;
          objective := SingleObjective "Branin";
          outcome_constraints := [] |};
     benchmark_problem.num_trials := 1000;
     benchmark_problem.test_function_outcome_names := ["Branin"];
     benchmark_problem.optimal_value := 397887 # 1000000;
     benchmark_problem.search_space := [];
     benchmark_problem.report_inference_value_as_trace := false;
     benchmark_problem.n_best_points := 1;
     benchmark_problem.trial_runtime_func := None;
     benchmark_problem.target_fidelity_and_task := ∅ |}.

Definition two_seconds : benchmark_method.BenchmarkMethod :=
  {| benchmark_method.name := "Sobol";
     benchmark_method.generation_strategy := {| gs_name := "Sobol" |};
     benchmark_method.batch_size := 1;
     benchmark_method.timeout_hours := 2 # 3600;
     benchmark_method.distribute_replications := false;
     benchmark_method.use_model_predictions_for_best_point := false;
     benchmark_method.run_trials_in_batches := false;
     benchmark_method.max_pending_trials := 1;
     benchmark_method.early_stopping_strategy := None |}.

Definition one_second_each (iteration : nat) : Q := Z.of_nat iteration # 3600.

Definition replicate_unachievable
    (compute_score_trace : list Q -> list Q) (fit_seconds gen_seconds : Q)
    (fuel : nat) : replication :=
  benchmark_replication identity true 1 one_second_each ∅ largest largest
    compute_score_trace fit_seconds gen_seconds unachievable two_seconds 0 fuel.

End async_fixtures.

(** ** Fixtures of the casts, the builders and the metrics *)

Module cast_examples.

(** A few Python classes and objects; [bool] is a subclass of [int], and
    the class of a class is [type]. *)
Inductive class : Type := IntClass | BoolClass | StrClass | TypeClass.

Inductive object : Type :=
| IntObject (z : Z)
| BoolObject (b : bool)
| StrObject (s : string)
| ClassObject (c : class).

#[global] Instance class_eq_dec : EqDecision class.
Proof. solve_decision. Defined.

#[global] Instance object_eq_dec : EqDecision object.
Proof. solve_decision. Defined.

Definition isinstance (val : object) (typ : class) : bool :=
  match val, typ with
  | IntObject _, IntClass
  | BoolObject _, IntClass
  | BoolObject _, BoolClass
  | StrObject _, StrClass
  | ClassObject _, TypeClass => true
  | _, _ => false
  end.

Definition type_of (val : object) : object :=
  ClassObject
    match val with
    | IntObject _ => IntClass
    | BoolObject _ => BoolClass
    | StrObject _ => StrClass
    | ClassObject _ => TypeClass
    end.

Definition str_of_type (typ : class) : string :=
  match typ with
  | IntClass => "<class 'int'>"
  | BoolClass => "<class 'bool'>"
  | StrClass => "<class 'str'>"
  | TypeClass => "<class 'type'>"
  end.

Definition str_of (val : object) : string :=
  match val with
  | IntObject z => pretty z
  | BoolObject b => if b then "True" else "False"
  | StrObject s => s
  | ClassObject c => str_of_type c
  end.

Definition repr_of (val : object) : string :=
  match val with
  | StrObject s => "'" +:+ s +:+ "'"
  | _ => str_of val
  end.

(** [{"a": 1, "b": True}] *)
Definition counts : list (object * object) :=
  [(StrObject "a", IntObject 1); (StrObject "b", BoolObject true)].

End cast_examples.

Module builder_examples.
Import core benchmark_problem python problem_builders.

(** Checks for the constructors: a configuration is refused when a
    constraint is on a metric of the objective, a range parameter when its
    lower bound is not below its upper bound, and every test function is
    accepted. *)
Definition constraint_on_objective (c : FullOptimizationConfig)
  : option py_exception :=
  let objectives :=
    match objective (names_of c) with
    | SingleObjective name => [name]
    | MultiObjective names => names
    end in
  if existsb (fun name => bool_decide (name ∈ objectives))
       (outcome_constraints (names_of c))
  then Some (Builtin (ValueError "Cannot constrain on objective metric."))
  else None.

Definition bounds_out_of_order (p : RangeParameter) : option py_exception :=
  if Qle_bool (upper p) (lower p)
  then Some (OtherError "UserInputError"
               "the upper bound is not above the lower bound")
  else None.

Definition any_test_function (f : BaseTestProblem * list string)
  : option py_exception := None.

(** Test problems with the attributes of BoTorch's [Branin],
    [BraninCurrin] and [ConstrainedBraninCurrin]; a single-objective
    problem has no reference point and no maximal hypervolume, and a
    multi-objective problem no optimal value. *)
Definition Branin : BaseTestProblem :=
  {| class_name := "Branin";
     is_constrained := false;
     is_multi_objective := false;
     num_objectives := 1;
     num_constraints := 0;
     _bounds := [(-5, 10); (0, 15)]%Q;
     _ref_point := [];
     max_hv := Throw (OtherError "AttributeError"
                        "'Branin' object has no attribute 'max_hv'");
     tp_optimal_value := Value 0.397887%Q |}.

Definition BraninCurrin : BaseTestProblem :=
  {| class_name := "BraninCurrin";
     is_constrained := false;
     is_multi_objective := true;
     num_objectives := 2;
     num_constraints := 0;
     _bounds := [(0, 1); (0, 1)]%Q;
     _ref_point := [18; 6]%Q;
     max_hv := Value 59.36011874867746%Q;
     tp_optimal_value :=
       Throw (OtherError "AttributeError"
                "'BraninCurrin' object has no attribute 'optimal_value'") |}.

Definition ConstrainedBraninCurrin : BaseTestProblem :=
  {| class_name := "ConstrainedBraninCurrin";
     is_constrained := true;
     is_multi_objective := true;
     num_objectives := 2;
     num_constraints := 1;
     _bounds := [(0, 1); (0, 1)]%Q;
     _ref_point := [80; 12]%Q;
     max_hv := Value 608.4004237022673%Q;
     tp_optimal_value :=
       Throw (OtherError "AttributeError"
                "'ConstrainedBraninCurrin' object has no attribute 'optimal_value'") |}.

(** A search space with a range parameter, a fidelity parameter and a task
    parameter. *)
Definition fidelity_and_task_space : list SearchSpaceParameter :=
  [ {| pname := "x0"; is_choice_parameter := false; is_task := false;
       is_fidelity := false; target_value := PNone |};
    {| pname := "fidelity"; is_choice_parameter := false; is_task := false;
       is_fidelity := true; target_value := PFloat 1 |};
    {| pname := "task"; is_choice_parameter := true; is_task := true;
       is_fidelity := false; target_value := PInt 0 |} ].

Definition multi_fidelity : BenchmarkProblem :=
  {| name := "Branin";
     optimization_config :=
       {| cls := OptimizationConfigClass;
          objective := SingleObjective "Branin";
          outcome_constraints := [] |};
     num_trials := 5;
     test_function_outcome_names := ["Branin"];
     optimal_value := 0;
     search_space := fidelity_and_task_space;
     report_inference_value_as_trace := false;
     n_best_points := 1;
     trial_runtime_func := None;
     target_fidelity_and_task := ∅ |}.

End builder_examples.

Module metric_examples.
Import core python branin_map.

(** Rational stand-ins for the floating point operations, none of which the
    properties depend on: a plane for [branin], a linear weight. *)
Definition plane (x1 x2 : Q) : Q := (x1 + x2)%Q.

Definition linear_weight (rate : Q) (timestamp : Z) : Q :=
  (1 + rate * inject_Z timestamp)%Q.

Definition numbers (values : list TParamValue) : py_result (list Q) :=
  comprehension
    (fun value =>
       match value with
       | PFloat q => Value q
       | PInt z => Value (inject_Z z)
       | PBool b => Value (if b then 1 else 0)%Q
       | PStr _ => Throw (Builtin (ValueError "could not convert string to float"))
       | PNone => Throw (TypeError "float() argument must be a string or a real number, not 'NoneType'")
       end)
    values.

Definition all_rows (datas : list (list (@Row Q))) : py_result (list (@Row Q)) :=
  Value (concat datas).

Definition branin_map_metric : @BraninTimestampMapMetric Q :=
  {| name := "branin_map";
     param_names := ["x1"; "x2"];
     noise_sd := 0%Q;
     lower_is_better := Some true;
     rate := None;
     map_key_info_key := "timestamp";
     _trial_index_to_timestamp := ∅ |}.

Definition trial_0 (running : bool) : BaseTrial :=
  {| index := 0;
     is_running := running;
     arms := [ {| arm_name := "0_0";
                  parameters := [("x1", PFloat 1); ("x2", PFloat 2)] |} ] |}.

(** A trial with an arm of three parameters, which [f] cannot unpack. *)
Definition trial_of_three_parameters : BaseTrial :=
  {| index := 1;
     is_running := true;
     arms := [ {| arm_name := "1_0";
                  parameters := [("x1", PFloat 1); ("x2", PFloat 2);
                                 ("x3", PFloat 3)] |} ] |}.

Definition branin_fidelity_metric : @BraninFidelityMapMetric Q :=
  {| fidelity_name := "branin_fidelity";
     fidelity_param_names := ["x1"; "x2"];
     fidelity_noise_sd := 0%Q;
     fidelity_lower_is_better := Some true;
     fidelity_index := -1 |}.

Definition penalty (value u fidelity : Q) : Q :=
  (value - u * (1 - fidelity) * (1 - fidelity))%Q.

End metric_examples.

(** * Properties *)

(** ** Construction of a [BenchmarkProblem] *)

Section problem_validation.
Import core benchmark_problem.

Lemma missing_nonempty (A : gset string) (l : list string) :
  (0 <? Z.of_nat (size (A ∖ list_to_set l))) = true ↔ ∃ n, n ∈ A ∧ n ∉ l.
Proof.
  rewrite Z.ltb_lt. split.
  - intros Hpos.
    assert (Hne : A ∖ list_to_set l ≠ (∅ : gset string)).
    { intros Heq. rewrite Heq, size_empty in Hpos. lia. }
    apply set_choose_L in Hne as [n Hn].
    exists n. set_solver.
  - intros (n & HA & Hl).
    assert (Hsz : size (A ∖ (list_to_set l : gset string)) ≠ 0%nat).
    { intros Hz. apply size_empty_iff in Hz. set_solver. }
    lia.
Qed.

Lemma missing_empty (A : gset string) (l : list string) :
  (0 <? Z.of_nat (size (A ∖ list_to_set l))) = false ↔ ∀ n, n ∈ A → n ∈ l.
Proof.
  rewrite <- not_true_iff_false, missing_nonempty. split.
  - intros Hno n HA. destruct (decide (n ∈ l)) as [|Hn]; [done|].
    exfalso. apply Hno. eauto.
  - intros Hall (n & HA & Hn). auto.
Qed.

Lemma post_init_n_best_points p :
  unsupported_n_best_points p →
  ∃ msg, __post_init__ p = Raise (NotImplementedError msg).
Proof.
  unfold unsupported_n_best_points, __post_init__. intros Hn.
  destruct (Z.eqb_spec (n_best_points p) 1); [done | cbn; eauto].
Qed.

Lemma post_init_inference_moo p :
  ¬ unsupported_n_best_points p → inference_trace_for_moo p →
  ∃ msg, __post_init__ p = Raise (NotImplementedError msg).
Proof.
  unfold unsupported_n_best_points, inference_trace_for_moo, __post_init__.
  intros Hn [-> ->].
  destruct (Z.eqb_spec (n_best_points p) 1); [cbn; eauto | done].
Qed.

Lemma missing_metric_name_decide p :
  missing_metric_name p ∨ ¬ missing_metric_name p.
Proof.
  unfold missing_metric_name.
  destruct (0 <? Z.of_nat
              (size (objective_names (objective (optimization_config p))
                     ∖ list_to_set (test_function_outcome_names p)))) eqn:Hobj.
  { apply missing_nonempty in Hobj as (n & Hin & Hout). left. eauto. }
  destruct (0 <? Z.of_nat
              (size ((list_to_set (outcome_constraints (optimization_config p))
                      : gset string)
                     ∖ list_to_set (test_function_outcome_names p)))) eqn:Hcon.
  { apply missing_nonempty in Hcon as (n & Hin & Hout).
    rewrite elem_of_list_to_set in Hin. left. eauto. }
  right. intros (n & [Hin | Hin] & Hout); apply Hout.
  - by apply (proj1 (missing_empty _ _) Hobj).
  - apply (proj1 (missing_empty _ _) Hcon). by rewrite elem_of_list_to_set.
Qed.

Lemma post_init_names p :
  ¬ unsupported_n_best_points p → ¬ inference_trace_for_moo p →
  (missing_metric_name p → ∃ msg, __post_init__ p = Raise (ValueError msg))
  ∧ (¬ missing_metric_name p →
     __post_init__ p =
       Return (set_target_fidelity_and_task p
                 (compute_target_fidelity_and_task (search_space p)))).
Proof.
  unfold unsupported_n_best_points, inference_trace_for_moo,
    missing_metric_name, __post_init__.
  intros Hn Hrm.
  destruct (Z.eqb_spec (n_best_points p) 1); [cbn [negb] | done].
  destruct (report_inference_value_as_trace p && is_moo p) eqn:Hand.
  { apply andb_true_iff in Hand. done. }
  cbv zeta.
  destruct (0 <? Z.of_nat (size (objective_names _ ∖ _))) eqn:Hobj.
  { apply missing_nonempty in Hobj as (n & Hin & Hout). split; [eauto|].
    intros Hnone. exfalso. apply Hnone. eauto. }
  pose proof (proj1 (missing_empty _ _) Hobj) as Hobj'.
  destruct (0 <? Z.of_nat (size (list_to_set _ ∖ _))) eqn:Hcon.
  { apply missing_nonempty in Hcon as (n & Hin & Hout).
    rewrite elem_of_list_to_set in Hin. split; [eauto|].
    intros Hnone. exfalso. apply Hnone. eauto. }
  pose proof (proj1 (missing_empty _ _) Hcon) as Hcon'. split; [|done].
  intros (n & [Hin | Hin] & Hout); exfalso; apply Hout; [auto|].
  apply Hcon'. by rewrite elem_of_list_to_set.
Qed.

(** C7. [BenchmarkProblem.__post_init__] raises exactly when
    [n_best_points != 1], or [report_inference_value_as_trace] is set on a
    multi-objective configuration, or a metric name of the objective or of an
    outcome constraint is not produced by the test function. The checks run
    in that order: the first two raise [NotImplementedError], the third
    [ValueError]; when none holds, construction succeeds and only fills in
    [target_fidelity_and_task]. *)
Theorem problem_post_init_raises_exactly (p : BenchmarkProblem) :
  (raises (__post_init__ p) ↔
     unsupported_n_best_points p ∨ inference_trace_for_moo p
     ∨ missing_metric_name p)
  ∧ (unsupported_n_best_points p →
       ∃ msg, __post_init__ p = Raise (NotImplementedError msg))
  ∧ (¬ unsupported_n_best_points p → inference_trace_for_moo p →
       ∃ msg, __post_init__ p = Raise (NotImplementedError msg))
  ∧ (¬ unsupported_n_best_points p → ¬ inference_trace_for_moo p →
     missing_metric_name p →
       ∃ msg, __post_init__ p = Raise (ValueError msg))
  ∧ (¬ (unsupported_n_best_points p ∨ inference_trace_for_moo p
        ∨ missing_metric_name p) →
       __post_init__ p =
         Return (set_target_fidelity_and_task p
                   (compute_target_fidelity_and_task (search_space p)))).
Proof.
  assert (Hd1 : unsupported_n_best_points p ∨ ¬ unsupported_n_best_points p).
  { unfold unsupported_n_best_points.
    destruct (decide (n_best_points p = 1)); [right | left]; tauto. }
  assert (Hd2 : inference_trace_for_moo p ∨ ¬ inference_trace_for_moo p).
  { unfold inference_trace_for_moo.
    destruct (report_inference_value_as_trace p), (is_moo p);
      [left | right | right | right]; try tauto; intros [? ?]; congruence. }
  pose proof (missing_metric_name_decide p) as Hd3.
  split; [|split; [|split; [|split]]].
  - split.
    + intros [e He].
      destruct Hd1 as [H1 | H1]; [tauto|].
      destruct Hd2 as [H2 | H2]; [tauto|].
      destruct Hd3 as [H3 | H3]; [tauto|].
      destruct (post_init_names p H1 H2) as [_ Hok].
      rewrite (Hok H3) in He. discriminate.
    + intros Hc. destruct Hd1 as [H1 | H1].
      { destruct (post_init_n_best_points p H1) as [m Hm]. eexists; eauto. }
      destruct Hd2 as [H2 | H2].
      { destruct (post_init_inference_moo p H1 H2) as [m Hm]. eexists; eauto. }
      destruct Hc as [H | [H | H3]]; [tauto | tauto |].
      destruct (proj1 (post_init_names p H1 H2) H3) as [m Hm]. eexists; eauto.
  - apply post_init_n_best_points.
  - apply post_init_inference_moo.
  - intros H1 H2. apply (post_init_names p H1 H2).
  - intros Hnone. apply post_init_names; tauto.
Qed.

End problem_validation.

Section problem_checks.
Import core benchmark_problem problem_examples.

Example construction_succeeds :
  __post_init__ (branin ["Branin"; "constraint_slack_0"] 1 false true)
  = Return (branin ["Branin"; "constraint_slack_0"] 1 false true).
Proof. vm_compute. reflexivity. Qed.

Example objective_not_produced :
  raised_class (__post_init__ (branin ["constraint_slack_0"] 1 false false))
  = Some "ValueError".
Proof. vm_compute. reflexivity. Qed.

Example constraint_not_produced :
  raised_class (__post_init__ (branin ["Branin"] 1 false false))
  = Some "ValueError".
Proof. vm_compute. reflexivity. Qed.

Example moo_with_inference_trace :
  raised_class
    (__post_init__ (branin ["Branin_0"; "Branin_1"; "constraint_slack_0"] 1 true true))
  = Some "NotImplementedError".
Proof. vm_compute. reflexivity. Qed.

Example two_best_points_checked_first :
  raised_class (__post_init__ (branin [] 2 true true))
  = Some "NotImplementedError".
Proof. vm_compute. reflexivity. Qed.

End problem_checks.

(** ** Execution options of a [BenchmarkMethod] *)

Section method_options.
Import core benchmark_method.

Lemma post_init_keeps_strategy (self : BenchmarkMethod) (n : string) :
  early_stopping_strategy
    (if bool_decide (name self = "DEFAULT") then set_name self n else self)
  = early_stopping_strategy self.
Proof. by case_bool_decide. Qed.

Lemma post_init_positive_polls
    (self : BenchmarkMethod) (h : store) (l : loc) (ess : EarlyStoppingStrategy) :
  early_stopping_strategy self = Some l →
  h !! l = Some ess →
  0 < seconds_between_polls ess →
  store_after (__post_init__ self h) = <[ l := set_seconds_between_polls ess 0 ]> h
  ∧ warnings (__post_init__ self h)
    = [seconds_between_polls_warning (seconds_between_polls ess)]
  ∧ early_stopping_strategy (method_after (__post_init__ self h)) = Some l.
Proof.
  intros Hl Hess Hpos. unfold __post_init__. cbv zeta.
  rewrite post_init_keeps_strategy, Hl, Hess.
  apply Z.ltb_lt in Hpos. rewrite Hpos. cbn.
  by rewrite post_init_keeps_strategy.
Qed.

(** C8. The scheduler options of a method are computed from its fields
    alone: both polling delays are 0, [max_pending_trials] is the method's,
    and the trial type is [TRIAL] exactly when [batch_size == 1]. When the
    method is constructed with an early-stopping strategy whose
    [seconds_between_polls] is positive, [__post_init__] emits one warning
    and sets that field of the strategy object to 0, leaving every other
    object alone; the method still refers to the same object. *)
Theorem scheduler_options_and_polling (self : BenchmarkMethod) :
  so_init_seconds_between_polls (scheduler_options self) = 0
  ∧ so_min_seconds_before_poll (scheduler_options self) = 0
  ∧ so_max_pending_trials (scheduler_options self) = max_pending_trials self
  ∧ (batch_size self = 1 → so_trial_type (scheduler_options self) = TRIAL)
  ∧ (batch_size self ≠ 1 → so_trial_type (scheduler_options self) = BATCH_TRIAL)
  ∧ (∀ (h : store) (l : loc) (ess : EarlyStoppingStrategy),
       early_stopping_strategy self = Some l →
       h !! l = Some ess →
       0 < seconds_between_polls ess →
       warnings (__post_init__ self h)
         = [seconds_between_polls_warning (seconds_between_polls ess)]
       ∧ early_stopping_strategy (method_after (__post_init__ self h)) = Some l
       ∧ (seconds_between_polls <$> store_after (__post_init__ self h) !! l)
         = Some 0
       ∧ store_after (__post_init__ self h) !! l
         = Some (set_seconds_between_polls ess 0)
       ∧ ∀ l', l' ≠ l → store_after (__post_init__ self h) !! l' = h !! l').
Proof.
  split; [done|]. split; [done|]. split; [done|].
  split; [|split].
  - intros Hb. unfold scheduler_options. cbn. by rewrite Hb.
  - intros Hb. unfold scheduler_options. cbn.
    by destruct (Z.eqb_spec (batch_size self) 1).
  - intros h l ess Hl Hess Hpos.
    destruct (post_init_positive_polls self h l ess Hl Hess Hpos)
      as (Hstore & Hwarn & Hstrategy).
    rewrite Hstore, Hwarn, Hstrategy.
    split; [done|]. split; [done|].
    rewrite lookup_insert_eq. split; [done|]. split; [done|].
    intros l' Hne. by rewrite lookup_insert_ne.
Qed.

End method_options.

Section method_checks.
Import core benchmark_method method_examples.

Example polls_every_300_seconds :
  let after := __post_init__ (sobol 1 (Some 1%positive)) (one_strategy 300) in
  warnings after
    = ["`early_stopping_strategy.seconds_between_polls` is 300, but benchmarking uses 0 seconds between polls. Setting `early_stopping_strategy.seconds_between_polls` to 0."]
  ∧ store_after after = one_strategy 0
  ∧ name (method_after after) = "Sobol".
Proof. vm_compute. done. Qed.

Example polls_already_zero :
  let after := __post_init__ (sobol 1 (Some 1%positive)) (one_strategy 0) in
  warnings after = [] ∧ store_after after = one_strategy 0.
Proof. vm_compute. done. Qed.

Example batch_of_five :
  so_trial_type (scheduler_options (sobol 5 None)) = BATCH_TRIAL
  ∧ so_trial_type (scheduler_options (sobol 1 None)) = TRIAL
  ∧ so_trial_type (scheduler_options (sobol 0 None)) = BATCH_TRIAL.
Proof. vm_compute. done. Qed.

End method_checks.

(** ** Best-point selection and the random model bridge *)

Section best_parameters.
Import core benchmark_method.

(** C9. The paths that are not supported raise at once:
    [get_best_parameters] raises [NotImplementedError] whenever the
    optimization config is multi-objective or [n_points != 1], whatever
    [_get_best_trial] would answer, and [RandomModelBridge._predict] and
    [RandomModelBridge._cross_validate] raise [NotImplementedError] on every
    input. *)
Theorem unsupported_paths_raise :
  (∀ (Experiment TModelPredictArm : Type)
     (_get_best_trial : Experiment → GenerationStrategy → OptimizationConfig →
                        bool → option (Z * TParameterization * option TModelPredictArm))
     (self : BenchmarkMethod) (experiment : Experiment)
     (optimization_config : OptimizationConfig) (n_points : Z),
     is_multi_objective_config optimization_config = true ∨ n_points ≠ 1 →
     ∃ msg, get_best_parameters _get_best_trial self experiment
              optimization_config n_points
            = Raise (NotImplementedError msg))
  ∧ (∀ (RandomModelBridge ObservationFeatures ObservationData : Type)
       (self : RandomModelBridge) (observation_features : list ObservationFeatures),
       ∃ msg, random._predict (ObservationData := ObservationData)
                self observation_features
              = Raise (NotImplementedError msg))
  ∧ (∀ (RandomModelBridge SearchSpace Observation ObservationFeatures
        ObservationData : Type)
       (self : RandomModelBridge) (search_space : SearchSpace)
       (cv_training_data : list Observation)
       (cv_test_points : list ObservationFeatures)
       (use_posterior_predictive : bool),
       ∃ msg, random._cross_validate (ObservationData := ObservationData)
                self search_space cv_training_data cv_test_points
                use_posterior_predictive
              = Raise (NotImplementedError msg)).
Proof.
  split; [|split].
  - intros E T gbt self e c n Hc. unfold get_best_parameters.
    destruct (is_multi_objective_config c) eqn:Hmoo; [eauto|].
    destruct Hc as [Hc | Hn]; [discriminate|].
    destruct (Z.eqb_spec n 1); [done | cbn; eauto].
  - intros. unfold random._predict. eauto.
  - intros. unfold random._cross_validate. eauto.
Qed.

(** C10. For a single-objective config and [n_points = 1],
    [get_best_parameters] does not raise: it returns the one-element list of
    the parameterization [_get_best_trial] found, and the empty list when
    [_get_best_trial] found none. [_get_best_trial] is any function of the
    type its signature gives. *)
Theorem get_best_parameters_single_objective
    {Experiment TModelPredictArm : Type}
    (_get_best_trial : Experiment → GenerationStrategy → OptimizationConfig →
                       bool → option (Z * TParameterization * option TModelPredictArm))
    (self : BenchmarkMethod) (experiment : Experiment)
    (optimization_config : OptimizationConfig) :
  is_multi_objective_config optimization_config = false →
  let best := _get_best_trial experiment (generation_strategy self)
                optimization_config (use_model_predictions_for_best_point self) in
  let returned := get_best_parameters _get_best_trial self experiment
                    optimization_config 1 in
  ¬ raises returned
  ∧ (∀ i params prediction,
       best = Some (i, params, prediction) → returned = Return [params])
  ∧ (best = None → returned = Return []).
Proof.
  intros Hsoo best returned. subst best returned.
  unfold get_best_parameters, raises. rewrite Hsoo. cbn.
  destruct (_get_best_trial _ _ _ _) as [[[i params] prediction]|];
    repeat split; try done.
  - intros [e He]. discriminate.
  - intros ? ? ? [= <- <- <-]. done.
  - intros [e He]. discriminate.
Qed.

End best_parameters.

(** C10 at a single-objective config whose best trial is trial 3. *)
Lemma get_best_parameters_single_objective_witness :
  benchmark_method.get_best_parameters best_parameters_examples.best_is_trial_3
    (method_examples.sobol 1 None) tt
    best_parameters_examples.single_objective 1
  = Return [ {[ "x0" := core.PInt 3 ]} ].
Proof.
  refine (proj1 (proj2 (get_best_parameters_single_objective
                          best_parameters_examples.best_is_trial_3
                          (method_examples.sobol 1 None) tt
                          best_parameters_examples.single_objective _))
            3 _ None _); reflexivity.
Defined.

Example no_feasible_trial_gives_empty_list :
  benchmark_method.get_best_parameters best_parameters_examples.no_feasible_trial
    (method_examples.sobol 1 None) tt
    best_parameters_examples.single_objective 1
  = Return [].
Proof. reflexivity. Qed.

(** ** Construction of a [BenchmarkResult] *)

Section result_validation.
Import benchmark_result.
Context {Experiment : Type}.

(** C6, as amended. Constructing a [BenchmarkResult] with both an
    [experiment] and an [experiment_storage_id] raises [ValueError], and so
    does constructing one with neither; construction succeeds exactly when
    one of the two is given, and then returns the object unchanged, so a
    freshly constructed result holds exactly one of them. *)
Theorem benchmark_result_construction (self : BenchmarkResult Experiment) :
  (holds_both self = true → ∃ msg, __post_init__ self = Raise (ValueError msg))
  ∧ (holds_neither self = true →
       ∃ msg, __post_init__ self = Raise (ValueError msg))
  ∧ (raises (__post_init__ self) ↔
       holds_both self = true ∨ holds_neither self = true)
  ∧ (holds_exactly_one self = true ↔ __post_init__ self = Return self)
  ∧ (∀ r, __post_init__ self = Return r → r = self ∧ holds_exactly_one r = true).
Proof.
  assert (Hcases :
    (holds_both self = true ∧ holds_neither self = false
     ∧ ∃ msg, __post_init__ self = Raise (ValueError msg))
    ∨ (holds_both self = false ∧ holds_neither self = true
       ∧ ∃ msg, __post_init__ self = Raise (ValueError msg))
    ∨ (holds_both self = false ∧ holds_neither self = false
       ∧ __post_init__ self = Return self)).
  { unfold holds_both, holds_neither, __post_init__.
    destruct (experiment self) as [e|], (experiment_storage_id self) as [i|];
      cbn.
    - left. split; [done|]. split; [done|]. by eexists.
    - right. right. done.
    - right. right. done.
    - right. left. split; [done|]. split; [done|]. by eexists. }
  unfold holds_exactly_one, raises.
  destruct Hcases as [(Hb & Hn & msg & Hr) | [(Hb & Hn & msg & Hr) | (Hb & Hn & Hr)]];
    rewrite Hb, Hn, Hr; cbn.
  - split; [by exists msg|]. split; [done|]. split; [|split; [done|done]].
    split; [by left | by exists (ValueError msg)].
  - split; [done|]. split; [by exists msg|]. split; [|split; [done|done]].
    split; [by right | by exists (ValueError msg)].
  - split; [done|]. split; [done|]. split; [|split; [done|]].
    + split; [intros [e He]; discriminate | intros [H | H]; discriminate].
    + intros r [= <-]. by rewrite Hb, Hn.
Qed.

End result_validation.

Example both_given_raises :
  raised_class
    (benchmark_result.__post_init__
       (result_examples.result_with (Some tt) (Some "experiment_storage_id")))
  = Some "ValueError".
Proof. reflexivity. Qed.

Example neither_given_raises :
  raised_class
    (benchmark_result.__post_init__ (result_examples.result_with None None))
  = Some "ValueError".
Proof. reflexivity. Qed.

(** C6, the claim as stated fails: a result does not always hold exactly one
    of the two. As in [test_storage], a result constructed with an experiment
    is assigned a storage id while the experiment is still attached: at that
    point it holds both, and nothing raises. Clearing the experiment
    afterwards restores the property. *)
Lemma result_holds_both_after_assignment :
  ∃ res : benchmark_result.BenchmarkResult unit,
    benchmark_result.__post_init__ (result_examples.result_with (Some tt) None)
      = Return res
    ∧ benchmark_result.holds_exactly_one
        (benchmark_result.set_experiment_storage_id res (Some "f.json")) = false
    ∧ benchmark_result.holds_both
        (benchmark_result.set_experiment_storage_id res (Some "f.json")) = true
    ∧ benchmark_result.holds_exactly_one
        (benchmark_result.set_experiment
           (benchmark_result.set_experiment_storage_id res (Some "f.json"))
           None) = true.
Proof. eexists. split; [reflexivity|]. vm_compute. done. Qed.

(** ** Aggregation of replications *)

Section aggregation.
Import benchmark_result.
Context {Experiment : Type}.

Lemma foldr_min_le (n : nat) (ns : list nat) :
  (foldr Nat.min n ns ≤ n)%nat ∧ Forall (λ m, foldr Nat.min n ns ≤ m)%nat ns.
Proof.
  induction ns as [|m ns [IH1 IH2]]; cbn; [split; [lia | constructor]|].
  split; [lia|]. constructor; [lia|].
  eapply Forall_impl; [exact IH2|]. cbn. intros; lia.
Qed.

Lemma foldr_min_attained (n : nat) (ns : list nat) :
  foldr Nat.min n ns = n ∨ foldr Nat.min n ns ∈ ns.
Proof.
  induction ns as [|m ns IH]; cbn; [by left|].
  destruct (Nat.min_spec m (foldr Nat.min n ns)) as [[_ ->] | [_ ->]].
  - right. left.
  - destruct IH as [IH | IH]; [by left | right; by right].
Qed.

Lemma shortest_le (traces : list (list Q)) (trace : list Q) :
  trace ∈ traces → (shortest traces ≤ length trace)%nat.
Proof.
  unfold shortest. destruct traces as [|t ts]; cbn; [by intros ?%elem_of_nil|].
  destruct (foldr_min_le (length t) (map length ts)) as [H1 H2].
  intros [->|Hin]%elem_of_cons; [done|].
  rewrite Forall_forall in H2. apply H2.
  apply list_elem_of_In, in_map, list_elem_of_In, Hin.
Qed.

Lemma shortest_attained (traces : list (list Q)) :
  traces ≠ [] → ∃ trace, trace ∈ traces ∧ shortest traces = length trace.
Proof.
  unfold shortest. destruct traces as [|t ts]; [done|intros _]. cbn.
  destruct (foldr_min_attained (length t) (map length ts)) as [-> | Hin].
  - exists t. split; [left | done].
  - apply list_elem_of_In, in_map_iff in Hin as (t' & Hlen & Hin).
    exists t'. split; [right; by apply list_elem_of_In | done].
Qed.

Lemma longest_ge (traces : list (list Q)) (trace : list Q) :
  trace ∈ traces → (length trace ≤ longest traces)%nat.
Proof.
  unfold longest. induction traces as [|t ts IH]; [by intros ?%elem_of_nil|].
  cbn. intros [->|Hin]%elem_of_cons; [lia|]. specialize (IH Hin). lia.
Qed.

Lemma length_summarize (traces : list (list Q)) :
  length (summarize traces) = shortest traces.
Proof. unfold summarize. by rewrite length_map, length_seq. Qed.

(** Row [i] of a summary is computed from entry [i] of every trace: none is
    left out, none is padded. *)
Lemma summarize_row (traces : list (list Q)) (i : nat) :
  (i < shortest traces)%nat →
  summarize traces !! i = Some (get_stats (map (λ trace, nth i trace 0%Q) traces)).
Proof.
  intros Hi. unfold summarize.
  rewrite list_lookup_fmap.
  rewrite lookup_seq_lt by done. cbn. do 2 f_equal.
  assert (Hall : ∀ trace, trace ∈ traces → (i < length trace)%nat).
  { intros trace Hin. pose proof (shortest_le traces trace Hin). lia. }
  clear Hi. induction traces as [|t ts IH]; [done|]. cbn.
  destruct (lookup_lt_is_Some_2 t i) as [x Hx]; [apply Hall; left|].
  rewrite Hx. cbn. rewrite (nth_lookup_Some _ _ _ _ Hx). f_equal.
  apply IH. intros trace Hin. apply Hall. by right.
Qed.

(** C3. The summary tables of an [AggregatedResult] built from a non-empty
    list of results have the length of the shortest constituent trace: the
    optimization summary is as long as the shortest [optimization_trace], no
    longer than any constituent and as long as one of them, hence strictly
    shorter than the longest whenever the constituents differ in length. The
    score summary is as long as the shortest [score_trace], which is the
    same number when every result has traces of equal length (the invariant
    of a [BenchmarkResult]). *)
Theorem aggregated_traces_have_shortest_length
    (results : list (BenchmarkResult Experiment)) :
  results ≠ [] →
  let agg := from_benchmark_results results in
  let n := length (agg_optimization_trace agg) in
  n = shortest (map optimization_trace results)
  ∧ Forall (λ r, n ≤ length (optimization_trace r))%nat results
  ∧ Exists (λ r, n = length (optimization_trace r)) results
  ∧ (n ≤ longest (map optimization_trace results))%nat
  ∧ (Exists (λ r, length (optimization_trace r)
                  < longest (map optimization_trace results))%nat results →
     n < longest (map optimization_trace results))%nat
  ∧ length (agg_score_trace agg) = shortest (map score_trace results)
  ∧ (Forall (λ r, length (score_trace r) = length (optimization_trace r)) results →
     length (agg_score_trace agg) = n).
Proof.
  intros Hne agg n. subst agg n. cbn.
  rewrite !length_summarize.
  assert (Hle : Forall (λ r, shortest (map optimization_trace results)
                             ≤ length (optimization_trace r))%nat results).
  { apply Forall_forall. intros r Hr. apply shortest_le.
    apply list_elem_of_In, in_map, list_elem_of_In, Hr. }
  split; [done|]. split; [done|]. split; [|split; [|split; [|split; [done|]]]].
  - destruct (shortest_attained (map optimization_trace results))
      as (trace & Hin & Heq); [by destruct results|].
    apply list_elem_of_In, in_map_iff in Hin as (r & <- & Hin).
    apply Exists_exists. exists r. split; [by apply list_elem_of_In | done].
  - destruct results as [|r rs]; [done|].
    apply Forall_cons in Hle as [Hle _].
    etrans; [exact Hle|]. apply longest_ge. left.
  - intros (r & Hr & Hlt)%Exists_exists.
    rewrite Forall_forall in Hle. specialize (Hle r Hr). lia.
  - intros Heq. unfold shortest.
    assert (Hlen : map length (map score_trace results)
                   = map length (map optimization_trace results)).
    { clear -Heq. induction Heq as [|r rs Hr _ IH]; cbn; [done | congruence]. }
    by rewrite Hlen.
Qed.

End aggregation.

(** C3 at three results with traces of lengths 4, 4 and 2. *)
Lemma aggregated_traces_have_shortest_length_witness :
  length (benchmark_result.agg_optimization_trace
            (benchmark_result.from_benchmark_results
               result_examples.lengths_4_4_2))
  = benchmark_result.shortest
      (map benchmark_result.optimization_trace result_examples.lengths_4_4_2).
Proof.
  refine (proj1 (aggregated_traces_have_shortest_length
                   result_examples.lengths_4_4_2 _)).
  discriminate.
Defined.

Example lengths_4_4_2_aggregate_to_2 :
  length (benchmark_result.agg_optimization_trace
            (benchmark_result.from_benchmark_results
               result_examples.lengths_4_4_2)) = 2%nat
  ∧ length (benchmark_result.agg_score_trace
              (benchmark_result.from_benchmark_results
                 result_examples.lengths_4_4_2)) = 2%nat.
Proof. vm_compute. done. Qed.

Example median_of_first_step :
  Qeq_bool
    (benchmark_result.P50 (benchmark_result.get_stats [3; 5; 4]%Q)) 4 = true
  ∧ Qeq_bool
      (benchmark_result.mean (benchmark_result.get_stats [3; 5; 4]%Q)) 4 = true
  ∧ Qeq_bool
      (benchmark_result.P25 (benchmark_result.get_stats [3; 5; 4]%Q)) (7 # 2)
    = true.
Proof. vm_compute. done. Qed.

(** ** The simulator keeps every trial, once *)

Section simulator_invariants.
Import backend_simulator.

Lemma indices_app (a b : list SimTrial) :
  indices (a ++ b) = indices a ++ indices b.
Proof. apply map_app. Qed.

Lemma insert_in_order_perm (t : SimTrial) (q : list SimTrial) :
  insert_in_order t q ≡ₚ t :: q.
Proof.
  induction q as [|u q IH]; cbn; [done|].
  destruct (promoted_before t u); [done|].
  rewrite IH. apply Permutation_swap.
Qed.

Lemma promotion_order_perm (q : list SimTrial) : promotion_order q ≡ₚ q.
Proof.
  induction q as [|t q IH]; cbn; [done|].
  rewrite insert_in_order_perm. by rewrite IH.
Qed.

Lemma promote_indices (now : Z) (capacity : nat) (q r : list SimTrial) :
  indices ((promote now capacity q r).1 ++ (promote now capacity q r).2)
  ≡ₚ indices (q ++ r).
Proof.
  revert r. induction q as [|t q IH]; intros r; cbn [promote]; [reflexivity|].
  destruct (length r <? capacity)%nat; [|reflexivity].
  rewrite IH, !indices_app. cbn.
  rewrite (Permutation_app_comm (indices r)). cbn.
  symmetry. apply Permutation_middle.
Qed.

Lemma filter_split_perm {A : Type} (f : A → bool) (l : list A) :
  List.filter f l ++ List.filter (λ x, negb (f x)) l ≡ₚ l.
Proof.
  induction l as [|x l IH]; cbn; [done|].
  destruct (f x); cbn.
  - by rewrite IH.
  - rewrite <- Permutation_middle. by rewrite IH.
Qed.

Lemma indices_complete (l : list SimTrial) : indices (map complete l) = indices l.
Proof. unfold indices. rewrite map_map. done. Qed.

Lemma update_indices (sim : BackendSimulator) (now : Z) :
  indices (all_trials (update sim now)) ≡ₚ indices (all_trials sim).
Proof.
  unfold all_trials, update. cbn.
  set (now' := Z.max (time sim) now).
  set (qr := promote now' (max_pending_trials sim)
               (promotion_order (_queued sim)) (_running sim)).
  rewrite !indices_app, indices_complete.
  assert (Hp : indices qr.1 ++ indices qr.2
               ≡ₚ indices (_queued sim) ++ indices (_running sim)).
  { rewrite <- !indices_app. unfold qr. rewrite promote_indices, !indices_app.
    apply Permutation_app_tail, Permutation_map, promotion_order_perm. }
  assert (Hf : indices (List.filter (is_due now') qr.2)
               ++ indices (List.filter (λ t, negb (is_due now' t)) qr.2)
               ≡ₚ indices qr.2).
  { rewrite <- indices_app. apply Permutation_map, filter_split_perm. }
  transitivity ((indices qr.1 ++ indices qr.2)
                ++ indices (_completed sim) ++ indices (_early_stopped sim)).
  - rewrite <- Hf. solve_Permutation.
  - rewrite Hp. by rewrite <- app_assoc.
Qed.

Lemma update_finished (sim : BackendSimulator) (now : Z) :
  (length (_completed sim) ≤ length (_completed (update sim now)))%nat
  ∧ _early_stopped (update sim now) = _early_stopped sim.
Proof. unfold update. cbn. rewrite length_app. split; [lia | done]. Qed.

Lemma has_index_true (i : nat) (t : SimTrial) :
  has_index i t = true ↔ trial_index t = i.
Proof. unfold has_index. apply Nat.eqb_eq. Qed.

Lemma has_index_false (i : nat) (t : SimTrial) :
  has_index i t = false ↔ trial_index t ≠ i.
Proof. unfold has_index. apply Nat.eqb_neq. Qed.

Lemma find_has_index_None (i : nat) (l : list SimTrial) :
  i ∉ indices l → find (has_index i) l = None.
Proof.
  induction l as [|t l IH]; cbn; [done|]. intros Hin.
  destruct (has_index i t) eqn:Ht.
  - exfalso. apply Hin. apply has_index_true in Ht as ->. left.
  - apply IH. intros Hl. apply Hin. by right.
Qed.

Lemma find_has_index_Some (i : nat) (l : list SimTrial) :
  i ∈ indices l → ∃ t, find (has_index i) l = Some t ∧ trial_index t = i.
Proof.
  induction l as [|t l IH]; cbn; [by intros ?%elem_of_nil|]. intros Hin.
  destruct (has_index i t) eqn:Ht.
  - exists t. split; [done|]. by apply has_index_true.
  - apply IH. apply has_index_false in Ht.
    apply elem_of_cons in Hin as [Heq|Hin]; [congruence | done].
Qed.

Lemma run_trial_fresh (sim : BackendSimulator) (i : nat) (runtime queued_time : Z) :
  i ∉ indices (all_trials sim) →
  ∃ sim', run_trial sim i runtime queued_time = Some sim'
    ∧ indices (all_trials sim') ≡ₚ i :: indices (all_trials sim)
    ∧ _completed sim' = _completed sim
    ∧ _early_stopped sim' = _early_stopped sim
    ∧ max_pending_trials sim' = max_pending_trials sim.
Proof.
  intros Hfresh. unfold run_trial, get_sim_trial_by_index.
  rewrite (find_has_index_None _ _ Hfresh). eexists. split; [done|]. cbn.
  split; [|done]. unfold all_trials. cbn. rewrite !indices_app. cbn.
  solve_Permutation.
Qed.

Lemma filter_other_indices (i : nat) (l : list SimTrial) :
  i ∉ indices l → List.filter (λ u, negb (has_index i u)) l = l.
Proof.
  induction l as [|v l IH]; cbn; [done|]. intros Hin.
  destruct (has_index i v) eqn:Hv; cbn.
  - exfalso. apply Hin. apply has_index_true in Hv as ->. left.
  - f_equal. apply IH. intros Hl. apply Hin. by right.
Qed.

(** Removing the one trial with index [i] from a list without repeated
    indices. *)
Lemma remove_index_perm (i : nat) (l : list SimTrial) (t : SimTrial) :
  NoDup (indices l) → find (has_index i) l = Some t →
  indices (List.filter (λ u, negb (has_index i u)) l) ++ [trial_index t]
  ≡ₚ indices l.
Proof.
  induction l as [|u l IH]; cbn; [done|]. intros Hnd Hfind.
  apply NoDup_cons in Hnd as [Hu Hnd].
  destruct (has_index i u) eqn:Hiu; cbn.
  - injection Hfind as <-. apply has_index_true in Hiu. rewrite Hiu in Hu.
    rewrite (filter_other_indices i l Hu), Hiu.
    symmetry. apply Permutation_cons_append.
  - by rewrite (IH Hnd Hfind).
Qed.

Lemma stop_running_trial_running (sim : BackendSimulator) (i : nat) (now : Z) :
  NoDup (indices (_running sim)) → i ∈ indices (_running sim) →
  ∃ sim', stop_running_trial sim i now = Some sim'
    ∧ indices (all_trials sim') ≡ₚ indices (all_trials sim)
    ∧ indices (_running sim') = List.filter (λ j, negb (j =? i)%nat) (indices (_running sim))
    ∧ _completed sim' = _completed sim
    ∧ (length (_early_stopped sim) ≤ length (_early_stopped sim'))%nat
    ∧ max_pending_trials sim' = max_pending_trials sim.
Proof.
  intros Hnd Hin. unfold stop_running_trial.
  destruct (find_has_index_Some _ _ Hin) as (t & Hfind & Hi).
  rewrite Hfind. eexists. split; [done|]. cbn.
  split; [|split; [|split; [done|split; [|done]]]].
  - unfold all_trials. cbn. rewrite !indices_app. cbn.
    pose proof (remove_index_perm i _ t Hnd Hfind) as Hp.
    rewrite <- Hp. solve_Permutation.
  - clear. induction (_running sim) as [|u l IH]; cbn; [done|].
    unfold has_index at 1. destruct (trial_index u =? i)%nat; cbn;
      [done | by f_equal].
  - rewrite length_app. lia.
Qed.

Lemma NoDup_indices_filter (f : SimTrial → bool) (l : list SimTrial) :
  NoDup (indices l) → NoDup (indices (List.filter f l)).
Proof.
  induction l as [|t l IH]; cbn; [done|]. intros [Ht Hnd]%NoDup_cons.
  destruct (f t); cbn; [|by apply IH].
  apply NoDup_cons. split; [|by apply IH].
  intros Hin. apply Ht. clear -Hin.
  induction l as [|u l IH]; cbn in *; [done|].
  destruct (f u); cbn in *.
  - apply elem_of_cons in Hin as [->|Hin]; [left | right; by apply IH].
  - right. by apply IH.
Qed.

Lemma indices_filter_subset (f : SimTrial → bool) (l : list SimTrial) (i : nat) :
  i ∈ indices (List.filter f l) → i ∈ indices l.
Proof.
  induction l as [|u l IH]; cbn; [done|].
  destruct (f u); cbn.
  - intros [->|Hin]%elem_of_cons; [left | right; by apply IH].
  - intros Hin. right. by apply IH.
Qed.

Lemma NoDup_List_filter {A : Type} (f : A → bool) (l : list A) :
  NoDup l → NoDup (List.filter f l).
Proof.
  induction l as [|x l IH]; cbn; [done|]. intros [Hx Hnd]%NoDup_cons.
  destruct (f x); [|by apply IH].
  apply NoDup_cons. split; [|by apply IH].
  intros Hin. apply Hx. apply list_elem_of_In in Hin.
  apply filter_In in Hin as [Hin _]. by apply list_elem_of_In.
Qed.

Lemma stop_trials_running (now : Z) (flagged : list nat) (sim : BackendSimulator) :
  NoDup (indices (_running sim)) → NoDup flagged →
  (∀ i, i ∈ flagged → i ∈ indices (_running sim)) →
  ∃ sim', benchmark.stop_trials sim flagged now = Some sim'
    ∧ indices (all_trials sim') ≡ₚ indices (all_trials sim)
    ∧ _completed sim' = _completed sim
    ∧ (length (_early_stopped sim) ≤ length (_early_stopped sim'))%nat
    ∧ max_pending_trials sim' = max_pending_trials sim.
Proof.
  revert sim. induction flagged as [|i flagged IH]; intros sim Hnd Hfl Hsub; cbn.
  { exists sim. done. }
  apply NoDup_cons in Hfl as [Hi Hfl].
  destruct (stop_running_trial_running sim i now Hnd) as
    (sim1 & Hstop & Hperm & Hrun & Hcomp & Hearly & Hcap); [apply Hsub; left|].
  rewrite Hstop. cbn.
  destruct (IH sim1) as (sim2 & Hstop2 & Hperm2 & Hcomp2 & Hearly2 & Hcap2).
  - rewrite Hrun. by apply NoDup_List_filter.
  - done.
  - intros j Hj. rewrite Hrun. apply list_elem_of_In, filter_In. split.
    + apply list_elem_of_In, Hsub. by right.
    + apply negb_true_iff, Nat.eqb_neq. intros ->. done.
  - exists sim2. split; [done|]. split; [by rewrite Hperm2|].
    split; [congruence|]. split; [lia | congruence].
Qed.

End simulator_invariants.

(** ** The scheduling loop answers, and reports every finished trial *)

Section scheduler_invariants.
Import backend_simulator benchmark_runner benchmark.

Lemma n_finished_indices (sim : BackendSimulator) :
  length (finished_trials sim)
  = (length (_completed sim) + length (_early_stopped sim))%nat.
Proof. unfold finished_trials. apply length_app. Qed.

Lemma length_indices (l : list SimTrial) : length (indices l) = length l.
Proof. apply length_map. Qed.

Lemma simulator_poll (st : scheduler) :
  simulator (runner (poll st))
  = update (simulator (runner st)) (Z.of_nat (clock st)).
Proof. done. Qed.

Lemma consistent_poll (st : scheduler) :
  consistent st →
  consistent (poll st) ∧ same_books st (poll st)
  ∧ (n_finished st ≤ n_finished (poll st))%nat.
Proof.
  intros (Hnd & Hlt & Hlen & Hhist).
  pose proof (update_indices (simulator (runner st)) (Z.of_nat (clock st))) as Hp.
  pose proof (update_finished (simulator (runner st)) (Z.of_nat (clock st)))
    as [Hc He].
  assert (Hfin : (n_finished st ≤ n_finished (poll st))%nat).
  { unfold n_finished. rewrite simulator_poll, !n_finished_indices, He. lia. }
  split; [|done]. unfold consistent. rewrite simulator_poll.
  split; [by rewrite Hp|]. split; [|split].
  - intros i Hi. apply Hlt. by rewrite <- Hp.
  - rewrite <- length_indices, Hp, length_indices. done.
  - change (history (poll st)) with (history st). lia.
Qed.

Lemma consistent_report (st : scheduler) :
  consistent st →
  consistent (report st)
  ∧ runner (report st) = runner st ∧ clock (report st) = clock st
  ∧ log (report st) = log st ∧ n_created (report st) = n_created st
  ∧ length (history (report st)) = n_finished st.
Proof.
  intros (Hnd & Hlt & Hlen & Hhist).
  assert (Hh : length (history (report st)) = n_finished st).
  { unfold report. cbn. rewrite length_app, repeat_length.
    unfold n_finished in Hhist |- *. lia. }
  split; [|done]. split; [done|]. split; [done|]. split; [done|].
  rewrite Hh. done.
Qed.

Lemma finished_le_all (sim : BackendSimulator) :
  (length (finished_trials sim) ≤ length (all_trials sim))%nat.
Proof. unfold finished_trials, all_trials. rewrite !length_app. lia. Qed.

Lemma consistent_deploy_one (st : scheduler) :
  consistent st →
  ∃ st', deploy_one st = Some st' ∧ consistent st'
    ∧ clock st' = clock st ∧ log st' = log st ∧ history st' = history st
    ∧ n_created st' = S (n_created st) ∧ n_finished st' = n_finished st.
Proof.
  intros (Hnd & Hlt & Hlen & Hhist). unfold deploy_one, run.
  set (runtime := match trial_runtime_func (runner st) with
                  | Some f => f (n_created st) | None => 1 end).
  destruct (run_trial_fresh (simulator (runner st)) (n_created st) runtime
              (time (simulator (runner st))))
    as (sim' & Hrun & Hperm & Hcomp & Hearly & Hcap).
  { intros Hin. specialize (Hlt _ Hin). lia. }
  rewrite Hrun. cbn. eexists. split; [done|].
  assert (Hfin : length (finished_trials sim')
                 = length (finished_trials (simulator (runner st)))).
  { rewrite !n_finished_indices. congruence. }
  unfold consistent, n_finished. cbn.
  split; [|done]. split; [|split; [|split]].
  - rewrite Hperm. apply NoDup_cons. split; [|done].
    intros Hin. specialize (Hlt _ Hin). lia.
  - intros i Hi. rewrite Hperm in Hi.
    apply elem_of_cons in Hi as [->|Hi]; [lia|]. specialize (Hlt _ Hi). lia.
  - rewrite <- length_indices, Hperm. cbn. by rewrite length_indices, Hlen.
  - rewrite Hfin. done.
Qed.

Lemma consistent_deploy (n : nat) (st : scheduler) :
  consistent st →
  ∃ st', deploy n st = Some st' ∧ consistent st'
    ∧ clock st' = clock st ∧ log st' = log st ∧ history st' = history st
    ∧ n_created st' = (n_created st + n)%nat ∧ n_finished st' = n_finished st.
Proof.
  revert st. induction n as [|n IH]; intros st Hst; cbn.
  { exists st. split; [done|]. split; [done|]. repeat split; done || lia. }
  destruct (consistent_deploy_one st Hst)
    as (st1 & -> & Hst1 & Hc1 & Hl1 & Hh1 & Hn1 & Hf1). cbn.
  destruct (IH st1 Hst1) as (st2 & -> & Hst2 & Hc2 & Hl2 & Hh2 & Hn2 & Hf2).
  exists st2. split; [done|]. split; [done|].
  repeat split; congruence || lia.
Qed.

Lemma NoDup_running (sim : BackendSimulator) :
  NoDup (indices (all_trials sim)) → NoDup (indices (_running sim)).
Proof.
  unfold all_trials. rewrite !indices_app.
  intros (_ & _ & Hnd)%NoDup_app. by apply NoDup_app in Hnd as (Hnd & _ & _).
Qed.

Lemma Qlt_bool_true (a b : Q) : Qlt_bool a b = true ↔ (a < b)%Q.
Proof.
  unfold Qlt_bool. rewrite negb_true_iff, <- not_true_iff_false, Qle_bool_iff.
  split; [apply Qnot_le_lt | apply Qlt_not_le].
Qed.

Section loop.
Variable num_trials : nat.
Variable test_function : nat -> Q.
Variable lower_is_better : bool.
Variable n_time_intervals : Z.
Variable early_stopping_strategy : option benchmark_method.EarlyStoppingStrategy.
Variable timeout_hours : Q.
Variable elapsed_hours : nat -> Q.

Lemma consistent_early_stop (st : scheduler) :
  consistent st →
  ∃ st', early_stop test_function lower_is_better n_time_intervals
           early_stopping_strategy st = Some st'
    ∧ consistent st' ∧ same_books st st'.
Proof.
  intros Hst. unfold early_stop.
  destruct early_stopping_strategy as [ess|]; [|by exists st].
  destruct Hst as (Hnd & Hlt & Hlen & Hhist).
  set (sim := simulator (runner st)) in *.
  set (now := Z.of_nat (clock st)).
  destruct (stop_trials_running now
              (should_stop_trials_early test_function lower_is_better
                 n_time_intervals ess now (_running sim)) sim)
    as (sim' & Hstop & Hperm & Hcomp & Hearly & Hcap).
  - by apply NoDup_running.
  - unfold should_stop_trials_early. by apply NoDup_indices_filter, NoDup_running.
  - intros i. apply indices_filter_subset.
  - rewrite Hstop. cbn. eexists. split; [done|]. split; [|done].
    unfold consistent, n_finished. cbn.
    split; [by rewrite Hperm|]. split; [|split].
    + intros i Hi. apply Hlt. by rewrite <- Hperm.
    + rewrite <- length_indices, Hperm, length_indices. done.
    + unfold n_finished in Hhist. fold sim in Hhist.
      rewrite n_finished_indices in *. rewrite Hcomp. lia.
Qed.

Lemma consistent_tick (st : scheduler) : consistent st → consistent (tick st).
Proof. done. Qed.

Abbreviation loop :=
  (scheduling_loop num_trials test_function lower_is_better n_time_intervals
     early_stopping_strategy timeout_hours elapsed_hours).

(** If the wall clock exceeds the budget at iteration [k], the loop has
    answered by then: it never fails, it reports one value per finished
    trial, and it stops either with the target reached or timed out short of
    it, having logged the warning. *)
Lemma loop_answers (k : nat) :
  (timeout_hours < elapsed_hours k)%Q →
  ∀ (fuel : nat) (st : scheduler),
    consistent st → (n_created st ≤ num_trials)%nat →
    (clock st ≤ k)%nat → (k - clock st < fuel)%nat →
    ∃ status st',
      loop fuel st = Finished (status, st')
      ∧ length (history st') = n_finished st'
      ∧ (status = DONE → n_finished st' = num_trials ∧ log st' = log st)
      ∧ (status = TIMED_OUT →
           (n_finished st' < num_trials)%nat
           ∧ log st' = log st ++ [timeout_warning]).
Proof.
  intros Hk. induction fuel as [|fuel IH]; intros st Hst Hcreated Hclock Hfuel;
    [lia|].
  cbn [scheduling_loop]. cbv zeta.
  destruct (consistent_poll st Hst) as (Hst1 & (Hc1 & Hl1 & Hh1 & Hn1 & Hm1) & _).
  destruct (consistent_report (poll st) Hst1)
    as (Hst2 & Hr2 & Hc2 & Hl2 & Hn2 & Hh2).
  set (st2 := report (poll st)) in *. clearbody st2.
  assert (Hfin2 : n_finished st2 = n_finished (poll st))
    by (unfold n_finished; by rewrite Hr2).
  destruct (Nat.leb_spec num_trials (n_finished st2)) as [Hdone | Hmore].
  { exists DONE, st2. split; [done|]. split; [lia|].
    split; [|done]. intros _. split; [|congruence].
    destruct Hst2 as (_ & _ & Hlen & _).
    pose proof (finished_le_all (simulator (runner st2))).
    unfold n_finished in *. lia. }
  destruct (Qlt_bool timeout_hours (elapsed_hours (clock st2))) eqn:Hout.
  { exists TIMED_OUT, (warn timeout_warning st2). split; [done|].
    split; [change (length (history st2) = n_finished st2); lia|].
    split; [done|]. intros _.
    split; [exact Hmore | cbn; congruence]. }
  assert (Hlt : (clock st < k)%nat).
  { destruct (decide (clock st = k)) as [Heq|]; [|lia].
    apply Qlt_bool_true in Hk. rewrite Hc2, Hc1, Heq, Hk in Hout. done. }
  unfold generate.
  destruct (consistent_deploy
              (Nat.min (poll_available_capacity (runner st2)
                        + length (flagged_at_poll test_function lower_is_better
                                    n_time_intervals early_stopping_strategy
                                    st2))
                       (num_trials - n_created st2)) st2 Hst2)
    as (st3 & -> & Hst3 & Hc3 & Hl3 & Hh3 & Hn3 & Hf3).
  destruct (consistent_poll st3 Hst3) as (Hst4 & (Hc4 & Hl4 & Hh4 & Hn4 & Hm4) & _).
  destruct (consistent_early_stop (poll st3) Hst4)
    as (st5 & -> & Hst5 & (Hc5 & Hl5 & Hh5 & Hn5 & Hm5)).
  destruct (IH (tick st5)) as (status & st' & Hloop & Hlen & Hdone & Hout').
  - by apply consistent_tick.
  - cbn. lia.
  - cbn. lia.
  - cbn. lia.
  - exists status, st'. split; [done|]. split; [done|].
    cbn in Hdone, Hout'. split.
    + intros Hs. destruct (Hdone Hs). split; [done | congruence].
    + intros Hs. destruct (Hout' Hs). split; [done | congruence].
Qed.

End loop.

End scheduler_invariants.

(** ** Timeout of a replication *)

Section replication_timeout.
Import benchmark benchmark_result.
Variable test_function : nat -> Q.
Variable lower_is_better : bool.
Variable n_time_intervals : Z.
Variable elapsed_hours : nat -> Q.
Variable h : benchmark_method.store.
Variable oracle_value : list nat -> Q.
Variable inference_value : list nat -> Q.
Variable compute_score_trace : list Q -> list Q.
Variable fit_seconds gen_seconds : Q.

Lemma consistent_init (max_pending_trials : nat) (f : option (nat → Z)) :
  consistent (init max_pending_trials f).
Proof.
  unfold consistent, init, n_finished. cbn.
  split; [constructor|]. split; [by intros i ?%elem_of_nil | done].
Qed.


End replication_timeout.

Section timeout_checks.
Import benchmark async_fixtures.


Example two_second_budget_times_out :
  ∃ result,
    replicate_unachievable (fun trace => trace) 0 0 4
    = Finished (TIMED_OUT, result, [timeout_warning])
    ∧ length (benchmark_result.optimization_trace result) = 3%nat
    ∧ length (benchmark_result.score_trace result) = 3%nat.
Proof. eexists. vm_compute. done. Qed.

End timeout_checks.

(** ** Early stopping keeps to the schedule of the strategy *)

Section early_stopping_schedule.
Import backend_simulator benchmark_runner benchmark.
Variable num_trials : nat.
Variable test_function : nat -> Q.
Variable lower_is_better : bool.
Variable n_time_intervals : Z.
Variable ess : benchmark_method.EarlyStoppingStrategy.
Variable timeout_hours : Q.
Variable elapsed_hours : nat -> Q.
Hypothesis min_progression_nonneg : 0 ≤ benchmark_method.min_progression ess.
Hypothesis min_progression_reached :
  benchmark_method.min_progression ess < n_time_intervals.

Abbreviation beyond := (beyond_threshold test_function lower_is_better ess).
Abbreviation scheduled := (on_schedule test_function lower_is_better ess).
Abbreviation running_scheduled :=
  (running_on_schedule test_function lower_is_better ess).
Abbreviation queued_scheduled := (queued_on_schedule ess).
Abbreviation stopped := (stopped_at_min_progression test_function lower_is_better ess).
Abbreviation ran := (ran_to_completion test_function lower_is_better ess).
Abbreviation min_steps := (benchmark_method.min_progression ess).

Lemma Forall_insert_in_order (P : SimTrial → Prop) (t : SimTrial)
    (q : list SimTrial) :
  P t → Forall P q → Forall P (insert_in_order t q).
Proof.
  intros Ht Hq. induction Hq as [|u q Hu Hq IH]; cbn; [by repeat constructor|].
  destruct (promoted_before t u); repeat constructor; auto.
Qed.

Lemma Forall_promotion_order (P : SimTrial → Prop) (q : list SimTrial) :
  Forall P q → Forall P (promotion_order q).
Proof.
  induction 1 as [|t q Ht Hq IH]; cbn; [constructor|].
  by apply Forall_insert_in_order.
Qed.

Lemma Forall_promote (P Q : SimTrial → Prop) (now : Z) (capacity : nat)
    (queued running : list SimTrial) :
  (∀ t, Q t → P (start_at now t)) →
  Forall Q queued → Forall P running →
  Forall Q (promote now capacity queued running).1
  ∧ Forall P (promote now capacity queued running).2.
Proof.
  intros Hstart Hq. revert running.
  induction Hq as [|t queued Ht Hq IH]; intros running Hr; cbn [promote];
    [by split|].
  destruct (length running <? capacity)%nat.
  - apply IH. apply Forall_app. split; [done|]. repeat constructor. auto.
  - split; [by constructor | done].
Qed.

Lemma Forall_List_filter {A : Type} (P : A → Prop) (f : A → bool) (l : list A) :
  Forall P l → Forall (λ x, P x ∧ f x = true) (List.filter f l).
Proof.
  induction 1 as [|x l Hx Hl IH]; cbn; [constructor|].
  destruct (f x) eqn:Hf; [constructor|]; done.
Qed.

Lemma scheduled_update (sim : BackendSimulator) (now : Z) :
  time sim ≤ now →
  Forall (queued_scheduled (time sim)) (_queued sim) →
  Forall (running_scheduled now 1) (_running sim) →
  Forall ran (_completed sim) →
  time (update sim now) = now
  ∧ Forall (queued_scheduled now) (_queued (update sim now))
  ∧ Forall (running_scheduled now 1) (_running (update sim now))
  ∧ Forall ran (_completed (update sim now)).
Proof.
  intros Htime Hq Hr Hc. unfold update. cbv zeta.
  replace (Z.max (time sim) now) with now by lia. cbn.
  destruct (Forall_promote (running_scheduled now 1) (queued_scheduled now)
              now (max_pending_trials sim) (promotion_order (_queued sim))
              (_running sim)) as [Hq' Hr'].
  - intros t [Hqt Hrt]. split; [done|]. cbn.
    exists (Z.max now (sim_queued_time t)). split; [done|]. split; lia.
  - apply Forall_promotion_order. eapply Forall_impl; [exact Hq|].
    intros t [? ?]. split; [lia | done].
  - done.
  - split; [done|]. split; [done|]. split.
    + eapply Forall_impl; [exact (Forall_List_filter _ _ _ Hr')|].
      by intros t [? _].
    + apply Forall_app. split; [done|]. apply Forall_map.
      eapply Forall_impl; [exact (Forall_List_filter _ (is_due now) _ Hr')|].
      intros t [(Hrt & start & Hstart & Hle & Hb) Hdue].
      unfold is_due in Hdue. rewrite Hstart in Hdue. apply Z.leb_le in Hdue.
      split.
      * cbn. destruct (beyond (trial_index t)); [|done].
        specialize (Hb eq_refl). lia.
      * exists start. cbn. rewrite Hstart. done.
Qed.

Lemma scheduled_poll (st : scheduler) : scheduled 1 st → scheduled 1 (poll st).
Proof.
  intros (Htime & Hrf & Hq & Hr & He & Hc).
  destruct (scheduled_update _ _ Htime Hq Hr Hc) as (Ht' & Hq' & Hr' & Hc').
  unfold on_schedule. rewrite simulator_poll.
  change (clock (poll st)) with (clock st).
  change (trial_runtime_func (runner (poll st)))
    with (trial_runtime_func (runner st)).
  rewrite Ht'. split; [lia|]. split; [done|]. split; [done|]. split; [done|].
  split; [|done]. by destruct (update_finished (simulator (runner st))
                                 (Z.of_nat (clock st))) as [_ ->].
Qed.

Lemma scheduled_report (slack : Z) (st : scheduler) :
  scheduled slack st → scheduled slack (report st).
Proof. done. Qed.

Lemma scheduled_warn (slack : Z) (msg : string) (st : scheduler) :
  scheduled slack st → scheduled slack (warn msg st).
Proof. done. Qed.

Lemma scheduled_deploy_one (slack : Z) (st st' : scheduler) :
  scheduled slack st → deploy_one st = Some st' → scheduled slack st'.
Proof.
  intros (Htime & Hrf & Hq & Hr & He & Hc). unfold deploy_one, run, run_trial.
  destruct (get_sim_trial_by_index _ _); [done|]. cbn. intros [= <-].
  unfold on_schedule. cbn. split; [done|]. split; [done|].
  split; [|done]. apply Forall_app. split; [done|]. repeat constructor.
  - cbn. lia.
  - cbn. apply Hrf.
Qed.

Lemma scheduled_deploy (slack : Z) (n : nat) (st st' : scheduler) :
  scheduled slack st → deploy n st = Some st' → scheduled slack st'.
Proof.
  revert st. induction n as [|n IH]; intros st Hst; cbn.
  - by intros [= <-].
  - destruct (deploy_one st) as [st1|] eqn:H1; [|done]. cbn.
    apply IH. by eapply scheduled_deploy_one.
Qed.

(** The trials [stop_trials] moves are running trials with a flagged index,
    and the trials it leaves running have no flagged index. *)
Lemma stop_trials_moves (now : Z) (flagged : list nat)
    (sim sim' : BackendSimulator) :
  stop_trials sim flagged now = Some sim' →
  time sim' = time sim ∧ _queued sim' = _queued sim
  ∧ _completed sim' = _completed sim
  ∧ (∀ t, t ∈ _running sim' → t ∈ _running sim ∧ trial_index t ∉ flagged)
  ∧ ∃ moved,
      _early_stopped sim' = _early_stopped sim ++ map (complete_at (Some now)) moved
      ∧ ∀ t, t ∈ moved → t ∈ _running sim ∧ trial_index t ∈ flagged.
Proof.
  revert sim. induction flagged as [|i flagged IH]; intros sim; cbn.
  - intros [= <-]. split; [done|]. split; [done|]. split; [done|]. split.
    + intros t Ht. split; [done | apply not_elem_of_nil].
    + exists []. split; [by rewrite app_nil_r|]. by intros t ?%elem_of_nil.
  - unfold stop_running_trial at 1.
    destruct (find (has_index i) (_running sim)) as [u|] eqn:Hfind; [|done].
    cbn. intros Hstop.
    destruct (IH _ Hstop) as (Ht & Hq & Hc & Hrun & moved & He & Hmoved).
    cbn in Ht, Hq, Hc, Hrun, He, Hmoved.
    assert (Hsub : ∀ t, t ∈ List.filter (λ u, negb (has_index i u)) (_running sim)
                        → t ∈ _running sim ∧ trial_index t ≠ i).
    { intros t [Hin Hneq]%list_elem_of_In%filter_In. split; [by apply list_elem_of_In|].
      apply negb_true_iff, Nat.eqb_neq in Hneq. done. }
    split; [done|]. split; [done|]. split; [done|]. split.
    + intros t Hin. destruct (Hrun t Hin) as [Hin' Hnot].
      destruct (Hsub t Hin') as [? ?]. split; [done|].
      intros [?|?]%elem_of_cons; done.
    + exists (u :: moved). split; [by rewrite He, <- app_assoc|].
      intros t [->|Hin]%elem_of_cons.
      * apply find_some in Hfind as [Hin Hi]. split; [by apply list_elem_of_In|].
        apply Nat.eqb_eq in Hi. rewrite Hi. left.
      * destruct (Hmoved t Hin) as [Hin' ?]. destruct (Hsub t Hin') as [? ?].
        split; [done | by right].
Qed.

Lemma same_index_same_trial (l : list SimTrial) (t u : SimTrial) :
  NoDup (indices l) → t ∈ l → u ∈ l → trial_index t = trial_index u → t = u.
Proof.
  induction l as [|x l IH]; cbn; [by intros _ ?%elem_of_nil|].
  intros [Hx Hl]%NoDup_cons [->|Ht]%elem_of_cons [->|Hu]%elem_of_cons Heq;
    [done| | |by apply IH].
  - exfalso. apply Hx. rewrite Heq. by apply list_elem_of_fmap_2.
  - exfalso. apply Hx. rewrite <- Heq. by apply list_elem_of_fmap_2.
Qed.

Lemma should_stop_reached (now : Z) (t : SimTrial) :
  running_scheduled now 1 t →
  should_stop test_function lower_is_better n_time_intervals ess now t = true
  ↔ beyond (trial_index t) = true
    ∧ sim_start_time t = Some (now - min_steps).
Proof.
  intros (_ & start & Hstart & Hle & Hb). unfold should_stop, last_progression.
  rewrite Hstart, andb_true_iff, Z.leb_le.
  fold (beyond (trial_index t)). split.
  - intros [Hreach Hbeyond]. split; [done|]. specialize (Hb Hbeyond).
    f_equal. lia.
  - intros [Hbeyond [= ->]]. split; [lia | done].
Qed.

Lemma scheduled_early_stop (st st' : scheduler) :
  NoDup (indices (_running (simulator (runner st)))) →
  scheduled 1 st →
  early_stop test_function lower_is_better n_time_intervals (Some ess) st
  = Some st' →
  scheduled 0 st'.
Proof.
  intros Hnd (Htime & Hrf & Hq & Hr & He & Hc). unfold early_stop.
  set (sim := simulator (runner st)) in *.
  set (now := Z.of_nat (clock st)) in *.
  destruct (stop_trials _ _ _) as [sim'|] eqn:Hstop; [|done]. cbn.
  intros [= <-].
  destruct (stop_trials_moves _ _ _ _ Hstop)
    as (Ht' & Hq' & Hc' & Hrun & moved & He' & Hmoved).
  assert (Hflag : ∀ t, t ∈ _running sim →
            trial_index t
              ∈ should_stop_trials_early test_function lower_is_better
                  n_time_intervals ess now (_running sim)
            ↔ should_stop test_function lower_is_better n_time_intervals ess
                now t = true).
  { intros t Ht. unfold should_stop_trials_early, indices. split.
    - intros (u & Hi & [Hu Hs]%list_elem_of_In%filter_In)%list_elem_of_fmap.
      assert (t = u) as ->; [|done].
      apply (same_index_same_trial (_running sim)); auto.
      by apply list_elem_of_In.
    - intros Hs. apply list_elem_of_fmap. exists t. split; [done|].
      apply list_elem_of_In, filter_In. split; [by apply list_elem_of_In | done]. }
  rewrite Forall_forall in Hr.
  unfold on_schedule. cbn. rewrite Ht', Hq', Hc', He'.
  split; [done|]. split; [done|]. split; [done|]. split; [|split; [|done]].
  - apply Forall_forall. intros t Ht.
    destruct (Hrun t Ht) as [Hin Hnot].
    destruct (Hr t Hin) as (Hrt & start & Hstart & Hle & Hb).
    split; [done|]. exists start. split; [done|]. split; [done|].
    intros Hbeyond. specialize (Hb Hbeyond).
    destruct (decide (now - start = min_steps)) as [Heq|]; [|lia].
    exfalso. apply Hnot. apply (Hflag t Hin).
    apply should_stop_reached; [by apply Hr|]. split; [done|].
    rewrite Hstart. f_equal. lia.
  - apply Forall_app. split; [done|]. apply Forall_map, Forall_forall.
    intros t Ht. destruct (Hmoved t Ht) as [Hin Hfl].
    apply (Hflag t Hin), should_stop_reached in Hfl as [Hbeyond Hstart];
      [|by apply Hr].
    split; [done|]. exists (now - min_steps). cbn. split; [done|].
    f_equal. lia.
Qed.

Lemma scheduled_tick (st : scheduler) : scheduled 0 st → scheduled 1 (tick st).
Proof.
  intros (Htime & Hrf & Hq & Hr & He & Hc). unfold on_schedule. cbn.
  split; [lia|]. split; [done|]. split; [done|]. split; [|done].
  eapply Forall_impl; [exact Hr|].
  intros t (Hrt & start & Hstart & Hle & Hb). split; [done|].
  exists start. split; [done|]. split; [lia|]. intros Hbeyond.
  specialize (Hb Hbeyond). lia.
Qed.

Abbreviation stopping_loop :=
  (scheduling_loop num_trials test_function lower_is_better n_time_intervals
     (Some ess) timeout_hours elapsed_hours).

(** Whenever the loop answers, its state is on schedule; and when it is
    done, as many trials have finished as were asked for, which are all
    that were created. *)
Lemma loop_on_schedule (fuel : nat) (st st' : scheduler) (status : loop_status) :
  consistent st → (n_created st ≤ num_trials)%nat → scheduled 1 st →
  stopping_loop fuel st = Finished (status, st') →
  scheduled 1 st' ∧ consistent st' ∧ (n_created st' ≤ num_trials)%nat
  ∧ (status = DONE → (num_trials ≤ n_finished st')%nat).
Proof.
  revert st. induction fuel as [|fuel IH]; intros st Hst Hcreated Hsch; [done|].
  cbn [scheduling_loop]. cbv zeta.
  destruct (consistent_poll st Hst) as (Hst1 & (Hc1 & Hl1 & Hh1 & Hn1 & Hm1) & _).
  destruct (consistent_report (poll st) Hst1)
    as (Hst2 & Hr2 & Hc2 & Hl2 & Hn2 & Hh2).
  pose proof (scheduled_report _ _ (scheduled_poll _ Hsch)) as Hsch2.
  set (st2 := report (poll st)) in *. clearbody st2.
  destruct (Nat.leb_spec num_trials (n_finished st2)) as [Hdone | Hmore].
  { intros [= <- <-]. split; [done|]. split; [done|]. split; [lia | done]. }
  destruct (Qlt_bool timeout_hours (elapsed_hours (clock st2))).
  { intros [= <- <-]. split; [by apply scheduled_warn|]. split; [done|].
    split; [cbn; lia | done]. }
  unfold generate.
  destruct (consistent_deploy
              (Nat.min (poll_available_capacity (runner st2)
                        + length (flagged_at_poll test_function lower_is_better
                                    n_time_intervals (Some ess) st2))
                       (num_trials - n_created st2)) st2 Hst2)
    as (st3 & Hdeploy & Hst3 & Hc3 & Hl3 & Hh3 & Hn3 & Hf3).
  rewrite Hdeploy.
  pose proof (scheduled_deploy _ _ _ _ Hsch2 Hdeploy) as Hsch3.
  destruct (consistent_poll st3 Hst3) as (Hst4 & (Hc4 & Hl4 & Hh4 & Hn4 & Hm4) & _).
  pose proof (scheduled_poll _ Hsch3) as Hsch4.
  destruct (consistent_early_stop test_function lower_is_better
              n_time_intervals (Some ess) (poll st3) Hst4)
    as (st5 & Hstop & Hst5 & (Hc5 & Hl5 & Hh5 & Hn5 & Hm5)).
  rewrite Hstop.
  assert (Hsch5 : scheduled 0 st5).
  { eapply scheduled_early_stop; [|exact Hsch4|exact Hstop].
    apply NoDup_running. by destruct Hst4. }
  apply IH.
  - by apply consistent_tick.
  - cbn. lia.
  - by apply scheduled_tick.
Qed.

Lemma scheduled_init (max_pending : nat) (runtime : nat → Z) :
  (∀ i, min_steps < runtime i) → scheduled 1 (init max_pending (Some runtime)).
Proof.
  intros Hrun. unfold on_schedule. cbn.
  split; [done|]. split; [done|]. repeat split; constructor.
Qed.

Lemma all_created_finished (st : scheduler) :
  consistent st → (n_created st ≤ num_trials)%nat →
  (num_trials ≤ n_finished st)%nat →
  ∀ i, (i < num_trials)%nat →
       i ∈ indices (finished_trials (simulator (runner st))).
Proof.
  intros (Hnd & Hlt & _ & _) Hcreated Hdone i Hi.
  set (sim := simulator (runner st)) in *.
  assert (Hsub : ∀ j, j ∈ indices (finished_trials sim)
                      → j ∈ indices (all_trials sim)).
  { intros j. unfold finished_trials, all_trials. rewrite !indices_app.
    rewrite !elem_of_app. tauto. }
  assert (Hnd' : NoDup (indices (finished_trials sim))).
  { unfold all_trials in Hnd. rewrite !indices_app in Hnd.
    apply NoDup_app in Hnd as (_ & _ & Hnd). apply NoDup_app in Hnd as (_ & _ & Hnd).
    unfold finished_trials. by rewrite indices_app. }
  assert (Hperm : indices (finished_trials sim) ≡ₚ seq 0 num_trials).
  { apply submseteq_length_Permutation.
    - apply NoDup_submseteq; [done|]. intros j Hj. apply elem_of_seq.
      specialize (Hlt j (Hsub j Hj)). lia.
    - rewrite length_seq, length_indices. exact Hdone. }
  rewrite Hperm. apply elem_of_seq. lia.
Qed.

(** Under a threshold strategy whose [min_progression] is within the
    progression and below every runtime, whenever the loop answers: the
    trials stopped early are those beyond the threshold, each stopped when
    its progression reached [min_progression]; the trials completed are not
    beyond the threshold; no running trial beyond it is past
    [min_progression]; and when the loop is done, every trial asked for has
    completed or been stopped. *)
Lemma loop_stops_on_schedule (max_pending : nat) (runtime : nat → Z)
    (fuel : nat) (status : loop_status) (st : scheduler) :
  (∀ i, min_steps < runtime i) →
  stopping_loop fuel (init max_pending (Some runtime)) = Finished (status, st) →
  Forall stopped (_early_stopped (simulator (runner st)))
  ∧ Forall ran (_completed (simulator (runner st)))
  ∧ Forall (running_scheduled (Z.of_nat (clock st)) 1)
      (_running (simulator (runner st)))
  ∧ (status = DONE →
     ∀ i, (i < num_trials)%nat →
          i ∈ indices (finished_trials (simulator (runner st)))).
Proof.
  intros Hrun Hloop.
  destruct (loop_on_schedule fuel _ _ _ (consistent_init _ _) (Nat.le_0_l _)
              (scheduled_init max_pending runtime Hrun) Hloop)
    as ((_ & _ & _ & Hr & He & Hc) & Hst & Hcreated & Hdone).
  split; [done|]. split; [done|]. split; [done|].
  intros Hs. by apply all_created_finished; [| |apply Hdone].
Qed.

Lemma observed_until_stopped (now : Z) (t : SimTrial) :
  stopped t →
  observed_progressions n_time_intervals now t
  = map Z.of_nat (seq 0 (Z.to_nat (min_steps + 1))).
Proof.
  intros (_ & start & Hstart & Hend). unfold observed_progressions.
  rewrite Hstart, Hend. cbn [default from_option]. unfold last_progression, id.
  replace (Z.min (start + min_steps - start) (n_time_intervals - 1))
    with min_steps by lia.
  done.
Qed.

End early_stopping_schedule.

(** ** The asynchronous scenarios of the tests *)

Section async_scenarios.
Import backend_simulator benchmark async_fixtures.
(** Nothing below depends on the store of strategies a method without early
    stopping is run with, on how scores are computed, or on the fit and
    generation times. *)
Variable h : benchmark_method.store.
Variable compute_score_trace : list Q -> list Q.
Variable fit_seconds gen_seconds : Q.

Abbreviation replicate :=
  (replicate_async h compute_score_trace fit_seconds gen_seconds).

(** C1. With at most two pending trials, four trials whose runtime is three
    times their index start at times 0, 0, 1 and 3, and four trials of
    runtime 0 start at times 0, 0, 1 and 1. In both runs every trial is
    queued when it starts and completes at its start time plus its runtime:
    the records are those [_test_replication_async] compares with. *)
Theorem async_start_times :
  sim_start_times (replicate (fun trial_index => Z.of_nat trial_index * 3))
  = Some [Some 0; Some 0; Some 1; Some 3]
  ∧ sim_trials (replicate (fun trial_index => Z.of_nat trial_index * 3))
    = Some [ Some (sim_trial 0 0 0 0 0); Some (sim_trial 1 3 0 0 3);
             Some (sim_trial 2 6 1 1 7); Some (sim_trial 3 9 3 3 12) ]
  ∧ sim_start_times (replicate (fun _ => 0))
    = Some [Some 0; Some 0; Some 1; Some 1]
  ∧ sim_trials (replicate (fun _ => 0))
    = Some [ Some (sim_trial 0 0 0 0 0); Some (sim_trial 1 0 0 0 0);
             Some (sim_trial 2 0 1 1 1); Some (sim_trial 3 0 1 1 1) ].
Proof. repeat split; vm_compute; reflexivity. Qed.

(** The two other cases of the test: "Trials complete at same time" and
    "Complete out of order". *)
Example other_start_times :
  sim_trials (replicate (fun _ => 1))
  = Some [ Some (sim_trial 0 1 0 0 1); Some (sim_trial 1 1 0 0 1);
           Some (sim_trial 2 1 1 1 2); Some (sim_trial 3 1 1 1 2) ]
  ∧ sim_trials (replicate complete_out_of_order_runtimes)
    = Some [ Some (sim_trial 0 2 0 0 2); Some (sim_trial 1 1 0 0 1);
             Some (sim_trial 2 3 1 1 4); Some (sim_trial 3 1 2 2 3) ].
Proof. split; vm_compute; reflexivity. Qed.

(** [expected_pending_in_each_gen] of the test. *)
Example pending_in_each_generation :
  (pending_in_each_gen <$>
     the_experiment (replicate (fun trial_index => Z.of_nat trial_index * 3)))
  = Some [[]; [0]; [1]; [2]]%nat
  ∧ (pending_in_each_gen <$> the_experiment (replicate (fun _ => 0)))
    = Some [[]; [0]; []; [2]]%nat
  ∧ (pending_in_each_gen <$> the_experiment (replicate (fun _ => 1)))
    = Some [[]; [0]; []; [2]]%nat
  ∧ (pending_in_each_gen <$>
       the_experiment (replicate complete_out_of_order_runtimes))
    = Some [[]; [0]; [0]; [2]]%nat.
Proof. repeat split; vm_compute; reflexivity. Qed.

(** [expected_inference_traces] of the test. *)
Example inference_traces :
  the_inference_trace (replicate (fun trial_index => Z.of_nat trial_index * 3))
  = Some [0; 1; 2; 3]%Q
  ∧ the_inference_trace (replicate (fun _ => 0)) = Some [1; 1; 3; 3]%Q
  ∧ the_inference_trace (replicate (fun _ => 1)) = Some [1; 1; 3; 3]%Q
  ∧ the_inference_trace (replicate complete_out_of_order_runtimes)
    = Some [1; 1; 3; 3]%Q.
Proof. repeat split; vm_compute; reflexivity. Qed.

Example all_four_completed :
  the_status (replicate (fun trial_index => Z.of_nat trial_index * 3))
  = Some {| queued := ∅; running := ∅;
            completed := {[ 0%nat; 1%nat; 2%nat; 3%nat ]};
            early_stopped := ∅ |}.
Proof. vm_compute. reflexivity. Qed.

(** *** Early stopping *)

Abbreviation threshold := (method_examples.threshold_strategy 0).

Lemma should_stop_threshold (now start : Z) (t : SimTrial) :
  sim_start_time t = Some start →
  should_stop identity true progression_length_if_not_stopped threshold now t
    = true
  ↔ (1 ≤ trial_index t)%nat
    ∧ 2 ≤ last_progression progression_length_if_not_stopped now start.
Proof.
  intros Hstart. unfold should_stop. rewrite Hstart.
  cbn [method_examples.threshold_strategy
       benchmark_method.min_progression benchmark_method.metric_threshold].
  rewrite andb_true_iff, Z.leb_le.
  assert (Hv : Qlt_bool (1 # 2) (identity (trial_index t)) = true
               ↔ (1 ≤ trial_index t)%nat).
  { rewrite Qlt_bool_true. unfold Qlt, identity. cbn. lia. }
  rewrite Hv. tauto.
Qed.

Lemma beyond_half (i : nat) :
  beyond_threshold identity true threshold i = true ↔ (1 ≤ i)%nat.
Proof.
  unfold beyond_threshold.
  cbn [method_examples.threshold_strategy benchmark_method.metric_threshold].
  rewrite Qlt_bool_true. unfold Qlt, identity. cbn. lia.
Qed.

(** C2. With threshold 0.5 and [min_progression = 2] on trials whose value is
    their index at every step, the strategy flags a started trial exactly
    when its index is at least 1 and its progression has reached 2. So, for
    every number of trials, concurrency, progression of more than two steps
    and runtimes of more than two time units, whenever the loop answers:
    every trial stopped early has an index of at least 1 and was stopped two
    time units after its start, with the three steps 0, 1, 2 observed; every
    completed trial has index 0 and ran for its whole runtime, so that trial
    0 is never stopped; no running trial of index at least 1 is past
    progression 2; and when the loop is done, every trial of index at least
    1 has been stopped early. The loop does answer, with one of these
    states, whenever the wall clock passes the budget at an iteration for
    which there is fuel. In the replication of the test, trial 0
    completes with its full progression of five steps, and trials 1, 2 and 3
    are stopped with the steps 0, 1, 2, at the times the test and its
    docstring give. *)
Theorem early_stopping_at_min_progression :
  (∀ (now start : Z) (t : SimTrial),
     sim_start_time t = Some start →
     should_stop identity true progression_length_if_not_stopped threshold now t
       = true
     ↔ (1 ≤ trial_index t)%nat
       ∧ 2 ≤ last_progression progression_length_if_not_stopped now start)
  ∧ (∀ (num_trials max_pending_trials : nat) (trial_runtime_func : nat → Z)
       (n_time_intervals : Z) (timeout_hours : Q) (elapsed_hours : nat → Q)
       (fuel : nat) (status : loop_status) (st : scheduler),
       2 < n_time_intervals → (∀ i, 2 < trial_runtime_func i) →
       scheduling_loop num_trials identity true n_time_intervals
         (Some threshold) timeout_hours elapsed_hours fuel
         (init max_pending_trials (Some trial_runtime_func))
       = Finished (status, st) →
       (∀ t, t ∈ _early_stopped (benchmark_runner.simulator (runner st)) →
          (1 ≤ trial_index t)%nat
          ∧ (∃ start, sim_start_time t = Some start
                      ∧ sim_completed_time t = Some (start + 2))
          ∧ observed_progressions n_time_intervals
              (time (benchmark_runner.simulator (runner st))) t
            = [0; 1; 2])
       ∧ (∀ t, t ∈ _completed (benchmark_runner.simulator (runner st)) →
            trial_index t = 0%nat
            ∧ ∃ start, sim_start_time t = Some start
                       ∧ sim_completed_time t = Some (start + sim_runtime t))
       ∧ (∀ t, t ∈ _running (benchmark_runner.simulator (runner st)) →
            (1 ≤ trial_index t)%nat →
            ∃ start, sim_start_time t = Some start
                     ∧ Z.of_nat (clock st) - start ≤ 2)
       ∧ (status = DONE →
          ∀ i, (1 ≤ i < num_trials)%nat →
               i ∈ indices (_early_stopped
                              (benchmark_runner.simulator (runner st)))))
  ∧ (∀ (num_trials max_pending_trials : nat) (trial_runtime_func : nat → Z)
       (n_time_intervals : Z) (timeout_hours : Q) (elapsed_hours : nat → Q)
       (k fuel : nat),
       (timeout_hours < elapsed_hours k)%Q → (k < fuel)%nat →
       ∃ status st,
         scheduling_loop num_trials identity true n_time_intervals
           (Some threshold) timeout_hours elapsed_hours fuel
           (init max_pending_trials (Some trial_runtime_func))
         = Finished (status, st))
  ∧ the_status
      (replicate_early_stopping compute_score_trace fit_seconds gen_seconds)
    = Some {| queued := ∅; running := ∅; completed := {[ 0%nat ]};
              early_stopped := {[ 1%nat; 2%nat; 3%nat ]} |}
  ∧ sim_trials
      (replicate_early_stopping compute_score_trace fit_seconds gen_seconds)
    = Some [ Some (sim_trial 0 5 0 0 5); Some (sim_trial 1 5 0 0 2);
             Some (sim_trial 2 5 2 3 5); Some (sim_trial 3 5 5 5 7) ]
  ∧ progressions
      (replicate_early_stopping compute_score_trace fit_seconds gen_seconds)
    = Some [ Some [0; 1; 2; 3; 4]; Some [0; 1; 2]; Some [0; 1; 2];
             Some [0; 1; 2] ].
Proof.
  split; [exact should_stop_threshold|].
  split; [|split; [|repeat split; vm_compute; reflexivity]].
  {
    intros num_trials max_pending_trials trial_runtime_func n_time_intervals
      timeout_hours elapsed_hours fuel status st Hn Hrun Hloop.
    destruct (loop_stops_on_schedule num_trials identity true n_time_intervals
                threshold timeout_hours elapsed_hours ltac:(done) Hn
                max_pending_trials trial_runtime_func fuel status st Hrun Hloop)
      as (He & Hc & Hr & Hdone).
    rewrite Forall_forall in He, Hc, Hr.
    split; [|split; [|split]].
    - intros t Ht. pose proof (He t Ht) as Hstopped.
      destruct Hstopped as (Hb & start & Hstart & Hend).
      split; [by apply beyond_half|]. split; [by exists start|].
      rewrite (observed_until_stopped identity true n_time_intervals threshold)
        by (done || exact Hn || exact (He t Ht)).
      done.
    - intros t Ht. destruct (Hc t Ht) as (Hb & start & Hstart & Hend).
      split; [|by exists start].
      destruct (trial_index t) as [|i] eqn:Hi; [done|].
      assert (beyond_threshold identity true threshold (S i) = true)
        by (apply beyond_half; lia).
      congruence.
    - intros t Ht Hi. destruct (Hr t Ht) as (_ & start & Hstart & _ & Hb).
      exists start. split; [done|].
      apply beyond_half in Hi. specialize (Hb Hi). cbn in Hb. lia.
    - intros Hs i [Hi Hlt]. specialize (Hdone Hs i Hlt).
      unfold finished_trials in Hdone. rewrite indices_app in Hdone.
      apply elem_of_app in Hdone as [Hin | Hin]; [|done].
      apply list_elem_of_fmap in Hin as (t & -> & Ht).
      destruct (Hc t Ht) as (Hb & _).
      apply beyond_half in Hi. congruence.
  }
  intros num_trials max_pending_trials trial_runtime_func n_time_intervals
    timeout_hours elapsed_hours k fuel Hk Hfuel.
  destruct (loop_answers num_trials identity true n_time_intervals
              (Some threshold) timeout_hours elapsed_hours k Hk fuel
              (init max_pending_trials (Some trial_runtime_func)))
    as (status & st & Hloop & _).
  - apply consistent_init.
  - cbn. lia.
  - cbn. lia.
  - cbn. lia.
  - by exists status, st.
Qed.

End async_scenarios.

(** ** The casts of [typeutils] *)

Section typeutils_properties.
Import python typeutils.
Context {V T : Type} `{EqDecision V}.
Variable isinstance : V -> T -> bool.
Variable str_of_type : T -> string.
Variable str_of : V -> string.
Variable repr_of : V -> string.
Variable type_of : V -> V.
Variable type_class : T.

Abbreviation cast := (checked_cast isinstance str_of_type str_of).
Abbreviation cast_list := (checked_cast_list isinstance str_of_type str_of).
Abbreviation cast_list_loop :=
  (checked_cast_list_loop isinstance str_of_type str_of).
Abbreviation cast_dict := (checked_cast_dict isinstance str_of_type str_of).
Abbreviation cast_dict_loop :=
  (checked_cast_dict_loop isinstance str_of_type str_of).

Abbreviation typed := (well_typed isinstance).

Abbreviation cast_error typ val :=
  (Builtin (ValueError ("Value was not of type " +:+ str_of_type typ
                        +:+ ":" +:+ newline +:+ str_of val))).

Lemma checked_cast_ok (typ : T) (val : V) :
  isinstance val typ = true → cast typ val None = Value val.
Proof. intros Hi. unfold checked_cast. by rewrite Hi. Qed.

Lemma checked_cast_fails (typ : T) (val : V) :
  isinstance val typ = false →
  cast typ val None = Throw (cast_error typ val).
Proof. intros Hi. unfold checked_cast. by rewrite Hi. Qed.

Lemma cast_list_loop_ok (typ : T) (old_l new_l : list V) :
  Forall (λ v, isinstance v typ = true) old_l →
  cast_list_loop typ old_l new_l = Value (new_l ++ old_l).
Proof.
  intros Hall. revert new_l.
  induction Hall as [|v l Hv _ IH]; intros new_l; cbn.
  - by rewrite app_nil_r.
  - rewrite (checked_cast_ok _ _ Hv). cbn. rewrite IH. by rewrite <- app_assoc.
Qed.

Lemma cast_list_loop_first_bad (typ : T) (l1 l2 new_l : list V) (v : V) :
  Forall (λ v, isinstance v typ = true) l1 → isinstance v typ = false →
  cast_list_loop typ (l1 ++ v :: l2) new_l = Throw (cast_error typ v).
Proof.
  intros Hall Hv. revert new_l.
  induction Hall as [|u l Hu _ IH]; intros new_l; cbn.
  - rewrite (checked_cast_fails _ _ Hv). done.
  - rewrite (checked_cast_ok _ _ Hu). cbn. apply IH.
Qed.

Lemma first_bad (typ : T) (l : list V) :
  Forall (λ v, isinstance v typ = true) l
  ∨ ∃ l1 v l2, l = l1 ++ v :: l2
      ∧ Forall (λ v, isinstance v typ = true) l1 ∧ isinstance v typ = false.
Proof.
  induction l as [|u l IH]; [by left|].
  destruct (isinstance u typ) eqn:Hu.
  - destruct IH as [IH | (l1 & v & l2 & -> & Hl1 & Hv)].
    + left. by constructor.
    + right. exists (u :: l1), v, l2. split; [done|]. split; [by constructor|done].
  - right. exists [], u, l. done.
Qed.

(** X1. [checked_cast_list] returns its list unchanged exactly when every item
    is an instance of the type, and whatever list it returns is the list it
    was given: no item is converted, dropped or reordered. Otherwise it
    raises the [ValueError] of [checked_cast] for the first item that is not
    an instance, whatever follows that item. *)
Theorem checked_cast_list_all_or_first (typ : T) (old_l : list V) :
  (Forall (λ v, isinstance v typ = true) old_l ↔
     cast_list typ old_l = Value old_l)
  ∧ (∀ new_l, cast_list typ old_l = Value new_l → new_l = old_l)
  ∧ (∀ l1 v l2,
       old_l = l1 ++ v :: l2 →
       Forall (λ v, isinstance v typ = true) l1 →
       isinstance v typ = false →
       cast_list typ old_l = Throw (cast_error typ v)).
Proof.
  unfold checked_cast_list.
  assert (Hbad : ∀ l1 v l2, old_l = l1 ++ v :: l2 →
            Forall (λ v, isinstance v typ = true) l1 →
            isinstance v typ = false →
            cast_list_loop typ old_l [] = Throw (cast_error typ v)).
  { intros l1 v l2 -> Hl1 Hv.
    by apply cast_list_loop_first_bad. }
  split; [|split; [|exact Hbad]].
  - split.
    + intros Hall. exact (cast_list_loop_ok typ old_l [] Hall).
    + intros Hret.
      destruct (first_bad typ old_l) as [Hall | (l1 & v & l2 & Heq & Hl1 & Hv)];
        [done|].
      rewrite (Hbad _ _ _ Heq Hl1 Hv) in Hret. discriminate.
  - intros new_l Hret.
    destruct (first_bad typ old_l) as [Hall | (l1 & v & l2 & Heq & Hl1 & Hv)].
    + rewrite (cast_list_loop_ok typ old_l [] Hall) in Hret. by injection Hret.
    + rewrite (Hbad _ _ _ Heq Hl1 Hv) in Hret. discriminate.
Qed.

(** X3. [checked_cast_to_tuple] returns the value itself, exactly when it is
    an instance of one of the classes of the tuple. Its message formats the
    built-in [type] and not the classes asked for: two calls that fail on
    the same value raise the same exception, whatever the two tuples were,
    whereas the message of [checked_cast] carries [str(typ)]. *)
Theorem checked_cast_to_tuple_message_ignores_the_types
    (typ : list T) (val : V) :
  (∀ v, checked_cast_to_tuple isinstance repr_of typ val = Value v
        ↔ v = val ∧ ∃ t, t ∈ typ ∧ isinstance val t = true)
  ∧ (∀ typ', Forall (λ t, isinstance val t = false) typ →
             Forall (λ t, isinstance val t = false) typ' →
             ∃ e, checked_cast_to_tuple isinstance repr_of typ val = Throw e
                  ∧ checked_cast_to_tuple isinstance repr_of typ' val = Throw e)
  ∧ (∀ t, isinstance val t = false →
          cast t val None
          = Throw (Builtin (ValueError ("Value was not of type "
                                        +:+ str_of_type t +:+ ":" +:+ newline
                                        +:+ str_of val)))).
Proof.
  assert (Hnone : ∀ l, Forall (λ t, isinstance val t = false) l →
                       existsb (isinstance val) l = false).
  { intros l Hl. induction Hl as [|t l Ht _ IH]; cbn; [done|].
    by rewrite Ht, IH. }
  split; [|split].
  - intros v. unfold checked_cast_to_tuple.
    destruct (existsb (isinstance val) typ) eqn:He; cbn.
    + apply existsb_exists in He as (t & Ht%list_elem_of_In & Hi). split.
      * intros [= <-]. eauto.
      * by intros [-> _].
    + split; [done|]. intros (_ & t & Ht%list_elem_of_In & Hi).
      assert (existsb (isinstance val) typ = true)
        by (apply existsb_exists; eauto).
      congruence.
  - intros typ' Htyp Htyp'. unfold checked_cast_to_tuple.
    rewrite (Hnone _ Htyp), (Hnone _ Htyp'). cbn. eauto.
  - intros t Ht. by apply checked_cast_fails.
Qed.

(** X4. Where the class of every object is an instance of [type], as it is
    in Python, [_argparse_type_encoder] always returns a class, is
    idempotent, and leaves a class as it is. *)
Theorem argparse_type_encoder_is_idempotent (arg : V) :
  (∀ v, isinstance (type_of v) type_class = true) →
  isinstance (_argparse_type_encoder isinstance type_of type_class arg)
    type_class = true
  ∧ _argparse_type_encoder isinstance type_of type_class
      (_argparse_type_encoder isinstance type_of type_class arg)
    = _argparse_type_encoder isinstance type_of type_class arg
  ∧ (isinstance arg type_class = true →
     _argparse_type_encoder isinstance type_of type_class arg = arg).
Proof.
  intros Htype. unfold _argparse_type_encoder.
  destruct (isinstance arg type_class) eqn:Harg.
  - by rewrite Harg.
  - by rewrite Htype.
Qed.

(** *** Dictionaries *)

Lemma setitem_new (d : list (V * V)) (key val : V) :
  key ∉ d.*1 → setitem d key val = d ++ [(key, val)].
Proof.
  induction d as [|[k v] d IH]; cbn; [done|]. intros Hk.
  rewrite decide_False; [|intros ->; apply Hk; left].
  rewrite IH; [done|]. intros Hin. apply Hk. by right.
Qed.


Lemma cast_dict_loop_ok (key_typ value_typ : T) (items new_dict : list (V * V)) :
  NoDup ((new_dict ++ items).*1) →
  Forall (typed key_typ value_typ) items →
  cast_dict_loop key_typ value_typ items new_dict = Value (new_dict ++ items).
Proof.
  intros Hnd Hall. revert new_dict Hnd.
  induction Hall as [|[k v] items [Hv Hk] _ IH]; intros new_dict Hnd; cbn.
  - by rewrite app_nil_r.
  - cbn in Hv, Hk. rewrite (checked_cast_ok _ _ Hv). cbn.
    rewrite (checked_cast_ok _ _ Hk). cbn.
    rewrite fmap_app in Hnd. cbn in Hnd.
    assert (Hfresh : k ∉ new_dict.*1).
    { apply NoDup_app in Hnd as (_ & Hdisj & _). intros Hin.
      apply (Hdisj _ Hin). left. }
    rewrite (setitem_new _ _ _ Hfresh), IH.
    + by rewrite <- app_assoc.
    + by rewrite <- app_assoc, fmap_app.
Qed.

Lemma cast_dict_loop_returns (key_typ value_typ : T)
    (items new_dict d' : list (V * V)) :
  cast_dict_loop key_typ value_typ items new_dict = Value d' →
  Forall (typed key_typ value_typ) items.
Proof.
  revert new_dict. induction items as [|[k v] items IH]; intros new_dict; cbn;
    [by constructor|].
  unfold checked_cast at 1.
  destruct (isinstance v value_typ) eqn:Hv; cbn; [|done].
  unfold checked_cast at 1.
  destruct (isinstance k key_typ) eqn:Hk; cbn; [|done].
  intros Hloop. constructor; [done|]. by eapply IH.
Qed.

(** X2. For a dict, whose keys are distinct, [checked_cast_dict] returns the
    same items in the same order exactly when every value and every key is
    an instance of its type, and it returns nothing else. At the first item
    that fails, the value is checked before the key: a value of the wrong
    type raises the error for the value, and the error for the key is raised
    only when the value passes. *)
Theorem checked_cast_dict_round_trip (key_typ value_typ : T) (d : list (V * V)) :
  NoDup d.*1 →
  (Forall (typed key_typ value_typ) d ↔
     cast_dict key_typ value_typ d = Value d)
  ∧ (∀ d', cast_dict key_typ value_typ d = Value d' → d' = d)
  ∧ (∀ d1 key val d2,
       d = d1 ++ (key, val) :: d2 →
       Forall (typed key_typ value_typ) d1 →
       isinstance val value_typ = false →
       cast_dict key_typ value_typ d = Throw (cast_error value_typ val))
  ∧ (∀ d1 key val d2,
       d = d1 ++ (key, val) :: d2 →
       Forall (typed key_typ value_typ) d1 →
       isinstance val value_typ = true → isinstance key key_typ = false →
       cast_dict key_typ value_typ d = Throw (cast_error key_typ key)).
Proof.
  intros Hnd. unfold checked_cast_dict.
  assert (Hok : Forall (typed key_typ value_typ) d →
                cast_dict_loop key_typ value_typ d [] = Value d).
  { intros Hall. by rewrite cast_dict_loop_ok. }
  assert (Hstep : ∀ d1 key val d2 new_dict,
            NoDup ((new_dict ++ d1).*1) →
            Forall (typed key_typ value_typ) d1 →
            cast_dict_loop key_typ value_typ (d1 ++ (key, val) :: d2) new_dict
            = and_then (cast value_typ val None) (λ val,
              and_then (cast key_typ key None) (λ key,
              cast_dict_loop key_typ value_typ d2
                (setitem (new_dict ++ d1) key val)))).
  { intros d1 key val d2 new_dict Hnd1 Hall. revert new_dict Hnd1.
    induction Hall as [|[k v] d1 [Hv Hk] _ IH]; intros new_dict Hnd1; cbn.
    - by rewrite app_nil_r.
    - cbn in Hv, Hk. rewrite (checked_cast_ok _ _ Hv). cbn.
      rewrite (checked_cast_ok _ _ Hk). cbn.
      rewrite fmap_app in Hnd1. cbn in Hnd1.
      assert (Hfresh : k ∉ new_dict.*1).
      { apply NoDup_app in Hnd1 as (_ & Hdisj & _). intros Hin.
        apply (Hdisj _ Hin). left. }
      rewrite (setitem_new _ _ _ Hfresh), IH.
      + by rewrite <- app_assoc.
      + by rewrite <- app_assoc, fmap_app. }
  split; [split; [done|]|split; [|split]].
  - intros Hret. by eapply cast_dict_loop_returns.
  - intros d' Hret. pose proof (cast_dict_loop_returns _ _ _ _ _ Hret) as Hall.
    rewrite (Hok Hall) in Hret. by injection Hret.
  - intros d1 key val d2 -> Hall Hval. rewrite Hstep; [|cbn|done].
    + by rewrite (checked_cast_fails _ _ Hval).
    + rewrite fmap_app in Hnd. by apply NoDup_app in Hnd as (? & _ & _).
  - intros d1 key val d2 -> Hall Hval Hkey. rewrite Hstep; [|cbn|done].
    + rewrite (checked_cast_ok _ _ Hval). cbn.
      by rewrite (checked_cast_fails _ _ Hkey).
    + rewrite fmap_app in Hnd. by apply NoDup_app in Hnd as (? & _ & _).
Qed.

End typeutils_properties.

(** ** The builders of optimization configurations *)

Section python_lists.
Import python.

Lemma getitem_lookup {A : Type} (l : list A) (i : nat) (a : A) :
  l !! i = Some a → getitem l (Z.of_nat i) = Value a.
Proof.
  intros Hi. pose proof (lookup_lt_Some _ _ _ Hi) as Hlt. unfold getitem.
  destruct (Z.ltb_spec (Z.of_nat i) 0); [lia|].
  destruct (Z.leb_spec 0 (Z.of_nat i)); [|lia].
  destruct (Z.ltb_spec (Z.of_nat i) (Z.of_nat (length l))); [|lia]. cbn.
  by rewrite Nat2Z.id, Hi.
Qed.

Lemma getitem_beyond {A : Type} (l : list A) (i : nat) :
  (length l ≤ i)%nat →
  getitem l (Z.of_nat i) = Throw (IndexError "list index out of range").
Proof.
  intros Hge. unfold getitem.
  destruct (Z.ltb_spec (Z.of_nat i) 0); [lia|].
  destruct (Z.ltb_spec (Z.of_nat i) (Z.of_nat (length l))); [lia|].
  by rewrite andb_false_r.
Qed.

Lemma slice_from_nonneg {A : Type} (l : list A) (n : nat) :
  slice_from l (Z.of_nat n) = drop n l.
Proof.
  unfold slice_from. destruct (Z.ltb_spec (Z.of_nat n) 0); [lia|].
  destruct (Z.min_spec (Z.of_nat n) (Z.of_nat (length l))) as [[_ ->] | [Hle ->]].
  - by rewrite Nat2Z.id.
  - rewrite Nat2Z.id, !drop_ge; [done | lia | lia].
Qed.

Lemma slice_from_negative {A : Type} (l : list A) (n : Z) :
  n < 0 → slice_from l n = drop (length l - Z.to_nat (- n)) l.
Proof.
  intros Hn. unfold slice_from. destruct (Z.ltb_spec n 0); [|lia].
  f_equal. lia.
Qed.

(** A comprehension over [l[i] for i in range(...)]: the items of [l] at
    the indices [s, ..., s + k - 1]. *)
Lemma comprehension_getitem {A B : Type} (f : A → B) (l : list A) (s k : nat) :
  (s + k ≤ length l)%nat →
  comprehension (λ i, and_then (getitem l i) (λ a, Value (f a)))
    (map Z.of_nat (seq s k))
  = Value (map f (take k (drop s l))).
Proof.
  revert s. induction k as [|k IH]; intros s Hle; cbn; [done|].
  destruct (lookup_lt_is_Some_2 l s) as [a Ha]; [lia|].
  rewrite (getitem_lookup _ _ _ Ha). cbn. rewrite IH by lia. cbn.
  rewrite (drop_S _ _ _ Ha). cbn. done.
Qed.

Lemma comprehension_getitem_beyond {A B : Type} (f : A → B) (l : list A)
    (s k : nat) :
  (s ≤ length l)%nat → (length l < s + k)%nat →
  comprehension (λ i, and_then (getitem l i) (λ a, Value (f a)))
    (map Z.of_nat (seq s k))
  = Throw (IndexError "list index out of range").
Proof.
  revert s. induction k as [|k IH]; intros s Hs Hlt; cbn; [lia|].
  destruct (decide (s = length l)) as [->|Hne].
  - by rewrite getitem_beyond.
  - destruct (lookup_lt_is_Some_2 l s) as [a Ha]; [lia|].
    rewrite (getitem_lookup _ _ _ Ha). cbn. rewrite IH by lia. done.
Qed.

Lemma zip_strict_same_length {A B : Type} (a : list A) (b : list B) :
  length a = length b → zip_strict a b = Value (zip a b).
Proof.
  revert b. induction a as [|x a IH]; intros [|y b] Hlen; cbn in *; try done.
  rewrite IH by lia. done.
Qed.

Lemma zip_strict_mismatch {A B : Type} (a : list A) (b : list B) :
  length a ≠ length b →
  ∃ msg, zip_strict a b = Throw (Builtin (ValueError msg)).
Proof.
  revert b. induction a as [|x a IH]; intros [|y b] Hlen; cbn in *;
    try done; eauto.
  destruct (IH b) as [msg ->]; [lia|]. cbn. eauto.
Qed.

Lemma zip_strict_longer {A B : Type} (a : list A) (b : list B) :
  (length a < length b)%nat →
  zip_strict a b
  = Throw (Builtin (ValueError "zip() argument 2 is longer than argument 1")).
Proof.
  revert b. induction a as [|x a IH]; intros [|y b] Hlen; cbn in *;
    try done; try lia.
  rewrite IH by lia. done.
Qed.

Lemma zip_strict_shorter {A B : Type} (a : list A) (b : list B) :
  (length b < length a)%nat →
  zip_strict a b
  = Throw (Builtin (ValueError "zip() argument 2 is shorter than argument 1")).
Proof.
  revert b. induction a as [|x a IH]; intros [|y b] Hlen; cbn in *;
    try done; try lia.
  rewrite IH by lia. done.
Qed.

Lemma length_range (n : Z) : length (range n) = Z.to_nat n.
Proof. unfold range. by rewrite length_map, length_seq. Qed.

Lemma map_zip_fst {A B C : Type} (f : A → C) (a : list A) (b : list B) :
  length a = length b → map (λ x, f x.1) (zip a b) = map f a.
Proof.
  revert b. induction a as [|x a IH]; intros [|y b] Hlen; cbn in *; try done.
  f_equal. apply IH. lia.
Qed.

Lemma map_zip_snd {A B C : Type} (f : B → C) (a : list A) (b : list B) :
  length a = length b → map (λ x, f x.2) (zip a b) = map f b.
Proof.
  revert b. induction a as [|x a IH]; intros [|y b] Hlen; cbn in *; try done.
  f_equal. apply IH. lia.
Qed.

Lemma Forall_zip_snd {A B : Type} (P : B → Prop) (a : list A) (b : list B) :
  Forall P b → Forall (λ x, P x.2) (zip a b).
Proof.
  intros Hb. revert a. induction Hb as [|y b Hy _ IH]; intros [|x a]; cbn;
    constructor; auto.
Qed.

Lemma and_then_value {A B : Type} (r : py_result A) (k : A → py_result B) (b : B) :
  and_then r k = Value b → ∃ a, r = Value a ∧ k a = Value b.
Proof. destruct r as [a|e]; cbn; [eauto | done]. Qed.

Lemma and_then_throw {A B : Type} (r : py_result A) (k : A → py_result B)
    (e : py_exception) :
  and_then r k = Throw e → r = Throw e ∨ ∃ a, r = Value a ∧ k a = Throw e.
Proof. destruct r as [a|e']; cbn; [eauto | intros [= ->]; by left]. Qed.


Lemma comprehension_value {A B : Type} (f : A → py_result B) (l : list A)
    (bs : list B) :
  comprehension f l = Value bs → Forall2 (λ a b, f a = Value b) l bs.
Proof.
  revert bs. induction l as [|a l IH]; intros bs; cbn.
  - intros [= <-]. constructor.
  - intros (b & Hb & (bs' & Hbs & [= <-])%and_then_value)%and_then_value.
    constructor; auto.
Qed.

Lemma comprehension_throw {A B : Type} (f : A → py_result B) (l : list A)
    (a : A) (e : py_exception) :
  a ∈ l → f a = Throw e → ∃ e', comprehension f l = Throw e'.
Proof.
  intros Ha Hf. induction l as [|x l IH]; [by apply elem_of_nil in Ha|]. cbn.
  destruct (f x) as [b|e'] eqn:Hx; [|cbn; eauto].
  apply elem_of_cons in Ha as [-> | Ha]; [congruence|].
  destruct (IH Ha) as [e' ->]. cbn. eauto.
Qed.

(** A comprehension raises what its body raised for some element. *)
Lemma comprehension_raised {A B : Type} (f : A → py_result B) (l : list A)
    (e : py_exception) :
  comprehension f l = Throw e → ∃ a, a ∈ l ∧ f a = Throw e.
Proof.
  induction l as [|x l IH]; cbn; [done|].
  intros [Hx | (b & Hb & [Hl | (bs & _ & [=])]%and_then_throw)]%and_then_throw.
  - exists x. split; [left | done].
  - destruct (IH Hl) as (a & Ha & Hf). exists a. split; [by right | done].
Qed.

Lemma comprehension_total {A B : Type} (f : A → py_result B) (g : A → B)
    (l : list A) :
  (∀ a, a ∈ l → f a = Value (g a)) → comprehension f l = Value (map g l).
Proof.
  induction l as [|x l IH]; intros Hf; cbn; [done|].
  rewrite Hf by left. cbn. rewrite IH; [done|]. intros a Ha. apply Hf. by right.
Qed.

Lemma Forall2_zip_with_zip {A B C D : Type} (P : A → B → Prop)
    (Q : B → C → Prop) (g : A → B * C → D) (l : list A) (bs : list B)
    (cs : list C) :
  Forall2 P l bs → Forall2 Q bs cs →
  Forall2 (λ a d, ∃ b c, P a b ∧ Q b c ∧ d = g a (b, c))
    l (zip_with g l (zip bs cs)).
Proof.
  intros Hl. revert cs. induction Hl as [|a b l bs Hab _ IH]; intros cs Hcs.
  - constructor.
  - inversion Hcs as [|? c ? cs' Hbc Hcs']; subst. cbn.
    constructor; [by exists b, c | by apply IH].
Qed.

End python_lists.

Section constructors.
Import python problem_builders.
Context {A : Type}.
Variable init_raises : A → option py_exception.

Lemma construct_accepts (a : A) :
  init_raises a = None → construct init_raises a = Value a.
Proof. unfold construct. by intros ->. Qed.

Lemma construct_refuses (a : A) (e : py_exception) :
  init_raises a = Some e → construct init_raises a = Throw e.
Proof. unfold construct. by intros ->. Qed.

Lemma construct_value (a b : A) :
  construct init_raises a = Value b → b = a ∧ init_raises a = None.
Proof. unfold construct. destruct (init_raises a); [done | by intros [= <-]]. Qed.

Lemma construct_throw (a : A) (e : py_exception) :
  construct init_raises a = Throw e → init_raises a = Some e.
Proof. unfold construct. destruct (init_raises a); [by intros [= <-] | done]. Qed.

End constructors.

Section builders.
Import core benchmark_problem python problem_builders.
Variable config_init_raises : FullOptimizationConfig → option py_exception.

Abbreviation soo_opt_config := (get_soo_opt_config config_init_raises).
Abbreviation moo_opt_config := (get_moo_opt_config config_init_raises).
Abbreviation new_config := (construct config_init_raises).

Lemma constraint_names_of (names : list string) (o m : bool) :
  map (λ c, metric_name (metric c)) (_get_constraints names o m) = names.
Proof.
  unfold _get_constraints. rewrite List.map_map. cbn. apply List.map_id.
Qed.

Lemma get_soo_opt_config_cons (name : string) (rest : list string)
    (lower_is_better observe_noise_sd use_map_metric : bool) :
  soo_opt_config (name :: rest) lower_is_better observe_noise_sd use_map_metric
  = new_config
      (soo_config_of lower_is_better observe_noise_sd use_map_metric name rest).
Proof.
  unfold get_soo_opt_config.
  change (getitem (name :: rest) 0) with (getitem (name :: rest) (Z.of_nat 0)).
  rewrite (getitem_lookup (name :: rest) 0 name eq_refl). cbn [and_then].
  change (slice_from (name :: rest) 1)
    with (slice_from (name :: rest) (Z.of_nat 1)).
  by rewrite slice_from_nonneg.
Qed.

Lemma names_of_soo_config (lower_is_better o m : bool) (name : string)
    (rest : list string) :
  names_of (soo_config_of lower_is_better o m name rest)
  = {| cls := OptimizationConfigClass;
       objective := SingleObjective name;
       outcome_constraints := rest |}.
Proof. unfold names_of, soo_config_of. cbn. by rewrite constraint_names_of. Qed.

(** The three things [__post_init__] can object to, for a problem whose
    metric names all come from the test function's outcome names. *)
Lemma post_init_covered (p : BenchmarkProblem) :
  n_best_points p = 1 →
  (∀ n, n ∈ objective_names (objective (optimization_config p)) →
        n ∈ test_function_outcome_names p) →
  (∀ n, n ∈ outcome_constraints (optimization_config p) →
        n ∈ test_function_outcome_names p) →
  (report_inference_value_as_trace p && is_moo p = true →
     ∃ msg, __post_init__ p = Raise (NotImplementedError msg))
  ∧ (report_inference_value_as_trace p && is_moo p = false →
       __post_init__ p =
         Return (set_target_fidelity_and_task p
                   (compute_target_fidelity_and_task (search_space p)))).
Proof.
  intros Hn Hobj Hcon.
  assert (H1 : ¬ unsupported_n_best_points p) by (intros H; by apply H).
  split.
  - intros [Hr Hm]%andb_true_iff. by apply post_init_inference_moo.
  - intros Hrm. apply post_init_names; [done| |].
    + intros [Hr Hm]. rewrite Hr, Hm in Hrm. done.
    + intros (n & [Hin | Hin] & Hout); apply Hout; auto.
Qed.

Lemma get_moo_opt_config_negative (outcome_names : list string)
    (ref_point : list Q) (num_constraints : Z)
    (lower_is_better observe_noise_sd use_map_metric : bool) :
  num_constraints < 0 →
  moo_opt_config outcome_names ref_point num_constraints lower_is_better
    observe_noise_sd use_map_metric
  = Throw (IndexError "list index out of range").
Proof.
  intros Hnc. unfold get_moo_opt_config, range.
  pose proof (comprehension_getitem_beyond
                (metric_named lower_is_better observe_noise_sd use_map_metric)
                outcome_names 0
                (Z.to_nat (Z.of_nat (length outcome_names) - num_constraints)))
    as Hc.
  unfold metric_named in Hc. rewrite Hc by lia. done.
Qed.

Lemma get_moo_opt_config_nonneg (outcome_names : list string)
    (ref_point : list Q) (num_constraints : Z)
    (lower_is_better observe_noise_sd use_map_metric : bool) :
  0 ≤ num_constraints →
  let n_objectives := Z.of_nat (length outcome_names) - num_constraints in
  let metrics :=
    map (metric_named lower_is_better observe_noise_sd use_map_metric)
      (take (Z.to_nat n_objectives) outcome_names) in
  moo_opt_config outcome_names ref_point num_constraints lower_is_better
    observe_noise_sd use_map_metric
  = and_then (zip_strict ref_point metrics)
      (λ zipped,
         new_config
           (moo_config_of lower_is_better metrics
              (_get_constraints (slice_from outcome_names n_objectives)
                 observe_noise_sd false)
              zipped)).
Proof.
  intros Hnc n_objectives metrics. unfold get_moo_opt_config, range.
  fold n_objectives.
  pose proof (comprehension_getitem
                (metric_named lower_is_better observe_noise_sd use_map_metric)
                outcome_names 0 (Z.to_nat n_objectives)) as Hc.
  rewrite drop_0 in Hc. unfold metric_named in Hc at 1.
  rewrite Hc by (unfold n_objectives; lia). done.
Qed.

Lemma length_objective_metrics (outcome_names : list string) (n : Z)
    (f : string → Metric) :
  n ≤ Z.of_nat (length outcome_names) →
  Z.of_nat (length (map f (take (Z.to_nat n) outcome_names))) = Z.max n 0.
Proof. intros Hn. rewrite length_map, length_take. lia. Qed.

(** What [BenchmarkProblem.__post_init__] reads of a configuration built by
    [get_moo_opt_config]. *)
Lemma names_of_moo_config (lower_is_better o m m' : bool)
    (names constraint_names : list string) (zipped : list (Q * Metric)) :
  names_of (moo_config_of lower_is_better
              (map (metric_named lower_is_better o m) names)
              (_get_constraints constraint_names o m') zipped)
  = {| cls := MultiObjectiveOptimizationConfigClass;
       objective := MultiObjective names;
       outcome_constraints := constraint_names |}.
Proof.
  unfold names_of, moo_config_of. cbn.
  rewrite constraint_names_of, !List.map_map. cbn. by rewrite List.map_id.
Qed.

Lemma thresholds_of_zip (ref_point : list Q) (metrics : list Metric) :
  length ref_point = length metrics →
  let thresholds :=
    map (λ '(ref_p, metric),
           {| metric := metric; bound := ref_p; relative := false;
              op := if problem_builders.lower_is_better metric
                    then LEQ else GEQ |}) (zip ref_point metrics) in
  map metric thresholds = metrics ∧ map bound thresholds = ref_point.
Proof.
  intros Hlen thresholds. unfold thresholds. rewrite !List.map_map. split.
  - rewrite (List.map_ext _ (λ x : Q * Metric, id x.2)) by (by intros [? ?]).
    rewrite map_zip_snd by done. apply List.map_id.
  - rewrite (List.map_ext _ (λ x : Q * Metric, id x.1)) by (by intros [? ?]).
    rewrite map_zip_fst by done. apply List.map_id.
Qed.

(** X5. With [0 <= num_constraints <= len(outcome_names)] and a reference
    point of as many entries as there are names left, [get_moo_opt_config]
    reaches the constructor of [MultiObjectiveOptimizationConfig], and
    returns what it is given unless the constructor raises. The
    configuration it asks for splits [outcome_names] in order: the first
    names are the objectives, the last [num_constraints] the constraints.
    There is one threshold per objective, on that objective's metric and
    with the bound of [ref_point] at the same position; every threshold is
    [LEQ] when [lower_is_better] and [GEQ] otherwise, every constraint is
    [>= 0], and none is relative. *)
Theorem moo_config_splits_outcome_names (outcome_names : list string)
    (ref_point : list Q) (num_constraints : Z)
    (lower_is_better observe_noise_sd use_map_metric : bool) :
  0 ≤ num_constraints ≤ Z.of_nat (length outcome_names) →
  Z.of_nat (length ref_point)
  = Z.of_nat (length outcome_names) - num_constraints →
  ∃ c,
    moo_opt_config outcome_names ref_point num_constraints lower_is_better
      observe_noise_sd use_map_metric = new_config c
    ∧ cls (names_of c) = MultiObjectiveOptimizationConfigClass
    ∧ (∃ objectives,
         objective (names_of c) = MultiObjective objectives
         ∧ objectives ++ outcome_constraints (names_of c) = outcome_names
         ∧ length objectives = length ref_point
         ∧ map (λ t, metric_name (metric t)) (config_objective_thresholds c)
           = objectives)
    ∧ map bound (config_objective_thresholds c) = ref_point
    ∧ Forall (λ t, op t = (if lower_is_better then LEQ else GEQ)
                   ∧ relative t = false)
        (config_objective_thresholds c)
    ∧ Forall (λ k, op k = GEQ ∧ bound k = 0%Q ∧ relative k = false)
        (config_outcome_constraints c).
Proof.
  intros Hnc Hlen.
  rewrite (get_moo_opt_config_nonneg _ _ _ _ _ _ (proj1 Hnc)). cbv zeta.
  set (n := Z.to_nat (Z.of_nat (length outcome_names) - num_constraints)).
  replace (Z.of_nat (length outcome_names) - num_constraints)
    with (Z.of_nat n) by (unfold n; lia).
  rewrite slice_from_nonneg.
  set (metrics := map _ (take n outcome_names)).
  assert (Hm : length ref_point = length metrics).
  { unfold metrics. rewrite length_map, length_take. unfold n. lia. }
  rewrite (zip_strict_same_length _ _ Hm). cbn [and_then].
  eexists. split; [reflexivity|].
  pose proof (names_of_moo_config lower_is_better observe_noise_sd
                use_map_metric false (take n outcome_names)
                (drop n outcome_names) (zip ref_point metrics)) as Hnames.
  fold metrics in Hnames. rewrite !Hnames.
  cbn [cls objective outcome_constraints].
  destruct (thresholds_of_zip ref_point metrics Hm) as [Hmetric Hbound].
  cbn [moo_config_of config_objective_thresholds config_outcome_constraints].
  split; [done|]. split; [|split; [|split]].
  - exists (take n outcome_names). rewrite take_drop.
    split; [done|]. split; [done|]. split.
    + rewrite length_take. unfold n. lia.
    + rewrite <- (List.map_map metric metric_name), Hmetric.
      unfold metrics. rewrite List.map_map. cbn. apply List.map_id.
  - exact Hbound.
  - apply Forall_map.
    assert (Hall : Forall (λ m, problem_builders.lower_is_better m
                                = lower_is_better) metrics).
    { unfold metrics. apply Forall_map, Forall_forall. done. }
    eapply Forall_impl; [exact (Forall_zip_snd _ ref_point metrics Hall)|].
    intros [r m]. cbn. intros ->. done.
  - unfold _get_constraints. apply Forall_map, Forall_forall. done.
Qed.

(** X6. Of its own, [get_moo_opt_config] raises exactly as follows. A
    negative [num_constraints] asks for more objectives than there are
    names: [IndexError]. Otherwise, with [n = max(len(outcome_names) -
    num_constraints, 0)] objectives, a [ref_point] shorter than [n] raises
    the [ValueError] of [zip(..., strict=True)] that its second argument is
    longer, and a longer one that it is shorter. With a [ref_point] of length
    [n] the constructor of [MultiObjectiveOptimizationConfig] is reached: the
    call returns the configuration when the constructor accepts it, and
    raises what the constructor raises otherwise. *)
Theorem moo_config_raises_exactly (outcome_names : list string)
    (ref_point : list Q) (num_constraints : Z)
    (lower_is_better observe_noise_sd use_map_metric : bool) :
  (num_constraints < 0 →
     moo_opt_config outcome_names ref_point num_constraints
       lower_is_better observe_noise_sd use_map_metric
     = Throw (IndexError "list index out of range"))
  ∧ (0 ≤ num_constraints →
     Z.of_nat (length ref_point)
     < Z.max (Z.of_nat (length outcome_names) - num_constraints) 0 →
     moo_opt_config outcome_names ref_point num_constraints
       lower_is_better observe_noise_sd use_map_metric
     = Throw (Builtin
                (ValueError "zip() argument 2 is longer than argument 1")))
  ∧ (0 ≤ num_constraints →
     Z.max (Z.of_nat (length outcome_names) - num_constraints) 0
     < Z.of_nat (length ref_point) →
     moo_opt_config outcome_names ref_point num_constraints
       lower_is_better observe_noise_sd use_map_metric
     = Throw (Builtin
                (ValueError "zip() argument 2 is shorter than argument 1")))
  ∧ (0 ≤ num_constraints →
     Z.of_nat (length ref_point)
     = Z.max (Z.of_nat (length outcome_names) - num_constraints) 0 →
     ∃ c,
       cls (names_of c) = MultiObjectiveOptimizationConfigClass
       ∧ moo_opt_config outcome_names ref_point num_constraints
           lower_is_better observe_noise_sd use_map_metric = new_config c
       ∧ (config_init_raises c = None →
          moo_opt_config outcome_names ref_point num_constraints
            lower_is_better observe_noise_sd use_map_metric = Value c)
       ∧ (∀ e, config_init_raises c = Some e →
               moo_opt_config outcome_names ref_point num_constraints
                 lower_is_better observe_noise_sd use_map_metric = Throw e)).
Proof.
  split; [apply get_moo_opt_config_negative|].
  assert (Hlen : ∀ f : string → Metric, 0 ≤ num_constraints →
            Z.of_nat (length (map f (take (Z.to_nat (Z.of_nat (length outcome_names)
                                          - num_constraints)) outcome_names)))
            = Z.max (Z.of_nat (length outcome_names) - num_constraints) 0).
  { intros f Hnc. apply length_objective_metrics. lia. }
  split; [|split]; intros Hnc Href;
    rewrite (get_moo_opt_config_nonneg _ _ _ _ _ _ Hnc); cbv zeta;
    specialize (Hlen (metric_named lower_is_better observe_noise_sd
                        use_map_metric) Hnc).
  - rewrite zip_strict_longer by lia. done.
  - rewrite zip_strict_shorter by lia. done.
  - rewrite zip_strict_same_length by lia. cbn [and_then].
    eexists. split; [|split; [reflexivity|split]].
    + done.
    + apply construct_accepts.
    + intros e. apply construct_refuses.
Qed.

(** X7. When [num_constraints] exceeds the number of outcome names,
    [get_moo_opt_config] (with an empty reference point) raises nothing of
    its own: the number of objectives is negative, so the configuration it
    asks the constructor for has no objective and no threshold, and the
    slice [outcome_names[n_objectives:]] makes constraints of the last
    [num_constraints - len(outcome_names)] names only, of all names once
    that difference reaches their number. *)
Theorem moo_config_with_more_constraints_than_names
    (outcome_names : list string) (num_constraints : Z)
    (lower_is_better observe_noise_sd use_map_metric : bool) :
  Z.of_nat (length outcome_names) < num_constraints →
  ∃ c,
    moo_opt_config outcome_names [] num_constraints lower_is_better
      observe_noise_sd use_map_metric = new_config c
    ∧ objective (names_of c) = MultiObjective []
    ∧ config_objective_thresholds c = []
    ∧ outcome_constraints (names_of c)
      = drop (length outcome_names
              - Z.to_nat (num_constraints - Z.of_nat (length outcome_names)))
          outcome_names
    ∧ (Z.of_nat (length outcome_names) + Z.of_nat (length outcome_names)
       ≤ num_constraints →
       outcome_constraints (names_of c) = outcome_names).
Proof.
  intros Hnc.
  rewrite get_moo_opt_config_nonneg by lia. cbv zeta.
  replace (Z.to_nat (Z.of_nat (length outcome_names) - num_constraints))
    with 0%nat by lia.
  rewrite take_0. cbn [map zip_strict and_then].
  eexists. split; [reflexivity|].
  pose proof (names_of_moo_config lower_is_better observe_noise_sd
                use_map_metric false []
                (slice_from outcome_names
                   (Z.of_nat (length outcome_names) - num_constraints)) [])
    as Hnames.
  cbn [map] in Hnames. rewrite !Hnames.
  cbn [objective outcome_constraints moo_config_of
       config_objective_thresholds map].
  split; [done|]. split; [done|].
  rewrite slice_from_negative by lia.
  assert (Heq : drop (length outcome_names
                      - Z.to_nat (- (Z.of_nat (length outcome_names)
                                     - num_constraints))) outcome_names
                = drop (length outcome_names
                        - Z.to_nat (num_constraints
                                    - Z.of_nat (length outcome_names)))
                    outcome_names) by (f_equal; lia).
  rewrite Heq. split; [done|].
  intros Hall.
  replace (length outcome_names
           - Z.to_nat (num_constraints - Z.of_nat (length outcome_names)))%nat
    with 0%nat by lia.
  apply drop_0.
Qed.


(** X9. [get_soo_opt_config] raises [IndexError] without outcome names.
    Otherwise it reaches the constructor of [OptimizationConfig], and returns
    what it is given unless the constructor raises: the first name is the
    objective and the others are the constraints, in order, with no
    objective threshold. A [BenchmarkProblem] with this configuration, whose
    test function produces the same outcome names, passes [__post_init__]
    whenever [n_best_points] is 1, whatever its other fields. *)
Theorem soo_config_passes_validation (outcome_names : list string)
    (lower_is_better observe_noise_sd use_map_metric : bool) :
  (outcome_names = [] →
     soo_opt_config outcome_names lower_is_better observe_noise_sd
       use_map_metric
     = Throw (IndexError "list index out of range"))
  ∧ (∀ name rest, outcome_names = name :: rest →
       ∃ c,
         soo_opt_config outcome_names lower_is_better observe_noise_sd
           use_map_metric = new_config c
         ∧ names_of c
           = {| cls := OptimizationConfigClass;
                objective := SingleObjective name;
                outcome_constraints := rest |}
         ∧ config_objective_thresholds c = []
         ∧ ∀ p : BenchmarkProblem,
             optimization_config p = names_of c →
             test_function_outcome_names p = outcome_names →
             n_best_points p = 1 →
             __post_init__ p
             = Return (set_target_fidelity_and_task p
                         (compute_target_fidelity_and_task (search_space p)))).
Proof.
  split.
  - intros ->. done.
  - intros name rest ->. rewrite get_soo_opt_config_cons.
    eexists. split; [reflexivity|]. rewrite names_of_soo_config.
    split; [done|]. split; [done|].
    intros p Hconfig Hout Hn.
    apply post_init_covered; [done | | |].
    + rewrite Hconfig, Hout. cbn. intros n ->%elem_of_singleton. left.
    + rewrite Hconfig, Hout. cbn. intros n Hin. by right.
    + unfold is_moo, is_multi_objective_config. rewrite Hconfig. cbn.
      apply andb_false_r.
Qed.

End builders.

(** ** Search spaces and problems from BoTorch test problems *)

Section search_space_and_problems.
Import core benchmark_problem python problem_builders.
Variable config_init_raises : FullOptimizationConfig → option py_exception.
Variable parameter_init_raises : RangeParameter → option py_exception.
Variable test_function_init_raises :
  BaseTestProblem * list string → option py_exception.

Abbreviation continuous_search_space :=
  (get_continuous_search_space parameter_init_raises).
Abbreviation problem_from_botorch :=
  (create_problem_from_botorch config_init_raises parameter_init_raises
     test_function_init_raises).
Abbreviation search_space_of := (botorch_search_space parameter_init_raises).

Lemma combine_seq_lookup {A : Type} (l : list A) (s i : nat) (a : A) :
  l !! i = Some a → combine (seq s (length l)) l !! i = Some ((s + i)%nat, a).
Proof.
  revert s i. induction l as [|x l IH]; intros s [|i] Hi; cbn in *; try done.
  - injection Hi as ->. by rewrite Nat.add_0_r.
  - etrans; [exact (IH (S s) i Hi)|]. by rewrite Nat.add_succ_r.
Qed.

Lemma map_fst_combine_seq {A : Type} (l : list A) (s : nat) :
  map fst (combine (seq s (length l)) l) = seq s (length l).
Proof.
  revert s. induction l as [|x l IH]; intros s; cbn; [done|]. by rewrite IH.
Qed.

Lemma NoDup_map_inj {A B : Type} (f : A → B) (l : list A) :
  (∀ x y, f x = f y → x = y) → NoDup l → NoDup (map f l).
Proof.
  intros Hinj. induction 1 as [|x l Hx Hl IH]; cbn; constructor; [|done].
  intros (y & Heq & Hy)%list_elem_of_In%in_map_iff.
  apply Hinj in Heq as ->. by apply Hx, list_elem_of_In.
Qed.

Lemma enumerate_elem {A : Type} (l : list A) (x : nat * A) :
  x ∈ enumerate l → l !! x.1 = Some x.2.
Proof.
  unfold enumerate. destruct x as [i a]. cbn.
  assert (Hgen : ∀ s, (i, a) ∈ combine (seq s (length l)) l
                      → (s ≤ i)%nat ∧ l !! (i - s)%nat = Some a).
  { induction l as [|y l IH]; intros s; cbn; [by intros ?%elem_of_nil|].
    intros [[= -> ->] | Hin]%elem_of_cons.
    - split; [lia|]. by rewrite Nat.sub_diag.
    - destruct (IH _ Hin) as [Hle Hl]. split; [lia|].
      replace (i - s)%nat with (S (i - S s)) by lia. done. }
  intros Hin. destruct (Hgen 0%nat Hin) as [_ Hl]. by rewrite Nat.sub_0_r in Hl.
Qed.

(** The parameters asked for, whatever the constructor makes of them. *)
Lemma parameters_asked_for (bounds : list (Q * Q)) :
  length (map (λ x, range_parameter_at x.1 x.2) (enumerate bounds))
  = length bounds
  ∧ (∀ (i : nat) (lower upper : Q),
       bounds !! i = Some (lower, upper) →
       map (λ x, range_parameter_at x.1 x.2) (enumerate bounds) !! i
       = Some {| range_name := "x" +:+ pretty i; parameter_type := FLOAT;
                 lower := lower; upper := upper |})
  ∧ NoDup (map range_name
             (map (λ x, range_parameter_at x.1 x.2) (enumerate bounds)))
  ∧ map range_name (map (λ x, range_parameter_at x.1 x.2) (enumerate bounds))
    = map (λ i : nat, "x" +:+ pretty i) (seq 0 (length bounds)).
Proof.
  unfold enumerate.
  assert (Hnames : map range_name
            (map (λ x : nat * (Q * Q), range_parameter_at x.1 x.2)
               (combine (seq 0 (length bounds)) bounds))
          = map (λ i : nat, "x" +:+ pretty i) (seq 0 (length bounds))).
  { rewrite List.map_map. cbn.
    rewrite <- (List.map_map fst (λ i : nat, "x" +:+ pretty i)).
    by rewrite map_fst_combine_seq. }
  split; [|split; [|split; [|done]]].
  - rewrite length_map, length_combine, length_seq. lia.
  - intros i lower upper Hi.
    change (map ?f ?l) with (f <$> l). rewrite list_lookup_fmap.
    by rewrite (combine_seq_lookup _ 0 _ _ Hi).
  - rewrite Hnames. apply NoDup_map_inj; [|apply NoDup_seq].
    intros x y Heq. cbn in Heq. injection Heq as Heq.
    change ("" +:+ ?s) with s in Heq. by apply (inj pretty) in Heq.
Qed.

Lemma continuous_search_space_value (bounds : list (Q * Q))
    (parameters : list RangeParameter) :
  continuous_search_space bounds = Value parameters →
  parameters = map (λ x, range_parameter_at x.1 x.2) (enumerate bounds)
  ∧ Forall (λ p, parameter_init_raises p = None) parameters.
Proof.
  unfold get_continuous_search_space. intros Hall%comprehension_value.
  induction Hall as [|[i [lower upper]] p l ps Hp _ [IH1 IH2]]; [done|].
  apply construct_value in Hp as [-> Hp]. cbn. rewrite <- IH1.
  split; [done | by constructor].
Qed.

(** X10. When [get_continuous_search_space] returns, there is one [FLOAT]
    range parameter per pair of bounds, in order: the parameter at position
    [i] is named [x{i}] and has the bounds at position [i]; the names are
    pairwise distinct, and the constructor of [RangeParameter] accepted each.
    It returns when the constructor accepts every such parameter, and what
    it raises otherwise is what the constructor raised for one of them. *)
Theorem continuous_search_space_parameters (bounds : list (Q * Q)) :
  (∀ parameters,
     get_continuous_search_space parameter_init_raises bounds
     = Value parameters →
     length parameters = length bounds
     ∧ (∀ (i : nat) (lower upper : Q),
          bounds !! i = Some (lower, upper) →
          parameters !! i
          = Some {| range_name := "x" +:+ pretty i; parameter_type := FLOAT;
                    lower := lower; upper := upper |})
     ∧ NoDup (map range_name parameters)
     ∧ Forall (λ p, parameter_init_raises p = None) parameters)
  ∧ ((∀ (i : nat) (lower upper : Q),
        bounds !! i = Some (lower, upper) →
        parameter_init_raises
          {| range_name := "x" +:+ pretty i; parameter_type := FLOAT;
             lower := lower; upper := upper |} = None) →
     ∃ parameters,
       get_continuous_search_space parameter_init_raises bounds
       = Value parameters)
  ∧ (∀ e, get_continuous_search_space parameter_init_raises bounds = Throw e →
          ∃ (i : nat) (lower upper : Q),
            bounds !! i = Some (lower, upper)
            ∧ parameter_init_raises
                {| range_name := "x" +:+ pretty i; parameter_type := FLOAT;
                   lower := lower; upper := upper |} = Some e).
Proof.
  destruct (parameters_asked_for bounds) as (Hlen & Hlookup & Hnd & _).
  split; [|split].
  - intros parameters [-> Hok]%continuous_search_space_value. done.
  - intros Hok. eexists. unfold get_continuous_search_space.
    apply (comprehension_total _ (λ x, range_parameter_at x.1 x.2)).
    intros [i [lower upper]] Hin%enumerate_elem. cbn in Hin.
    apply construct_accepts, (Hok i lower upper Hin).
  - unfold get_continuous_search_space.
    intros e ([i [lower upper]] & Hin%enumerate_elem & He)%comprehension_raised.
    cbn in Hin. exists i, lower, upper. split; [done|].
    by apply construct_throw in He.
Qed.

Lemma no_target_in_range_parameters (ps : list RangeParameter) :
  compute_target_fidelity_and_task (map as_parameter ps) = ∅.
Proof.
  unfold compute_target_fidelity_and_task.
  assert (Hfilter : List.filter
            (λ p, (is_choice_parameter p && is_task p) || is_fidelity p)
            (map as_parameter ps) = []).
  { induction ps as [|p ps IH]; cbn; done. }
  by rewrite Hfilter.
Qed.

Lemma default_search_space (test_problem : BaseTestProblem)
    (space : list SearchSpaceParameter) :
  search_space_of test_problem None = Value space →
  compute_target_fidelity_and_task space = ∅
  ∧ map pname space
    = map (λ i : nat, "x" +:+ pretty i)
        (seq 0 (length (_bounds test_problem))).
Proof.
  unfold botorch_search_space.
  intros (ps & [-> _]%continuous_search_space_value & [= <-])%and_then_value.
  split; [apply no_target_in_range_parameters|].
  destruct (parameters_asked_for (_bounds test_problem)) as (_ & _ & _ & <-).
  by rewrite !List.map_map.
Qed.

(** The statements of [create_problem_from_botorch] one after the other,
    for a problem that is not multi-objective: [__post_init__] never
    objects. *)
Lemma problem_from_botorch_single (test_problem : BaseTestProblem)
    (dim : option Z) (num_trials : Z) (name : option string)
    (lower_is_better observe_noise_sd : bool)
    (search_space : option (list SearchSpaceParameter))
    (report_inference_value_as_trace : bool)
    (trial_runtime_func : option (nat → Z)) :
  is_multi_objective test_problem = false →
  let problem_name :=
    botorch_problem_name test_problem observe_noise_sd dim name in
  let outcome_names :=
    problem_name
    :: constraint_slack_names (botorch_num_constraints test_problem) in
  problem_from_botorch test_problem dim num_trials name lower_is_better
    observe_noise_sd search_space report_inference_value_as_trace
    trial_runtime_func
  = and_then (search_space_of test_problem search_space) (λ space,
    and_then (construct test_function_init_raises
                (test_problem, outcome_names)) (λ _,
    and_then (construct config_init_raises
                (botorch_soo_config test_problem lower_is_better
                   observe_noise_sd dim name)) (λ _,
    and_then (tp_optimal_value test_problem) (λ optimal,
    Value
      {| benchmark_problem.name := problem_name;
         optimization_config :=
           {| cls := OptimizationConfigClass;
              objective := SingleObjective problem_name;
              outcome_constraints :=
                constraint_slack_names (botorch_num_constraints test_problem) |};
         benchmark_problem.num_trials := num_trials;
         test_function_outcome_names := outcome_names;
         optimal_value := optimal;
         search_space := space;
         benchmark_problem.report_inference_value_as_trace :=
           report_inference_value_as_trace;
         n_best_points := 1;
         benchmark_problem.trial_runtime_func := trial_runtime_func;
         target_fidelity_and_task := compute_target_fidelity_and_task space |})))).
Proof.
  intros Hsoo problem_name outcome_names.
  unfold create_problem_from_botorch. rewrite Hsoo. cbv zeta.
  fold (botorch_num_constraints test_problem).
  fold (constraint_slack_names (botorch_num_constraints test_problem)).
  assert (Hname : match name with
                  | Some name => name
                  | None => _get_name test_problem observe_noise_sd dim
                  end = problem_name) by (by destruct name).
  rewrite Hname. fold (search_space_of test_problem search_space).
  destruct (search_space_of test_problem search_space) as [space|e];
    [|done].
  cbn [and_then app]. fold outcome_names.
  unfold construct.
  destruct (test_function_init_raises (test_problem, outcome_names));
    [done|].
  cbn [and_then snd]. unfold outcome_names at 1.
  rewrite get_soo_opt_config_cons. fold outcome_names.
  change (soo_config_of lower_is_better observe_noise_sd false problem_name
            (constraint_slack_names (botorch_num_constraints test_problem)))
    with (botorch_soo_config test_problem lower_is_better observe_noise_sd
            dim name).
  unfold construct.
  destruct (config_init_raises _); [done|]. cbn [and_then].
  destruct (tp_optimal_value test_problem) as [optimal|e]; [|done].
  cbn [and_then]. unfold botorch_soo_config. rewrite names_of_soo_config.
  fold problem_name.
  set (p := {| benchmark_problem.name := problem_name |}).
  destruct (post_init_covered p) as [_ Hok].
  { done. }
  { cbn. intros n ->%elem_of_singleton. left. }
  { cbn. intros n Hin. by right. }
  rewrite Hok by apply andb_false_r. done.
Qed.

(** X11. For a test problem that is not multi-objective,
    [create_problem_from_botorch] raises nothing of its own, and
    [__post_init__] never objects: an exception comes from building the
    default search space, from the constructor of the test function, from
    the constructor of the configuration, or from reading [optimal_value].
    When these four succeed, the problem is named by [name], or by
    [_get_name] when there is none; its only objective carries the problem's
    name; its outcomes are that name followed by [constraint_slack_0], ...,
    which are the constraints; the optimal value is the test problem's; and
    with the default search space the parameters are [x0], [x1], ... and no
    target fidelity or task is recorded. *)
Theorem single_objective_problem_from_botorch
    (test_problem : BaseTestProblem) (dim : option Z) (num_trials : Z)
    (name : option string) (lower_is_better observe_noise_sd : bool)
    (search_space : option (list SearchSpaceParameter))
    (report_inference_value_as_trace : bool)
    (trial_runtime_func : option (nat → Z)) :
  is_multi_objective test_problem = false →
  let problem :=
    problem_from_botorch test_problem dim num_trials name lower_is_better
      observe_noise_sd search_space report_inference_value_as_trace
      trial_runtime_func in
  let problem_name :=
    botorch_problem_name test_problem observe_noise_sd dim name in
  let outcome_names :=
    problem_name
    :: constraint_slack_names (botorch_num_constraints test_problem) in
  let config :=
    botorch_soo_config test_problem lower_is_better observe_noise_sd dim name in
  (∀ e, problem = Throw e →
        search_space_of test_problem search_space = Throw e
        ∨ test_function_init_raises (test_problem, outcome_names) = Some e
        ∨ config_init_raises config = Some e
        ∨ tp_optimal_value test_problem = Throw e)
  ∧ (∀ space optimal,
       search_space_of test_problem search_space = Value space →
       test_function_init_raises (test_problem, outcome_names) = None →
       config_init_raises config = None →
       tp_optimal_value test_problem = Value optimal →
       ∃ p,
         problem = Value p
         ∧ benchmark_problem.name p = problem_name
         ∧ test_function_outcome_names p = outcome_names
         ∧ optimization_config p = names_of config
         ∧ optimization_config p
           = {| cls := OptimizationConfigClass;
                objective := SingleObjective problem_name;
                outcome_constraints :=
                  constraint_slack_names
                    (botorch_num_constraints test_problem) |}
         ∧ optimal_value p = optimal
         ∧ benchmark_problem.search_space p = space
         ∧ benchmark_problem.report_inference_value_as_trace p
           = report_inference_value_as_trace
         ∧ (search_space = None →
            target_fidelity_and_task p = ∅
            ∧ map pname (benchmark_problem.search_space p)
              = map (λ i : nat, "x" +:+ pretty i)
                  (seq 0 (length (_bounds test_problem))))).
Proof.
  intros Hsoo problem problem_name outcome_names config. unfold problem.
  rewrite problem_from_botorch_single by done. cbv zeta.
  fold problem_name outcome_names config. split.
  - intros e [Hspace | (space & Hspace & Hrest)]%and_then_throw; [by left|].
    right.
    apply and_then_throw in Hrest
      as [Htf%construct_throw | (? & _ & Hrest)]; [by left|].
    right.
    apply and_then_throw in Hrest
      as [Hc%construct_throw | (? & _ & Hrest)]; [by left|].
    right.
    apply and_then_throw in Hrest as [Hv | (? & _ & [=])]. done.
  - intros space optimal Hspace Htf Hc Hv.
    rewrite Hspace, (construct_accepts _ _ Htf), (construct_accepts _ _ Hc), Hv.
    cbn [and_then]. eexists. split; [reflexivity|]. cbn.
    split; [done|]. split; [done|]. split.
    { unfold config, botorch_soo_config. by rewrite names_of_soo_config. }
    split; [done|]. split; [done|]. split; [done|]. split; [done|].
    intros ->. by apply default_search_space in Hspace.
Qed.

(** The statements of [create_problem_from_botorch] one after the other,
    for a multi-objective problem with a number of constraints that is not
    negative and a reference point of one entry per objective. *)
Lemma problem_from_botorch_multi (test_problem : BaseTestProblem)
    (dim : option Z) (num_trials : Z) (name : option string)
    (lower_is_better observe_noise_sd : bool)
    (search_space : option (list SearchSpaceParameter))
    (report_inference_value_as_trace : bool)
    (trial_runtime_func : option (nat → Z)) :
  is_multi_objective test_problem = true →
  let objective_names :=
    botorch_objective_names test_problem observe_noise_sd dim name in
  let constraint_names :=
    constraint_slack_names (botorch_num_constraints test_problem) in
  problem_from_botorch test_problem dim num_trials name lower_is_better
    observe_noise_sd search_space report_inference_value_as_trace
    trial_runtime_func
  = and_then (search_space_of test_problem search_space) (λ space,
    and_then (construct test_function_init_raises
                (test_problem, objective_names ++ constraint_names)) (λ _,
    and_then (get_moo_opt_config config_init_raises
                (objective_names ++ constraint_names)
                (_ref_point test_problem)
                (botorch_num_constraints test_problem) lower_is_better
                observe_noise_sd false) (λ c,
    and_then (max_hv test_problem) (λ optimal,
    match
      __post_init__
        {| benchmark_problem.name :=
             botorch_problem_name test_problem observe_noise_sd dim name;
           optimization_config := names_of c;
           benchmark_problem.num_trials := num_trials;
           test_function_outcome_names := objective_names ++ constraint_names;
           optimal_value := optimal;
           search_space := space;
           benchmark_problem.report_inference_value_as_trace :=
             report_inference_value_as_trace;
           n_best_points := 1;
           benchmark_problem.trial_runtime_func := trial_runtime_func;
           target_fidelity_and_task := ∅ |}
    with
    | Return p => Value p
    | Raise e => Throw (Builtin e)
    end)))).
Proof.
  intros Hmoo objective_names constraint_names.
  unfold create_problem_from_botorch. rewrite Hmoo. cbv zeta.
  fold (botorch_num_constraints test_problem).
  fold (constraint_slack_names (botorch_num_constraints test_problem)).
  fold constraint_names.
  assert (Hname : match name with
                  | Some name => name
                  | None => _get_name test_problem observe_noise_sd dim
                  end
                  = botorch_problem_name test_problem observe_noise_sd dim name)
    by (by destruct name).
  rewrite Hname.
  change (map (λ i, _ +:+ "_" +:+ pretty i) (range _)) with objective_names.
  fold (search_space_of test_problem search_space).
  destruct (search_space_of test_problem search_space) as [space|e]; [|done].
  cbn [and_then]. unfold construct.
  destruct (test_function_init_raises _); done.
Qed.

(** X12. For a multi-objective test problem, once the search space is there
    and the test function is built, [create_problem_from_botorch] goes
    through the following in order. It raises [IndexError] when the number
    of constraints is negative, and [ValueError] when the reference point
    has not one entry per objective name. Then the constructor of the
    configuration is reached, with objectives [{name}_0], [{name}_1], ... and
    constraints [constraint_slack_0], ...; what it raises is raised. Then
    [max_hv] is read; what the read raises is raised. Then
    [NotImplementedError] is raised when [report_inference_value_as_trace] is
    asked for. Otherwise a multi-objective problem is returned, with that
    configuration, the objectives followed by the constraints as outcomes,
    and [max_hv] as optimal value. *)
Theorem multi_objective_problem_from_botorch
    (test_problem : BaseTestProblem) (dim : option Z) (num_trials : Z)
    (name : option string) (lower_is_better observe_noise_sd : bool)
    (search_space : option (list SearchSpaceParameter))
    (report_inference_value_as_trace : bool)
    (trial_runtime_func : option (nat → Z))
    (space : list SearchSpaceParameter) :
  is_multi_objective test_problem = true →
  search_space_of test_problem search_space = Value space →
  test_function_init_raises
    (test_problem,
     botorch_objective_names test_problem observe_noise_sd dim name
     ++ constraint_slack_names (botorch_num_constraints test_problem)) = None →
  let problem :=
    problem_from_botorch test_problem dim num_trials name lower_is_better
      observe_noise_sd search_space report_inference_value_as_trace
      trial_runtime_func in
  let objective_names :=
    botorch_objective_names test_problem observe_noise_sd dim name in
  let constraint_names :=
    constraint_slack_names (botorch_num_constraints test_problem) in
  let config :=
    botorch_moo_config test_problem lower_is_better observe_noise_sd dim name in
  (botorch_num_constraints test_problem < 0 →
     problem = Throw (IndexError "list index out of range"))
  ∧ (0 ≤ botorch_num_constraints test_problem →
     length (_ref_point test_problem) ≠ length objective_names →
     ∃ msg, problem = Throw (Builtin (ValueError msg)))
  ∧ (0 ≤ botorch_num_constraints test_problem →
     length (_ref_point test_problem) = length objective_names →
     names_of config
     = {| cls := MultiObjectiveOptimizationConfigClass;
          objective := MultiObjective objective_names;
          outcome_constraints := constraint_names |}
     ∧ (∀ e, config_init_raises config = Some e → problem = Throw e)
     ∧ (config_init_raises config = None →
        (∀ e, max_hv test_problem = Throw e → problem = Throw e)
        ∧ (∀ optimal, max_hv test_problem = Value optimal →
             (report_inference_value_as_trace = true →
                ∃ msg, problem = Throw (Builtin (NotImplementedError msg)))
             ∧ (report_inference_value_as_trace = false →
                ∃ p, problem = Value p
                  ∧ is_moo p = true
                  ∧ optimization_config p = names_of config
                  ∧ test_function_outcome_names p
                    = objective_names ++ constraint_names
                  ∧ optimal_value p = optimal
                  ∧ benchmark_problem.search_space p = space)))).
Proof.
  intros Hmoo Hspace Htf problem objective_names constraint_names config.
  unfold problem. rewrite problem_from_botorch_multi by done. cbv zeta.
  rewrite Hspace, (construct_accepts _ _ Htf). cbn [and_then].
  fold objective_names constraint_names.
  set (nc := botorch_num_constraints test_problem) in *.
  split.
  { intros Hneg. by rewrite get_moo_opt_config_negative. }
  assert (Hcs : 0 ≤ nc → Z.of_nat (length constraint_names) = nc).
  { intros Hnc. unfold constraint_names, constraint_slack_names.
    rewrite length_map, length_range. lia. }
  assert (Hsplit : 0 ≤ nc →
            Z.to_nat (Z.of_nat (length (objective_names ++ constraint_names))
                      - nc) = length objective_names).
  { intros Hnc. rewrite length_app. specialize (Hcs Hnc). lia. }
  assert (Hslice : 0 ≤ nc →
            slice_from (objective_names ++ constraint_names)
              (Z.of_nat (length (objective_names ++ constraint_names)) - nc)
            = constraint_names).
  { intros Hnc.
    replace (Z.of_nat (length (objective_names ++ constraint_names)) - nc)
      with (Z.of_nat (length objective_names))
      by (rewrite length_app; specialize (Hcs Hnc); lia).
    rewrite slice_from_nonneg. by rewrite drop_app_length. }
  split; intros Hnc Href;
    rewrite get_moo_opt_config_nonneg by done; cbv zeta;
    rewrite (Hsplit Hnc), (Hslice Hnc), take_app_length.
  - destruct (zip_strict_mismatch (_ref_point test_problem)
                (map (metric_named lower_is_better observe_noise_sd false)
                   objective_names)) as [msg ->].
    { by rewrite length_map. }
    cbn. eauto.
  - rewrite zip_strict_same_length by (by rewrite length_map).
    cbn [and_then].
    change (moo_config_of lower_is_better _ _ _) with config.
    assert (Hnames : names_of config
              = {| cls := MultiObjectiveOptimizationConfigClass;
                   objective := MultiObjective objective_names;
                   outcome_constraints := constraint_names |}).
    { unfold config, botorch_moo_config. cbv zeta.
      apply names_of_moo_config. }
    split; [done|]. split.
    { intros e He. by rewrite (construct_refuses _ _ _ He). }
    intros Hc. rewrite (construct_accepts _ _ Hc). cbn [and_then]. split.
    { intros e ->. done. }
    intros optimal ->. cbn [and_then]. rewrite Hnames.
    set (p := {| benchmark_problem.name :=
                   botorch_problem_name test_problem observe_noise_sd dim name |}).
    split.
    + intros ->. destruct (post_init_inference_moo p) as [msg ->];
        [| |by eauto].
      * intros H. by apply H.
      * done.
    + intros ->. destruct (post_init_covered p) as [_ Hok].
      { done. }
      { cbn. intros n Hin%elem_of_list_to_set. apply elem_of_app. by left. }
      { cbn. intros n Hin. apply elem_of_app. by right. }
      rewrite Hok by done.
      eexists. split; [reflexivity|]. done.
Qed.

End search_space_and_problems.

(** ** Construction, once more: targets of a problem, shared strategies *)

Section problem_targets.
Import core benchmark_problem.

Lemma set_target_twice (p : BenchmarkProblem) (m m' : gmap string TParamValue) :
  set_target_fidelity_and_task (set_target_fidelity_and_task p m) m'
  = set_target_fidelity_and_task p m'.
Proof. done. Qed.

Lemma post_init_returns (p p' : BenchmarkProblem) :
  __post_init__ p = Return p' →
  p' = set_target_fidelity_and_task p
         (compute_target_fidelity_and_task (search_space p)).
Proof.
  unfold __post_init__.
  repeat match goal with
         | |- context [if ?b then _ else _] => destruct b; try done
         end.
  cbv zeta.
  repeat match goal with
         | |- context [if ?b then _ else _] => destruct b; try done
         end.
  by intros [= <-].
Qed.



Lemma compute_target_cons (x : SearchSpaceParameter) (ps : list SearchSpaceParameter)
    (n : string) :
  compute_target_fidelity_and_task (x :: ps) !! n
  = match compute_target_fidelity_and_task ps !! n with
    | Some v => Some v
    | None => if has_target x && bool_decide (pname x = n)
              then Some (target_value x) else None
    end.
Proof.
  unfold compute_target_fidelity_and_task. cbn [List.filter].
  fold (has_target x).
  destruct (has_target x); cbn [map rev andb].
  - rewrite list_to_map_app.
    set (m := list_to_map (rev _)).
    destruct (m !! n) as [v|] eqn:Hv.
    + by apply lookup_union_Some_l.
    + rewrite lookup_union_r by done. cbn. case_bool_decide as Hn.
      * subst. by rewrite lookup_insert_eq.
      * rewrite lookup_insert_ne by done. done.
  - by destruct (_ !! n).
Qed.

Lemma compute_target_is_Some (ps : list SearchSpaceParameter) (n : string) :
  is_Some (compute_target_fidelity_and_task ps !! n)
  ↔ ∃ p, p ∈ ps ∧ pname p = n ∧ has_target p = true.
Proof.
  induction ps as [|x ps IH].
  - split; [by intros [? ?] | by intros (? & ?%elem_of_nil & _)].
  - rewrite compute_target_cons. split.
    + destruct (compute_target_fidelity_and_task ps !! n) as [v|] eqn:Hv.
      * intros _. destruct (proj1 IH) as (p & Hp & Hn & Ht); [by eexists|].
        exists p. split; [by right | done].
      * destruct (has_target x) eqn:Hx; [|by intros [? ?]].
        case_bool_decide; [|by intros [? ?]].
        intros _. exists x. split; [by left | done].
    + intros (p & Hp & Hn & Ht).
      destruct (compute_target_fidelity_and_task ps !! n) as [v|] eqn:Hv;
        [by eexists|].
      apply elem_of_cons in Hp as [-> | Hp].
      * rewrite Ht, bool_decide_eq_true_2 by done. by eexists.
      * assert (Hsome : is_Some (None : option TParamValue))
          by (apply IH; eauto).
        by destruct Hsome.
Qed.

Lemma compute_target_NoDup (ps : list SearchSpaceParameter) (p : SearchSpaceParameter) :
  NoDup (map pname ps) → p ∈ ps → has_target p = true →
  compute_target_fidelity_and_task ps !! pname p = Some (target_value p).
Proof.
  induction ps as [|x ps IH]; [by intros _ ?%elem_of_nil|].
  cbn [map]. intros [Hx Hps]%NoDup_cons Hp Ht. rewrite compute_target_cons.
  apply elem_of_cons in Hp as [-> | Hp].
  - destruct (compute_target_fidelity_and_task ps !! pname x) as [v|] eqn:Hv.
    + exfalso. apply Hx.
      destruct (proj1 (compute_target_is_Some ps (pname x)))
        as (q & Hq & Hn & _); [by eexists|].
      rewrite <- Hn. apply list_elem_of_In, in_map, list_elem_of_In, Hq.
    + by rewrite Ht, bool_decide_eq_true_2.
  - by rewrite (IH Hps Hp Ht).
Qed.

(** X14. After [__post_init__], the keys of [target_fidelity_and_task] are
    exactly the names of the parameters that are fidelity parameters or
    choice parameters marked as tasks; and, the names of the parameters being
    distinct, each key is mapped to the target value of its parameter. *)
Theorem target_fidelity_and_task_after_post_init (self self' : BenchmarkProblem) :
  __post_init__ self = Return self' →
  (∀ n, is_Some (target_fidelity_and_task self' !! n)
        ↔ ∃ p, p ∈ search_space self ∧ pname p = n ∧ has_target p = true)
  ∧ (NoDup (map pname (search_space self)) →
     ∀ n v, target_fidelity_and_task self' !! n = Some v
            ↔ ∃ p, p ∈ search_space self ∧ pname p = n ∧ has_target p = true
                   ∧ target_value p = v).
Proof.
  intros ->%post_init_returns. cbn [set_target_fidelity_and_task target_fidelity_and_task].
  split; [apply compute_target_is_Some|].
  intros Hnd n v. split.
  - intros Hv.
    destruct (proj1 (compute_target_is_Some (search_space self) n))
      as (p & Hp & Hn & Ht); [by eexists|].
    exists p. split; [done|]. split; [done|]. split; [done|].
    rewrite <- Hn, (compute_target_NoDup _ _ Hnd Hp Ht) in Hv. congruence.
  - intros (p & Hp & <- & Ht & <-). by apply compute_target_NoDup.
Qed.

End problem_targets.

Section shared_strategy.
Import core benchmark_method.

Lemma post_init_quiet (self : BenchmarkMethod) (h : store) :
  (∀ l ess, early_stopping_strategy self = Some l → h !! l = Some ess →
            seconds_between_polls ess ≤ 0) →
  store_after (__post_init__ self h) = h ∧ warnings (__post_init__ self h) = [].
Proof.
  intros Hq. unfold __post_init__. cbv zeta.
  rewrite post_init_keeps_strategy.
  destruct (early_stopping_strategy self) as [l|] eqn:Hl; [|done].
  destruct (h !! l) as [ess|] eqn:Hess; [|done].
  specialize (Hq l ess eq_refl Hess).
  destruct (Z.ltb_spec 0 (seconds_between_polls ess)); [lia | done].
Qed.

Lemma post_init_leaves_no_positive_polls (self : BenchmarkMethod) (h : store)
    (l : loc) (ess : EarlyStoppingStrategy) :
  early_stopping_strategy self = Some l →
  store_after (__post_init__ self h) !! l = Some ess →
  seconds_between_polls ess ≤ 0.
Proof.
  intros Hl. unfold __post_init__. cbv zeta.
  rewrite post_init_keeps_strategy, Hl.
  destruct (h !! l) as [ess0|] eqn:Hess; [|cbn; congruence].
  destruct (Z.ltb_spec 0 (seconds_between_polls ess0)); cbn.
  - rewrite lookup_insert_eq. by intros [= <-].
  - rewrite Hess. intros [= <-]. done.
Qed.

Lemma post_init_method_after (self : BenchmarkMethod) (h : store) :
  method_after (__post_init__ self h)
  = if bool_decide (name self = "DEFAULT")
    then set_name self (gs_name (generation_strategy self)) else self.
Proof.
  unfold __post_init__. cbv zeta.
  destruct (early_stopping_strategy _) as [l|]; [|done].
  destruct (h !! l) as [ess|]; [|done].
  by destruct (0 <? seconds_between_polls ess).
Qed.

(** X15. [BenchmarkMethod.__post_init__] warns at most once per strategy
    object: once a method has been constructed, constructing any method with
    the same early-stopping strategy object emits no warning and changes no
    strategy. Run again on its own result, [__post_init__] changes
    nothing. *)
Theorem shared_strategy_warns_once (self : BenchmarkMethod) (h : store) :
  (∀ other : BenchmarkMethod,
     early_stopping_strategy other = early_stopping_strategy self →
     warnings (__post_init__ other (store_after (__post_init__ self h))) = []
     ∧ store_after (__post_init__ other (store_after (__post_init__ self h)))
       = store_after (__post_init__ self h))
  ∧ __post_init__ (method_after (__post_init__ self h))
      (store_after (__post_init__ self h))
    = {| method_after := method_after (__post_init__ self h);
         store_after := store_after (__post_init__ self h);
         warnings := [] |}.
Proof.
  assert (Hother : ∀ other : BenchmarkMethod,
            early_stopping_strategy other = early_stopping_strategy self →
            store_after (__post_init__ other (store_after (__post_init__ self h)))
            = store_after (__post_init__ self h)
            ∧ warnings (__post_init__ other (store_after (__post_init__ self h)))
              = []).
  { intros other Hsame. apply post_init_quiet. intros l ess Hl Hess.
    rewrite Hsame in Hl. by eapply post_init_leaves_no_positive_polls. }
  split.
  - intros other Hsame. by destruct (Hother other Hsame).
  - destruct (Hother (method_after (__post_init__ self h))) as [Hstore Hwarn].
    { rewrite post_init_method_after. apply post_init_keeps_strategy. }
    assert (Heta : ∀ o : post_init_outcome,
              o = {| method_after := method_after o;
                     store_after := store_after o;
                     warnings := warnings o |}) by (by intros []).
    rewrite (Heta (__post_init__ (method_after (__post_init__ self h))
                     (store_after (__post_init__ self h)))).
    rewrite Hstore, Hwarn. f_equal.
    rewrite !post_init_method_after.
    destruct (decide (name self = "DEFAULT")) as [Hname | Hname].
    + rewrite (bool_decide_eq_true_2 _ Hname).
      by case_bool_decide.
    + rewrite (bool_decide_eq_false_2 _ Hname).
      by rewrite (bool_decide_eq_false_2 _ Hname).
Qed.

End shared_strategy.

(** ** The Branin map metrics *)

Section timestamp_metric.
Import core python branin_map.
Context {float MapData : Type}.
Variable branin : float → float → float.
Variable fmul : float → float → float.
Variable weight_of : float → Z → float.
Variable one zero : float.
Variable feq : float → float → bool.
Variable fromiter : list TParamValue → py_result (list float).
Variable from_multiple_map_data : list (list (@Row float)) → py_result MapData.

Abbreviation fetch :=
  (fetch_trial_data branin fmul weight_of one zero fromiter
     from_multiple_map_data).
Abbreviation fetch_all :=
  (fetches branin fmul weight_of one zero fromiter from_multiple_map_data).
Abbreviation frame_of := (frame branin fmul weight_of one zero fromiter).
Abbreviation row_describes :=
  (describes branin fmul weight_of one zero fromiter).

Lemma fetch_counter (self : BraninTimestampMapMetric) (trial : BaseTrial)
    (noisy : bool) :
  (fetch self trial noisy).2
  = set_trial_index_to_timestamp self
      (<[index trial := next_counter self trial]>
         (_trial_index_to_timestamp self)).
Proof. done. Qed.

Lemma fetch_all_snoc (self : BraninTimestampMapMetric)
    (calls : list (BaseTrial * bool)) (trial : BaseTrial) (noisy : bool) :
  fetch_all self (calls ++ [(trial, noisy)])
  = (fetch (fetch_all self calls) trial noisy).2.
Proof. unfold fetches. by rewrite fold_left_app. Qed.

Lemma fetch_all_app (self : BraninTimestampMapMetric)
    (calls calls' : list (BaseTrial * bool)) :
  fetch_all self (calls ++ calls') = fetch_all (fetch_all self calls) calls'.
Proof. unfold fetches. by rewrite fold_left_app. Qed.

Lemma running_fetches_count (self : BraninTimestampMapMetric) (i : Z)
    (running : list (BaseTrial * bool)) :
  0 ≤ default 0 (_trial_index_to_timestamp self !! i) →
  Forall (λ call, index call.1 = i ∧ is_running call.1 = true) running →
  default 0 (_trial_index_to_timestamp (fetch_all self running) !! i)
  = default 0 (_trial_index_to_timestamp self !! i)
    + Z.of_nat (length running).
Proof.
  intros Hc Hrun. revert self Hc.
  induction Hrun as [|[trial noisy] running [Hi Hr] _ IH]; intros self Hc.
  - cbn. lia.
  - cbn [fetches fold_left fst snd length].
    change (fold_left _ running ?s) with (fetch_all s running).
    cbn [fst snd] in Hi, Hr. rewrite IH.
    + rewrite fetch_counter. cbn. rewrite <- Hi, lookup_insert_eq. cbn.
      unfold next_counter. rewrite Hr, orb_true_r. lia.
    + rewrite fetch_counter. cbn. rewrite <- Hi, lookup_insert_eq. cbn.
      unfold next_counter. rewrite Hr, orb_true_r. rewrite Hi. lia.
Qed.

Lemma finished_fetches_keep (self : BraninTimestampMapMetric) (i : Z)
    (finished : list (BaseTrial * bool)) :
  0 < default 0 (_trial_index_to_timestamp self !! i) →
  Forall (λ call, index call.1 = i ∧ is_running call.1 = false) finished →
  default 0 (_trial_index_to_timestamp (fetch_all self finished) !! i)
  = default 0 (_trial_index_to_timestamp self !! i).
Proof.
  intros Hc Hfin. revert self Hc.
  induction Hfin as [|[trial noisy] finished [Hi Hr] _ IH]; intros self Hc.
  - done.
  - cbn [fetches fold_left fst snd].
    change (fold_left _ finished ?s) with (fetch_all s finished).
    cbn [fst snd] in Hi, Hr.
    assert (Hnext : default 0
              (_trial_index_to_timestamp (fetch self trial noisy).2 !! i)
              = default 0 (_trial_index_to_timestamp self !! i)).
    { rewrite fetch_counter. cbn. rewrite <- Hi, lookup_insert_eq. cbn.
      unfold next_counter. rewrite Hr, orb_false_r.
      destruct (Z.eqb_spec (default 0 (_trial_index_to_timestamp self
                                         !! index trial)) 0); [|done].
      rewrite Hi in *. lia. }
    rewrite IH; [done | by rewrite Hnext].
Qed.

(** X16. For a trial the metric has not seen, the counter of
    [BraninTimestampMapMetric] counts the fetches made while the trial was
    running, whether they succeeded or not: after [n] such fetches it is
    [n]. Fetches made after the trial has stopped running leave it there,
    except that the first fetch of all always counts: the counter is then
    [max(1, n)]. *)
Theorem fetches_count_the_polls_while_running
    (self : BraninTimestampMapMetric) (i : Z)
    (running finished : list (BaseTrial * bool)) :
  _trial_index_to_timestamp self !! i = None →
  Forall (λ call, index call.1 = i ∧ is_running call.1 = true) running →
  Forall (λ call, index call.1 = i ∧ is_running call.1 = false) finished →
  _trial_index_to_timestamp (fetch_all self running) !! i
  = (if running is [] then None else Some (Z.of_nat (length running)))
  ∧ _trial_index_to_timestamp (fetch_all self (running ++ finished)) !! i
    = (if running ++ finished is [] then None
       else Some (Z.max 1 (Z.of_nat (length running)))).
Proof.
  intros Hnew Hrun Hfin.
  assert (Hlookup : ∀ (s : BraninTimestampMapMetric) calls,
            calls ≠ [] →
            Forall (λ call : BaseTrial * bool, index call.1 = i) calls →
            _trial_index_to_timestamp (fetch_all s calls) !! i
            = Some (default 0
                      (_trial_index_to_timestamp (fetch_all s calls) !! i))).
  { intros s calls Hne Hall.
    destruct (exists_last Hne) as (calls' & [trial noisy] & ->).
    rewrite Forall_app, Forall_singleton in Hall.
    destruct Hall as [_ Hlast]. cbn in Hlast.
    rewrite fetch_all_snoc, fetch_counter. cbn.
    rewrite <- Hlast, lookup_insert_eq. done. }
  assert (Hcount : default 0
            (_trial_index_to_timestamp (fetch_all self running) !! i)
            = Z.of_nat (length running)).
  { rewrite (running_fetches_count self i running); rewrite ?Hnew; done. }
  assert (Hrun' : Forall (λ call : BaseTrial * bool, index call.1 = i) running)
    by (eapply Forall_impl; [exact Hrun | by intros ? [? _]]).
  assert (Hfin' : Forall (λ call : BaseTrial * bool, index call.1 = i) finished)
    by (eapply Forall_impl; [exact Hfin | by intros ? [? _]]).
  split.
  - destruct running as [|call running]; [done|].
    rewrite Hlookup by done. by rewrite Hcount.
  - destruct running as [|call running].
    + cbn [app]. destruct Hfin as [|[trial noisy] finished [Hi Hr] Hfin];
        [done|].
      cbn [fetches fold_left fst snd].
      change (fold_left _ finished ?s) with (fetch_all s finished).
      cbn [fst snd] in Hi, Hr.
      assert (Hone : _trial_index_to_timestamp (fetch self trial noisy).2 !! i
                     = Some 1).
      { rewrite fetch_counter. cbn. rewrite <- Hi, lookup_insert_eq.
        unfold next_counter. rewrite Hi, Hnew. done. }
      destruct finished as [|call finished]; [done|].
      rewrite Hlookup; [|done|by inversion Hfin'].
      rewrite finished_fetches_keep; [by rewrite Hone | by rewrite Hone | done].
    + rewrite fetch_all_app.
      destruct finished as [|call' finished].
      * change (fetch_all ?s []) with s.
        rewrite Hlookup by done. rewrite Hcount. cbn [length app].
        f_equal. lia.
      * rewrite Hlookup by done.
        rewrite finished_fetches_keep; [|rewrite Hcount; cbn; lia|done].
        rewrite Hcount. cbn [length app]. f_equal. lia.
Qed.

Lemma frame_value (self : BraninTimestampMapMetric) (trial : BaseTrial)
    (noisy : bool) (timestamp : Z) (rows : list Row) :
  frame_of self trial noisy timestamp = Value rows →
  Forall2 (row_describes self trial noisy timestamp) (arms trial) rows.
Proof.
  unfold frame.
  intros (res & Hres & (keys & Hkeys & [= <-])%and_then_value)%and_then_value.
  apply comprehension_value in Hres, Hkeys.
  eapply Forall2_impl;
    [exact (Forall2_zip_with_zip _ _ _ _ _ _ Hres Hkeys)|].
  intros arm row (item & key & Hitem & Hkey & ->). cbn in Hitem, Hkey.
  apply and_then_value in Hitem as (x & Hx & Hf). unfold f in Hf.
  apply and_then_value in Hf as ([x1 x2] & Hunpack & [= <-]).
  assert (x = [x1; x2]) as ->.
  { destruct x as [|a [|b [|c x]]]; cbn in Hunpack; try done.
    by injection Hunpack as -> ->. }
  unfold describes. cbn. split; [done|]. split; [done|]. split; [done|].
  split; [done|]. exists x1, x2. done.
Qed.

(** X18. When [fetch_trial_data] returns [Ok], its value is built from one
    frame per timestamp [0, ..., counter - 1], in order, where [counter] is
    the counter after the fetch. Every frame has one row per arm of the
    trial, in order, with the arm's name, the metric's name, the trial's
    index, [noise_sd] as [sem] when [noisy] and [0.0] otherwise, the mean
    [branin(x1, x2) * weight] of the arm's two parameter values at this
    timestamp, and the entry of [f]'s result under the map key. *)
Theorem fetch_returns_a_frame_for_each_timestamp
    (self : BraninTimestampMapMetric) (trial : BaseTrial) (noisy : bool)
    (value : MapData) :
  (fetch self trial noisy).1 = Ok value →
  ∃ datas,
    from_multiple_map_data datas = Value value
    ∧ Forall2
        (λ timestamp rows,
           Forall2
             (row_describes (fetch self trial noisy).2 trial noisy timestamp)
             (arms trial) rows)
        (range (next_counter self trial)) datas.
Proof.
  unfold fetch_trial_data. cbv zeta. cbn [fst snd].
  fold (next_counter self trial).
  set (self' := set_trial_index_to_timestamp _ _).
  destruct (and_then _ _) as [v|e] eqn:Hbody; [|done].
  intros [= ->].
  apply and_then_value in Hbody as (datas & Hdatas & Hvalue).
  exists datas. split; [done|].
  apply comprehension_value in Hdatas.
  eapply Forall2_impl; [exact Hdatas|].
  intros timestamp rows. apply frame_value.
Qed.

(** X19. When the parameters of some arm of the trial do not convert to
    exactly two floats, [fetch_trial_data] raises nothing: it returns [Err]
    with the message [Failed to fetch {name}] and the exception caught.
    The counter of the trial has been advanced all the same, and is
    positive. *)
Theorem failed_fetch_is_wrapped_and_counted
    (self : BraninTimestampMapMetric) (trial : BaseTrial) (noisy : bool)
    (arm : Arm) :
  0 ≤ default 0 (_trial_index_to_timestamp self !! index trial) →
  arm ∈ arms trial →
  (∀ x1 x2, fromiter (map snd (parameters arm)) ≠ Value [x1; x2]) →
  (∃ e, (fetch self trial noisy).1
        = Err {| message := "Failed to fetch " +:+ name self;
                 exception := e |})
  ∧ _trial_index_to_timestamp (fetch self trial noisy).2 !! index trial
    = Some (next_counter self trial)
  ∧ 0 < next_counter self trial.
Proof.
  intros Hc Harm Hbad.
  assert (Hpos : 0 < next_counter self trial).
  { unfold next_counter.
    destruct (Z.eqb_spec (default 0 (_trial_index_to_timestamp self
                                       !! index trial)) 0) as [-> | Hne];
      cbn; [lia|].
    destruct (is_running trial); lia. }
  split; [|split; [|done]].
  - unfold fetch_trial_data. cbv zeta. cbn [fst snd].
    fold (next_counter self trial).
    set (self' := set_trial_index_to_timestamp _ _).
    assert (Hfirst : ∃ e, frame_of self' trial noisy 0 = Throw e).
    { assert (Hfail : ∃ e,
                and_then (fromiter (map snd (parameters arm)))
                  (λ x, f branin fmul weight_of one self' x 0) = Throw e).
      { destruct (fromiter (map snd (parameters arm))) as [x|e] eqn:Hx;
          [|cbn; eauto].
        cbn. unfold f.
        destruct x as [|a [|b [|c x]]]; cbn; eauto.
        by destruct (Hbad a b). }
      destruct Hfail as [e Hfail]. unfold frame.
      destruct (comprehension_throw
                  (λ arm, and_then (fromiter (map snd (parameters arm)))
                            (λ x, f branin fmul weight_of one self' x 0))
                  _ _ _ Harm Hfail) as [e' ->].
      cbn. eauto. }
    destruct Hfirst as [e Hfirst].
    assert (Hrange : range (next_counter self trial)
                     = 0 :: map Z.of_nat (seq 1 (Z.to_nat (next_counter self trial) - 1))).
    { unfold range.
      destruct (Z.to_nat (next_counter self trial)) as [|k] eqn:Hk; [lia|].
      cbn. by rewrite Nat.sub_0_r. }
    rewrite Hrange. cbn [comprehension]. rewrite Hfirst. cbn. eauto.
  - rewrite fetch_counter. cbn. by rewrite lookup_insert_eq.
Qed.

End timestamp_metric.

Section fidelity_metric.
Import core python branin_map.
Context {float : Type}.
Variable branin : float → float → float.
Variable penalized : float → float → Q → float.

Abbreviation call_f := (fidelity_f branin penalized).
Abbreviation calls_f := (fidelity_calls branin penalized).

Lemma fidelity_f_index (self : BraninFidelityMapMetric) (x : list float)
    (u : float) :
  fidelity_index (call_f self x u).2
  = if fidelity_index self <? 4 then fidelity_index self + 1
    else fidelity_index self.
Proof.
  unfold fidelity_f. cbn [snd]. change (Z.of_nat (length FIDELITY)) with 4.
  by destruct (fidelity_index self <? 4).
Qed.

Lemma fidelity_calls_index (self : BraninFidelityMapMetric)
    (calls : list (list float * float)) :
  -1 ≤ fidelity_index self ≤ 4 →
  fidelity_index (calls_f self calls)
  = Z.min (fidelity_index self + Z.of_nat (length calls)) 4.
Proof.
  revert self. induction calls as [|[x u] calls IH]; intros self Hi.
  - cbn. lia.
  - cbn [fidelity_calls fold_left fst snd length].
    change (fold_left _ calls ?s) with (calls_f s calls).
    rewrite IH; rewrite fidelity_f_index;
      destruct (Z.ltb_spec (fidelity_index self) 4); lia.
Qed.

(** X20. After [self.index = -1], the calls of [BraninFidelityMapMetric.f]
    walk through [FIDELITY]: the call after [k < 4] earlier ones returns the
    fidelity [FIDELITY[k]], with the mean penalised for it. Every call after
    four raises [IndexError], and [index] stays at 4 until it is set
    again. *)
Theorem fidelity_runs_out_after_four_calls (self : BraninFidelityMapMetric)
    (calls : list (list float * float)) (x1 x2 u : float) :
  let before := calls_f (reset_index self) calls in
  fidelity_index before = Z.min (Z.of_nat (length calls) - 1) 4
  ∧ (∀ fidelity, FIDELITY !! length calls = Some fidelity →
       (call_f before [x1; x2] u).1
       = Value {| fidelity_mean := penalized (branin x1 x2) u fidelity;
                  fidelity := fidelity |})
  ∧ ((4 ≤ length calls)%nat →
       (call_f before [x1; x2] u).1
       = Throw (IndexError "list index out of range")
       ∧ fidelity_index (call_f before [x1; x2] u).2 = 4).
Proof.
  intros before.
  assert (Hindex : fidelity_index before
                   = Z.min (Z.of_nat (length calls) - 1) 4).
  { unfold before. rewrite fidelity_calls_index by (cbn; lia). cbn. lia. }
  split; [done|].
  unfold fidelity_f. cbn [fst snd unpack2 and_then].
  change (Z.of_nat (length FIDELITY)) with 4. split.
  - intros fidelity Hf.
    pose proof (lookup_lt_Some _ _ _ Hf) as Hlt. cbn in Hlt.
    destruct (Z.ltb_spec (fidelity_index before) 4); [|lia].
    cbn [set_index fidelity_index].
    replace (fidelity_index before + 1) with (Z.of_nat (length calls)) by lia.
    by rewrite (getitem_lookup _ _ _ Hf).
  - intros Hge.
    destruct (Z.ltb_spec (fidelity_index before) 4); cbn [set_index fidelity_index].
    + replace (fidelity_index before + 1) with (Z.of_nat 4) by lia.
      rewrite getitem_beyond by (cbn; lia). split; [done | lia].
    + replace (fidelity_index before) with (Z.of_nat 4) by lia.
      rewrite getitem_beyond by (cbn; lia). done.
Qed.

End fidelity_metric.

(** ** Instances *)

Section cast_instances.
Import python typeutils cast_examples.

Lemma checked_cast_dict_round_trip_witness :
  checked_cast_dict isinstance str_of_type str_of StrClass IntClass counts
  = Value counts.
Proof.
  refine (proj1 (proj1 (checked_cast_dict_round_trip isinstance str_of_type
                          str_of StrClass IntClass counts _)) _).
  - apply NoDup_cons. split; [|apply NoDup_singleton].
    intros Hin. apply list_elem_of_singleton in Hin. discriminate.
  - repeat constructor.
Defined.

Lemma argparse_type_encoder_is_idempotent_witness :
  isinstance (_argparse_type_encoder isinstance type_of TypeClass (IntObject 3))
    TypeClass = true
  ∧ _argparse_type_encoder isinstance type_of TypeClass
      (_argparse_type_encoder isinstance type_of TypeClass (IntObject 3))
    = _argparse_type_encoder isinstance type_of TypeClass (IntObject 3)
  ∧ (isinstance (IntObject 3) TypeClass = true →
     _argparse_type_encoder isinstance type_of TypeClass (IntObject 3)
     = IntObject 3).
Proof.
  refine (argparse_type_encoder_is_idempotent isinstance type_of TypeClass
            (IntObject 3) _).
  intros v. by destruct v.
Defined.

Example a_bool_is_an_int :
  checked_cast_list isinstance str_of_type str_of IntClass
    [IntObject 1; BoolObject true]
  = Value [IntObject 1; BoolObject true].
Proof. vm_compute. reflexivity. Qed.

Example an_int_is_no_bool :
  checked_cast_list isinstance str_of_type str_of BoolClass
    [BoolObject true; IntObject 1; StrObject "a"]
  = Throw (Builtin (ValueError
      ("Value was not of type <class 'bool'>:" +:+ newline +:+ "1"))).
Proof. vm_compute. reflexivity. Qed.

Example tuple_message_names_no_type :
  checked_cast_to_tuple isinstance repr_of [IntClass; BoolClass] (StrObject "a")
  = Throw (Builtin (ValueError
      ("Value was not of type <class 'type'>:" +:+ newline +:+ "'a'"))).
Proof. vm_compute. reflexivity. Qed.

End cast_instances.

Section builder_instances.
Import core benchmark_problem python problem_builders builder_examples.

Abbreviation checked_moo_opt_config :=
  (get_moo_opt_config constraint_on_objective).
Abbreviation checked_soo_opt_config :=
  (get_soo_opt_config constraint_on_objective).
Abbreviation checked_problem_from_botorch :=
  (create_problem_from_botorch constraint_on_objective bounds_out_of_order
     any_test_function).

Lemma moo_config_splits_outcome_names_witness :
  ∃ c,
    checked_moo_opt_config ["m_0"; "m_1"; "constraint_slack_0"] [18; 6]%Q 1
      true false false = Value c
    ∧ cls (names_of c) = MultiObjectiveOptimizationConfigClass
    ∧ map bound (config_objective_thresholds c) = [18; 6]%Q.
Proof.
  destruct (moo_config_splits_outcome_names constraint_on_objective
              ["m_0"; "m_1"; "constraint_slack_0"] [18; 6]%Q 1
              true false false)
    as (c & Hc & Hcls & _ & Hbound & _).
  - cbn. lia.
  - reflexivity.
  - exists c. split; [|split; [exact Hcls | exact Hbound]].
    rewrite Hc. apply construct_accepts.
    destruct (checked_moo_opt_config ["m_0"; "m_1"; "constraint_slack_0"]
                [18; 6]%Q 1 true false false) as [c'|e] eqn:Hc';
      [|vm_compute in Hc'; discriminate].
    symmetry in Hc. by apply construct_value in Hc as [_ ?].
Defined.

Lemma moo_config_with_more_constraints_than_names_witness :
  ∃ c,
    checked_moo_opt_config ["a"; "b"; "c"] [] 4 true false false = Value c
    ∧ objective (names_of c) = MultiObjective []
    ∧ outcome_constraints (names_of c) = ["c"].
Proof.
  destruct (moo_config_with_more_constraints_than_names
              constraint_on_objective ["a"; "b"; "c"] 4 true false false)
    as (c & Hc & Hobj & _ & Hcon & _).
  - cbn. lia.
  - exists c. split; [|split; [exact Hobj | exact Hcon]].
    rewrite Hc. apply construct_accepts.
    destruct (checked_moo_opt_config ["a"; "b"; "c"] [] 4 true false false)
      as [c'|e] eqn:Hc'; [|vm_compute in Hc'; discriminate].
    symmetry in Hc. by apply construct_value in Hc as [_ ?].
Defined.


Lemma single_objective_problem_from_botorch_witness :
  ∃ p,
    checked_problem_from_botorch Branin None 30 None true false None false None
    = Value p
    ∧ benchmark_problem.name p = "Branin"
    ∧ test_function_outcome_names p = ["Branin"]
    ∧ target_fidelity_and_task p = ∅.
Proof.
  destruct (single_objective_problem_from_botorch constraint_on_objective
              bounds_out_of_order any_test_function Branin None 30 None true
              false None false None eq_refl) as [_ Hreturns].
  destruct (botorch_search_space bounds_out_of_order Branin None)
    as [space|e] eqn:Hspace; [|vm_compute in Hspace; discriminate].
  destruct (Hreturns space 0.397887%Q eq_refl eq_refl eq_refl eq_refl)
    as (p & Hp & Hname & Hout & _ & _ & _ & _ & _ & Hdefault).
  exists p. split; [exact Hp|]. split; [exact Hname|].
  split; [exact Hout | exact (proj1 (Hdefault eq_refl))].
Defined.

Lemma multi_objective_problem_from_botorch_witness :
  ∃ p,
    checked_problem_from_botorch ConstrainedBraninCurrin None 30 None true
      false None false None = Value p
    ∧ is_moo p = true
    ∧ test_function_outcome_names p
      = ["ConstrainedBraninCurrin_0"; "ConstrainedBraninCurrin_1";
         "constraint_slack_0"].
Proof.
  destruct (botorch_search_space bounds_out_of_order ConstrainedBraninCurrin
              None) as [space|e] eqn:Hspace;
    [|vm_compute in Hspace; discriminate].
  destruct (multi_objective_problem_from_botorch constraint_on_objective
              bounds_out_of_order any_test_function ConstrainedBraninCurrin
              None 30 None true false None false None space eq_refl Hspace
              eq_refl) as (_ & _ & Hrest).
  destruct Hrest as (_ & _ & Hrest); [cbn; lia | reflexivity |].
  destruct Hrest as [_ Hrest]; [reflexivity|].
  destruct (Hrest 608.4004237022673%Q eq_refl) as [_ Hreturns].
  destruct (Hreturns eq_refl) as (p & Hp & Hmoo & _ & Hout & _).
  exists p. split; [exact Hp|]. split; [exact Hmoo | exact Hout].
Defined.


Lemma target_fidelity_and_task_after_post_init_witness :
  ∃ self',
    __post_init__ multi_fidelity = Return self'
    ∧ target_fidelity_and_task self' !! "fidelity" = Some (PFloat 1)
    ∧ target_fidelity_and_task self' !! "task" = Some (PInt 0)
    ∧ ¬ is_Some (target_fidelity_and_task self' !! "x0").
Proof.
  assert (Hret : __post_init__ multi_fidelity
                 = Return (set_target_fidelity_and_task multi_fidelity
                             (compute_target_fidelity_and_task
                                (search_space multi_fidelity))))
    by (vm_compute; reflexivity).
  eexists. split; [exact Hret|].
  destruct (target_fidelity_and_task_after_post_init multi_fidelity _ Hret)
    as [Hdom Hlookup].
  assert (Hnd : NoDup (map pname (search_space multi_fidelity)))
    by compute_done.
  split; [|split].
  - apply (Hlookup Hnd). eexists. split; [right; left | done].
  - apply (Hlookup Hnd). eexists. split; [right; right; left | done].
  - intros (p & Hin & Hname & Htarget)%Hdom. cbn in Hin.
    repeat (apply elem_of_cons in Hin as [-> | Hin]; [done|]).
    by apply elem_of_nil in Hin.
Defined.

(** [get_soo_opt_config(outcome_names=["a", "a"])], with a constructor that
    refuses a constraint on the objective metric. *)
Example constraint_on_the_objective_is_refused :
  checked_soo_opt_config ["a"; "a"] true false false
  = Throw (Builtin (ValueError "Cannot constrain on objective metric.")).
Proof. vm_compute. reflexivity. Qed.

Example bounds_out_of_order_are_refused :
  get_continuous_search_space bounds_out_of_order [(1, 0)]%Q
  = Throw (OtherError "UserInputError"
             "the upper bound is not above the lower bound").
Proof. vm_compute. reflexivity. Qed.

Example problem_named_as_a_constraint :
  checked_problem_from_botorch
    {| class_name := "ConstrainedGramacy"; is_constrained := true;
       is_multi_objective := false; num_objectives := 1;
       num_constraints := 2; _bounds := [(0, 1); (0, 1)]%Q;
       _ref_point := []; max_hv := Value 0%Q;
       tp_optimal_value := Value 0.5998%Q |}
    None 30 (Some "constraint_slack_0") true false None false None
  = Throw (Builtin (ValueError "Cannot constrain on objective metric.")).
Proof. vm_compute. reflexivity. Qed.

Example moo_with_inference_trace_from_botorch :
  checked_problem_from_botorch ConstrainedBraninCurrin None 30 None true false
    None true None
  = Throw (Builtin (NotImplementedError
      "Inference trace is not supported for MOO. Please set `report_inference_value_as_trace` to False.")).
Proof. vm_compute. reflexivity. Qed.

Example two_range_parameters :
  get_continuous_search_space bounds_out_of_order (_bounds Branin)
  = Value [ {| range_name := "x0"; parameter_type := FLOAT;
               lower := -5; upper := 10 |};
            {| range_name := "x1"; parameter_type := FLOAT;
               lower := 0; upper := 15 |} ].
Proof. vm_compute. reflexivity. Qed.

Example observed_noise_in_six_dimensions :
  _get_name {| class_name := "Hartmann"; is_constrained := false;
               is_multi_objective := false; num_objectives := 1;
               num_constraints := 0; _bounds := []; _ref_point := [];
               max_hv := Value 0%Q; tp_optimal_value := Value 0%Q |}
    true (Some 6)
  = "Hartmann_observed_noise_6d".
Proof. vm_compute. reflexivity. Qed.

Example short_reference_point :
  checked_moo_opt_config ["m_0"; "m_1"] [18]%Q 0 true false false
  = Throw (Builtin (ValueError "zip() argument 2 is longer than argument 1")).
Proof. vm_compute. reflexivity. Qed.

End builder_instances.

Section metric_instances.
Import core python branin_map metric_examples.

Lemma fetches_count_the_polls_while_running_witness :
  _trial_index_to_timestamp
    (fetches plane Qmult linear_weight 1%Q 0%Q numbers all_rows
       branin_map_metric [(trial_0 true, true); (trial_0 true, true)]) !! 0
  = Some 2
  ∧ _trial_index_to_timestamp
      (fetches plane Qmult linear_weight 1%Q 0%Q numbers all_rows
         branin_map_metric
         ([(trial_0 true, true); (trial_0 true, true)]
          ++ [(trial_0 false, true)])) !! 0
    = Some 2.
Proof.
  refine (fetches_count_the_polls_while_running plane Qmult linear_weight
            1%Q 0%Q numbers all_rows branin_map_metric 0
            [(trial_0 true, true); (trial_0 true, true)]
            [(trial_0 false, true)] _ _ _).
  - reflexivity.
  - repeat constructor.
  - repeat constructor.
Defined.

Lemma fetch_returns_a_frame_for_each_timestamp_witness :
  ∃ value datas,
    (fetch_trial_data plane Qmult linear_weight 1%Q 0%Q numbers all_rows
       branin_map_metric (trial_0 true) true).1 = Ok value
    ∧ all_rows datas = Value value
    ∧ length datas = 1%nat.
Proof.
  destruct ((fetch_trial_data plane Qmult linear_weight 1%Q 0%Q numbers
               all_rows branin_map_metric (trial_0 true) true).1)
    as [value|e] eqn:Hfetch; [|vm_compute in Hfetch; discriminate].
  destruct (fetch_returns_a_frame_for_each_timestamp plane Qmult
              linear_weight 1%Q 0%Q numbers all_rows branin_map_metric
              (trial_0 true) true value Hfetch)
    as (datas & Hvalue & Hframes).
  exists value, datas. split; [reflexivity|]. split; [exact Hvalue|].
  apply Forall2_length in Hframes. by rewrite <- Hframes.
Defined.

Lemma failed_fetch_is_wrapped_and_counted_witness :
  (∃ e, (fetch_trial_data plane Qmult linear_weight 1%Q 0%Q numbers all_rows
           branin_map_metric trial_of_three_parameters true).1
        = Err {| message := "Failed to fetch branin_map"; exception := e |})
  ∧ _trial_index_to_timestamp
      (fetch_trial_data plane Qmult linear_weight 1%Q 0%Q numbers all_rows
         branin_map_metric trial_of_three_parameters true).2 !! 1
    = Some 1.
Proof.
  destruct (failed_fetch_is_wrapped_and_counted plane Qmult linear_weight
              1%Q 0%Q numbers all_rows branin_map_metric
              trial_of_three_parameters true
              {| arm_name := "1_0";
                 parameters := [("x1", PFloat 1); ("x2", PFloat 2);
                                ("x3", PFloat 3)] |})
    as (Herr & Hcount & _).
  - vm_compute. discriminate.
  - left.
  - intros x1 x2. vm_compute. discriminate.
  - split; [exact Herr | exact Hcount].
Defined.

Example fidelities_in_turn :
  map (λ n, fidelity <$>
              match (fidelity_f plane penalty
                       (fidelity_calls plane penalty
                          (reset_index branin_fidelity_metric)
                          (replicate n ([1; 2]%Q, 0%Q)))
                       [1; 2]%Q 0%Q).1 with
              | Value item => Some item
              | Throw _ => None
              end)
    [0; 1; 2; 3; 4; 5]%nat
  = [Some 0.1; Some 0.4; Some 0.7; Some 1.0; None; None]%Q.
Proof. vm_compute. reflexivity. Qed.

Example a_finished_trial_is_fetched_once :
  _trial_index_to_timestamp
    (fetches plane Qmult linear_weight 1%Q 0%Q numbers all_rows
       branin_map_metric
       [(trial_0 false, true); (trial_0 false, true); (trial_0 false, true)])
  !! 0 = Some 1.
Proof. vm_compute. reflexivity. Qed.

End metric_instances.
